(** * YouTube-Content-Optimizer: the video store and the Content-DNA aggregator

    A shallow embedding of the parts of the repository that the
    specification talks about:

    - [competitor_analysis.py]: [CompetitorAnalyzer.load_competitor_data],
      [save_competitor_data], [manual_add_video], [analyze_title_patterns],
      [_generate_title_pattern_recommendations];
    - [data_integration_module.py]: [DataIntegrationModule.run_enhanced_analysis]
      and [_analyze_content_dna];
    - [api_integration_module.py]: [_transform_to_competitor_format],
      [_infer_face_presence];
    - [youtube_api_extractor.py]: [_identify_patterns].

    Modelling conventions.

    - Python numbers (ints and floats alike) are rationals [Q]; the true
      division [/] is the partial operation [py_div], which raises
      [ZeroDivisionError] on a zero divisor.  Rounding of binary floating
      point is not represented: arithmetic is exact.
    - A Python call either returns or raises: [outcome A].
    - Strings are Rocq strings; [lower], [isdigit], [split] and the regular
      expression classes follow Python on the ASCII range.
    - A dictionary whose iteration order is observed (the counters of the
      title structures) is an association list in insertion order; the
      niche-keyed database, which is only looked up by key, is a [gmap].
    - The wall clock read by [time.strftime] / [datetime.now] is an explicit
      argument [now].
    - The video dictionaries held by a [CompetitorAnalyzer] are mutable
      objects: they live in a heap and the database lists hold references.
    - [json.dump] / [json.load] on the database file are an interface,
      [Json]; a property that needs the library to read back what it wrote
      says so in a premise. *)

From Stdlib Require Import QArith Qfield Lqa ZArith Ascii String.
From stdpp Require Import gmap strings list fin_maps pretty sorting.

Local Open Scope string_scope.
Local Open Scope list_scope.

(** ** Outcomes of Python calls *)

Inductive exn : Type :=
  | ZeroDivisionError
  | KeyError (key : string)
  | ValueError
  | FileNotFoundError
  | JSONDecodeError.

Inductive outcome (A : Type) : Type :=
  | Returned (a : A)
  | Raised (e : exn).
Arguments Returned {A} a.
Arguments Raised {A} e.

Definition obind {A B : Type} (m : outcome A) (k : A → outcome B) : outcome B :=
  match m with
  | Returned a => k a
  | Raised e => Raised e
  end.

Definition omap_outcome {A B : Type} (f : A → B) (m : outcome A) : outcome B :=
  match m with
  | Returned a => Returned (f a)
  | Raised e => Raised e
  end.

Notation "'do' x <- m ; k" := (obind m (λ x, k))
  (at level 10, x name, m at level 100, k at level 200).

(** Monadic left fold: the body of a [for] loop that may raise. *)
Fixpoint for_each {A S : Type} (body : S → A → outcome S) (l : list A) (s : S)
  : outcome S :=
  match l with
  | [] => Returned s
  | x :: l' => do s' <- body s x; for_each body l' s'
  end.

(** ** Numbers *)

(** Python's [a / b]. *)
Definition py_div (a b : Q) : outcome Q :=
  if Qeq_bool b 0 then Raised ZeroDivisionError else Returned (a / b)%Q.

(** [len(l)] as a number. *)
Definition qlen {A : Type} (l : list A) : Q := inject_Z (Z.of_nat (length l)).

Definition qnat (n : nat) : Q := inject_Z (Z.of_nat n).

(** [sum(l)]. *)
Definition qsum (l : list Q) : Q := foldr Qplus 0%Q l.

(** [a > b] on numbers. *)
Definition qgt (a b : Q) : bool := negb (Qle_bool a b).
Definition qlt (a b : Q) : bool := negb (Qle_bool b a).

(** [int(x)]: truncation towards zero. *)
Definition py_int (x : Q) : Z := Z.quot (Qnum x) (Zpos (Qden x)).

(** ** Strings *)

Definition ascii_code (c : ascii) : nat := nat_of_ascii c.

(** [c.isdigit()] on the ASCII range. *)
Definition isdigit (c : ascii) : bool :=
  (48 <=? ascii_code c)%nat && (ascii_code c <=? 57)%nat.

(** Whitespace of [str.split()] and of the regular-expression class [\s]
    on the ASCII range: TAB, LF, VT, FF, CR, FS, GS, RS, US and space. *)
Definition isspace (c : ascii) : bool :=
  let n := ascii_code c in
  ((9 <=? n)%nat && (n <=? 13)%nat) || ((28 <=? n)%nat && (n <=? 32)%nat).

Definition islower_alpha (c : ascii) : bool :=
  (97 <=? ascii_code c)%nat && (ascii_code c <=? 122)%nat.

(** The class [\w] after lowercasing: letters, digits and underscore. *)
Definition isword (c : ascii) : bool :=
  let n := ascii_code c in
  islower_alpha c || isdigit c || ((65 <=? n)%nat && (n <=? 90)%nat) || (n =? 95)%nat.

Definition lower_char (c : ascii) : ascii :=
  let n := ascii_code c in
  if (65 <=? n)%nat && (n <=? 90)%nat then ascii_of_nat (n + 32) else c.

(** [s.lower()]. *)
Fixpoint lower (s : string) : string :=
  match s with
  | EmptyString => EmptyString
  | String c s' => String (lower_char c) (lower s')
  end.

(** [s.startswith(p)]. *)
Fixpoint startswith (s p : string) : bool :=
  match p, s with
  | EmptyString, _ => true
  | String _ _, EmptyString => false
  | String a p', String b s' => if decide (a = b) then startswith s' p' else false
  end.

(** [p in s] for strings: [p] occurs as a substring of [s]. *)
Fixpoint contains (s p : string) : bool :=
  startswith s p ||
  match s with
  | EmptyString => false
  | String _ s' => contains s' p
  end.

(** [s.endswith(p)]. *)
Definition endswith (s p : string) : bool :=
  startswith (String.rev s) (String.rev p).

(** [any(pred(c) for c in s)]. *)
Fixpoint any_char (pred : ascii → bool) (s : string) : bool :=
  match s with
  | EmptyString => false
  | String c s' => pred c || any_char pred s'
  end.

(** [s.split()]: the maximal runs of non-whitespace characters.  [cur]
    holds the run being read, reversed. *)
Fixpoint split_go (cur : string) (s : string) : list string :=
  match s with
  | EmptyString =>
      match cur with EmptyString => [] | _ => [String.rev cur] end
  | String c s' =>
      if isspace c then
        match cur with
        | EmptyString => split_go EmptyString s'
        | _ => String.rev cur :: split_go EmptyString s'
        end
      else split_go (String c cur) s'
  end.

Definition split (s : string) : list string := split_go EmptyString s.

(** [sep.join(l)]. *)
Fixpoint join (sep : string) (l : list string) : string :=
  match l with
  | [] => ""
  | [x] => x
  | x :: l' => x +:+ sep +:+ join sep l'
  end.

(** [x in l] for a list of strings. *)
Definition in_list (x : string) (l : list string) : bool :=
  bool_decide (x ∈ l).

(** [re.match(r'^\d+\s', s)]: one or more digits, then a whitespace. *)
Fixpoint digits_then_space (seen : bool) (s : string) : bool :=
  match s with
  | EmptyString => false
  | String c s' =>
      if isdigit c then digits_then_space true s'
      else seen && isspace c
  end.

Definition match_leading_number (s : string) : bool := digits_then_space false s.

(** ** Data model *)

(** The [script_structure] dictionary of a video record; every key is
    optional. *)
Record ScriptStructure : Type := {
  hook_word_count : option Q;
  section_count : option Q;
  words_per_minute : option Q;
  has_clear_transitions : option bool;
  has_cta : option bool
}.

Record Thumbnail : Type := {
  has_face : bool;
  has_text : bool;
  colors : list string
}.

Record RichData : Type := {
  rd_keywords : list string;
  rd_category_id : string;
  rd_has_caption : bool
}.

Record ChannelData : Type := {
  cd_subscriber_count : Q;
  cd_video_count : Q;
  cd_total_views : Q
}.

Record EngagementMetrics : Type := {
  like_ratio : Q;
  comment_ratio : Q
}.

(** [detected_patterns]: the keys are present only for the pattern kinds
    that the source dictionary had. *)
Record PatternData : Type := {
  pd_title_patterns : option (list string);
  pd_description_patterns : option (list string);
  pd_engagement_patterns : option (list string)
}.

(** A video dictionary.  [None] is an absent key. *)
Record VideoRecord : Type := {
  v_title : option string;
  v_channel : option string;
  v_url : option string;
  v_video_id : option string;
  v_views : option Q;
  v_likes : option Q;
  v_comments : option Q;
  v_description : option string;
  v_thumbnail : option Thumbnail;
  v_upload_date : option string;
  v_duration : option Q;
  v_ctr : option Q;
  v_retention : option Q;
  v_transcript : option string;
  v_script_structure : option ScriptStructure;
  v_rich_data : option RichData;
  v_channel_data : option ChannelData;
  v_engagement_metrics : option EngagementMetrics;
  v_detected_patterns : option PatternData;
  v_date_added : option string
}.

(** [{}], and [{"title": t}]. *)
Definition empty_video : VideoRecord :=
  {| v_title := None; v_channel := None; v_url := None; v_video_id := None;
     v_views := None; v_likes := None; v_comments := None;
     v_description := None; v_thumbnail := None; v_upload_date := None;
     v_duration := None; v_ctr := None; v_retention := None;
     v_transcript := None; v_script_structure := None; v_rich_data := None;
     v_channel_data := None; v_engagement_metrics := None;
     v_detected_patterns := None; v_date_added := None |}.

Definition titled (t : string) : VideoRecord :=
  {| v_title := Some t; v_channel := None; v_url := None; v_video_id := None;
     v_views := None; v_likes := None; v_comments := None;
     v_description := None; v_thumbnail := None; v_upload_date := None;
     v_duration := None; v_ctr := None; v_retention := None;
     v_transcript := None; v_script_structure := None; v_rich_data := None;
     v_channel_data := None; v_engagement_metrics := None;
     v_detected_patterns := None; v_date_added := None |}.

(** [video["script_structure"] = ss]. *)
Definition with_script (ss : ScriptStructure) (v : VideoRecord) : VideoRecord :=
  {| v_title := v_title v; v_channel := v_channel v; v_url := v_url v;
     v_video_id := v_video_id v; v_views := v_views v; v_likes := v_likes v;
     v_comments := v_comments v; v_description := v_description v;
     v_thumbnail := v_thumbnail v; v_upload_date := v_upload_date v;
     v_duration := v_duration v; v_ctr := v_ctr v;
     v_retention := v_retention v; v_transcript := v_transcript v;
     v_script_structure := Some ss; v_rich_data := v_rich_data v;
     v_channel_data := v_channel_data v;
     v_engagement_metrics := v_engagement_metrics v;
     v_detected_patterns := v_detected_patterns v;
     v_date_added := v_date_added v |}.

(** [video["date_added"] = d]. *)
Definition set_date_added (d : string) (v : VideoRecord) : VideoRecord :=
  {| v_title := v_title v; v_channel := v_channel v; v_url := v_url v;
     v_video_id := v_video_id v; v_views := v_views v; v_likes := v_likes v;
     v_comments := v_comments v; v_description := v_description v;
     v_thumbnail := v_thumbnail v; v_upload_date := v_upload_date v;
     v_duration := v_duration v; v_ctr := v_ctr v;
     v_retention := v_retention v; v_transcript := v_transcript v;
     v_script_structure := v_script_structure v; v_rich_data := v_rich_data v;
     v_channel_data := v_channel_data v;
     v_engagement_metrics := v_engagement_metrics v;
     v_detected_patterns := v_detected_patterns v;
     v_date_added := Some d |}.

(** [video.get('title', '')]. *)
Definition get_title (v : VideoRecord) : string := default "" (v_title v).

(** ** The Content-DNA document *)

Record ScriptStats : Type := {
  avg_hook_words : Q;
  avg_sections : Q;
  avg_wpm : Q;
  transitions_pct : Q;
  cta_pct : Q
}.

Record StructureStat : Type := {
  st_count : nat;
  st_percentage : Q
}.

Record TitleDNA : Type := {
  td_keywords : list (string * nat);
  td_structures : list (string * StructureStat);
  td_avg_length : Q
}.

Record ScriptDNA : Type := {
  sd_stats : ScriptStats;
  sd_keywords : list string
}.

(** [avg_likes] is a number, or the string "Not available". *)
Inductive LikesField : Type :=
  | Likes (q : Q)
  | NotAvailable.

(** [engagement_factors] when it is filled in; its [correlations] key always
    holds the empty dictionary and carries no data. *)
Record EngagementFactors : Type := {
  ef_avg_views : Q;
  ef_avg_likes : LikesField
}.

(** An entry of [content_dna_patterns]: title and threshold entries carry
    [prevalence], the hook and pace entries carry [value]. *)
Record PatternEntry : Type := {
  pe_element : string;
  pe_pattern : string;
  pe_prevalence : option Q;
  pe_value : option Q;
  pe_recommendation : string
}.

Record Summary : Type := {
  sm_title_strategy : string;
  sm_pattern_count : nat;
  sm_top_patterns : list string;
  sm_has_script_dna : bool
}.

(** [engagement_factors] is [None] when it stays the empty dictionary;
    [description_dna] is always the empty dictionary and carries no data. *)
Record ContentDNA : Type := {
  dna_niche : string;
  dna_video_count : nat;
  dna_timestamp : string;
  dna_title_dna : TitleDNA;
  dna_script_dna : ScriptDNA;
  dna_engagement_factors : option EngagementFactors;
  dna_content_dna_patterns : list PatternEntry;
  dna_summary : Summary
}.

(** ** Dictionaries in insertion order, [max], [min], [sorted] *)

(** [d[key] += 1] on a dictionary that has [key]. *)
Definition bump (key : string) (d : list (string * nat)) : list (string * nat) :=
  map (λ kv, if decide (kv.1 = key) then (kv.1, S kv.2) else kv) d.

(** [d[key] = d.get(key, 0) + 1]: a new key goes to the end. *)
Fixpoint count_word (d : list (string * nat)) (key : string) : list (string * nat) :=
  match d with
  | [] => [(key, 1%nat)]
  | kv :: d' =>
      if decide (kv.1 = key) then (kv.1, S kv.2) :: d' else kv :: count_word d' key
  end.

(** [max(l, key=...)] and [min(l, key=...)] keep the first of several
    extremal items; [ltb a b] says that the key of [a] is below that of [b]. *)
Fixpoint max_from {A : Type} (ltb : A → A → bool) (best : A) (l : list A) : A :=
  match l with
  | [] => best
  | x :: l' => max_from ltb (if ltb best x then x else best) l'
  end.

Definition py_max {A : Type} (ltb : A → A → bool) (l : list A) : outcome A :=
  match l with
  | [] => Raised ValueError
  | x :: l' => Returned (max_from ltb x l')
  end.

Definition py_min {A : Type} (ltb : A → A → bool) (l : list A) : outcome A :=
  py_max (λ a b, ltb b a) l.

(** [sorted(l, key=..., reverse=True)]: stable, so items with equal keys
    keep their order. *)
Fixpoint insert_desc {A : Type} (ltb : A → A → bool) (x : A) (l : list A) : list A :=
  match l with
  | [] => [x]
  | y :: l' => if ltb x y then y :: insert_desc ltb x l' else x :: y :: l'
  end.

Definition sorted_desc {A : Type} (ltb : A → A → bool) (l : list A) : list A :=
  foldr (insert_desc ltb) [] l.

Definition count_ltb (a b : string * nat) : bool := (a.2 <? b.2)%nat.

(** [[r for x in l]] where computing [r] may raise. *)
Fixpoint map_outcome {A B : Type} (f : A → outcome B) (l : list A) : outcome (list B) :=
  match l with
  | [] => Returned []
  | x :: l' => do y <- f x; do ys <- map_outcome f l'; Returned (y :: ys)
  end.

(** ** The Local Video Store: [competitor_database.json] *)

(** The database document: niche name to list of video dictionaries. *)
Abbreviation Database := (gmap string (list VideoRecord)).

(** The JSON library, as far as the store uses it: [json.dump] turns a
    database document into the text it writes, [json.load] parses a text or
    raises. *)
Class Json : Type := {
  json_text : Type;
  json_dump : Database → json_text;
  json_load : json_text → outcome Database
}.

(** The state of the file [competitor_database.json]: absent, or holding a
    text. *)
Inductive DatabaseFile {J : Json} : Type :=
  | NoFile
  | FileText (t : json_text).

(** [with open('competitor_database.json', 'r') as f: json.load(f)]. *)
Definition open_and_load {J : Json} (f : DatabaseFile) : outcome Database :=
  match f with
  | NoFile => Raised FileNotFoundError
  | FileText t => json_load t
  end.

(** A JSON library that writes a document as the list of its members and
    reads a list of members back into a document. *)
Definition member_list_json : Json :=
  {| json_text := list (string * list VideoRecord);
     json_dump := map_to_list;
     json_load := λ t, Returned (list_to_map t) |}.

(** [try: body except Exception as e: handler(e)]. *)
Definition except_exception {A : Type} (body : outcome A) (handler : exn → outcome A)
  : outcome A :=
  match body with
  | Raised e => handler e
  | Returned a => Returned a
  end.

(** A dictionary [{"status": ..., "message": ...}]. *)
Record StatusResult : Type := {
  status : string;
  message : string
}.

(** [s.replace(a, b)] for single characters. *)
Fixpoint replace_char (a b : ascii) (s : string) : string :=
  match s with
  | EmptyString => EmptyString
  | String c s' => String (if decide (c = a) then b else c) (replace_char a b s')
  end.

(** The maximal runs of [\w] characters of [s]; [cur] holds the run being
    read, reversed. *)
Fixpoint word_runs_go (cur : string) (s : string) : list string :=
  match s with
  | EmptyString =>
      match cur with EmptyString => [] | _ => [String.rev cur] end
  | String c s' =>
      if isword c then word_runs_go (String c cur) s'
      else
        match cur with
        | EmptyString => word_runs_go EmptyString s'
        | _ => String.rev cur :: word_runs_go EmptyString s'
        end
  end.

Fixpoint all_char (pred : ascii → bool) (s : string) : bool :=
  match s with
  | EmptyString => true
  | String c s' => pred c && all_char pred s'
  end.

(** [re.findall(r'\b[a-z]{3,15}\b', s)]: a match is a whole run of word
    characters, made of 3 to 15 lowercase letters. *)
Definition findall_words (s : string) : list string :=
  List.filter
    (λ w, all_char islower_alpha w
          && (3 <=? String.length w)%nat && (String.length w <=? 15)%nat)
    (word_runs_go EmptyString s).

(** ** [CompetitorAnalyzer] *)

Module CompetitorAnalyzer.

(** References to video dictionaries. *)
Abbreviation loc := positive.

(** The analyzer and its world: the heap of video dictionaries, the
    attribute [self.competitor_data], whose lists hold references, and the
    database file. *)
Record State {J : Json} : Type := {
  heap : gmap loc VideoRecord;
  competitor_data : gmap string (list loc);
  database_file : DatabaseFile
}.

Definition deref (h : gmap loc VideoRecord) (l : loc) : VideoRecord :=
  default empty_video (h !! l).

(** The document that [json.dump(self.competitor_data, f)] writes. *)
Definition snapshot (h : gmap loc VideoRecord) (data : gmap string (list loc))
  : Database :=
  (λ ls, map (deref h) ls) <$> data.

Definition initial_db : Database :=
  <["ai_tech" := []]> (<["health_fitness" := []]> (<["productivity" := []]> ∅)).

(** [load_competitor_data]: returns the document read, or creates, saves
    and returns the empty database when there is no file.  Any other
    exception of the read propagates. *)
Definition load_competitor_data {J : Json} (f : DatabaseFile)
  : outcome Database * DatabaseFile :=
  match open_and_load f with
  | Raised FileNotFoundError => (Returned initial_db, FileText (json_dump initial_db))
  | r => (r, f)
  end.

(** [save_competitor_data]. *)
Definition save_competitor_data {J : Json} (st : State) : State :=
  {| heap := heap st;
     competitor_data := competitor_data st;
     database_file := FileText (json_dump (snapshot (heap st) (competitor_data st))) |}.

(** [manual_add_video(video_info, niche)], where [video_info] is a reference
    to the caller's dictionary.  The dictionary is stamped in place, the
    reference is appended and the database saved before the message is
    built; a dictionary without a title makes the [return] raise. *)
Definition manual_add_video {J : Json} (now : string) (video_info : loc)
    (niche : string) (st : State) : outcome StatusResult * State :=
  let data :=
    match competitor_data st !! niche with
    | None => <[niche := []]> (competitor_data st)
    | Some _ => competitor_data st
    end in
  let h := alter (set_date_added now) video_info (heap st) in
  let data := <[niche := default [] (data !! niche) ++ [video_info]]> data in
  let st' := save_competitor_data
               {| heap := h; competitor_data := data;
                  database_file := database_file st |} in
  (match v_title (deref h video_info) with
   | None => Raised (KeyError "title")
   | Some title =>
       Returned {| status := "success";
                   message := "Video '" +:+ title +:+ "' added to " +:+ niche
                              +:+ " database" |}
   end, st').

(** *** [analyze_title_patterns] *)

Definition initial_patterns : list (string * nat) :=
  [("how_to", 0%nat); ("listicle", 0%nat); ("question", 0%nat);
   ("statement", 0%nat); ("i_personal", 0%nat); ("you_focused", 0%nat)].

Definition count_title (patterns : list (string * nat)) (title : string)
  : list (string * nat) :=
  let title_lower := lower title in
  let patterns :=
    if startswith title_lower "how to" || startswith title_lower "how i"
    then bump "how_to" patterns
    else if match_leading_number title_lower || contains title_lower "ways to"
            || contains title_lower "tips for"
    then bump "listicle" patterns
    else if endswith title_lower "?" || startswith title_lower "why"
            || startswith title_lower "what"
    then bump "question" patterns
    else patterns in
  let patterns :=
    if startswith title_lower "i " || contains title_lower "i tried"
       || contains title_lower "i tested"
    then bump "i_personal" patterns else patterns in
  let patterns :=
    if in_list "you" (split title_lower) || in_list "your" (split title_lower)
    then bump "you_focused" patterns else patterns in
  patterns.

(** The counters after the loop over the titles. *)
Definition count_patterns (titles : list string) : list (string * nat) :=
  foldl count_title initial_patterns titles.

Record HowToVsOther : Type := {
  how_to_avg_ctr : Q;
  other_avg_ctr : Q;
  difference : Q
}.

(** [performance_correlation]; [None] is the empty dictionary. *)
Record PerformanceCorrelation : Type := {
  how_to_vs_other_ctr : HowToVsOther;
  word_count_correlation : list (nat * Q)
}.

(** The text of an [explanation], by template; the number is the one
    that the text renders. *)
Inductive Explanation : Type :=
  | HigherCtr (diff : Q)
  | LowerCtr (diff : Q)
  | BestWordCount (wc : nat)
  | UsedBy (pct : Q)
  | OnlyUsedBy (pct : Q).

Record Recommendation : Type := {
  rec_type : string;
  rec_recommendation : string;
  rec_explanation : Explanation
}.

Record TitleAnalysis : Type := {
  total_videos_analyzed : nat;
  average_word_count : Q;
  pattern_usage : list (string * Q);
  common_words : list (string * nat);
  performance_correlation : option PerformanceCorrelation;
  pattern_recommendations : list Recommendation
}.

(** What [analyze_title_patterns] returns: the error dictionary or the
    analysis. *)
Inductive TitlePatternsResult : Type :=
  | NoData (r : StatusResult)
  | Analysed (a : TitleAnalysis).

Definition value_ltb {A : Type} (a b : A * Q) : bool := qlt a.2 b.2.

Definition _generate_title_pattern_recommendations
    (patterns : list (string * Q)) (pc : option PerformanceCorrelation)
  : outcome (list Recommendation) :=
  let recommendations := [] in
  let recommendations :=
    match pc with
    | None => recommendations
    | Some c =>
        let diff := difference (how_to_vs_other_ctr c) in
        if qgt diff 1 then
          recommendations ++
          [{| rec_type := "pattern";
              rec_recommendation := "Use 'How To' format for higher CTR";
              rec_explanation := HigherCtr diff |}]
        else if qlt diff (-1) then
          recommendations ++
          [{| rec_type := "pattern";
              rec_recommendation :=
                "Avoid 'How To' format - it underperforms in this niche";
              rec_explanation := LowerCtr (- diff) |}]
        else recommendations
    end in
  let recommendations :=
    match pc with
    | None => recommendations
    | Some c =>
        match sorted_desc value_ltb (word_count_correlation c) with
        | [] => recommendations
        | best :: _ =>
            recommendations ++
            [{| rec_type := "word_count";
                rec_recommendation :=
                  "Aim for " +:+ pretty best.1 +:+ " words in your title";
                rec_explanation := BestWordCount best.1 |}]
        end
    end in
  do top_pattern <- py_max value_ltb patterns;
  let recommendations :=
    if qgt top_pattern.2 40 then
      recommendations ++
      [{| rec_type := "saturation";
          rec_recommendation :=
            "Consider alternatives to " +:+ replace_char "_" " " top_pattern.1
              +:+ " format";
          rec_explanation := UsedBy top_pattern.2 |}]
    else recommendations in
  do low_pattern <- py_min value_ltb patterns;
  let recommendations :=
    if qlt low_pattern.2 10 then
      recommendations ++
      [{| rec_type := "opportunity";
          rec_recommendation :=
            "Experiment with " +:+ replace_char "_" " " low_pattern.1
              +:+ " format";
          rec_explanation := OnlyUsedBy low_pattern.2 |}]
    else recommendations in
  Returned recommendations.

(** [video["title"]]. *)
Definition title_of (v : VideoRecord) : outcome string :=
  match v_title v with
  | Some t => Returned t
  | None => Raised (KeyError "title")
  end.

Definition has_ctr (v : VideoRecord) : bool := bool_decide (is_Some (v_ctr v)).

(** [v["ctr"]] on a record that passed the filter ["ctr" in v]. *)
Definition ctr_of (v : VideoRecord) : Q := default 0%Q (v_ctr v).

(** [sum(v["ctr"] for v in vs) / max(len(vs), 1)]. *)
Definition avg_ctr_guarded (vs : list VideoRecord) : outcome Q :=
  py_div (qsum (map ctr_of vs)) (qnat (Nat.max (length vs) 1)).

Definition is_how_to (v : VideoRecord) : bool :=
  startswith (lower (get_title v)) "how to".

(** One round of the loop [for wc in range(3, 15)]. *)
Definition word_count_round (videos_with_ctr : list VideoRecord)
    (acc : list (nat * Q)) (wc : nat) : outcome (list (nat * Q)) :=
  let matches :=
    List.filter (λ v, (length (split (get_title v)) =? wc)%nat) videos_with_ctr in
  match matches with
  | [] => Returned acc
  | _ :: _ =>
      do avg_ctr <- py_div (qsum (map ctr_of matches)) (qlen matches);
      Returned (acc ++ [(wc, avg_ctr)])
  end.

Definition performance (videos : list VideoRecord)
  : outcome (option PerformanceCorrelation) :=
  let videos_with_ctr := List.filter has_ctr videos in
  match videos_with_ctr with
  | [] => Returned None
  | _ :: _ =>
      let how_to_videos := List.filter is_how_to videos_with_ctr in
      let other_videos := List.filter (λ v, negb (is_how_to v)) videos_with_ctr in
      do avg_howto_ctr <- avg_ctr_guarded how_to_videos;
      do avg_other_ctr <- avg_ctr_guarded other_videos;
      do word_count_correlation <-
        for_each (word_count_round videos_with_ctr) (seq 3 12) [];
      Returned (Some {| how_to_vs_other_ctr :=
                          {| how_to_avg_ctr := avg_howto_ctr;
                             other_avg_ctr := avg_other_ctr;
                             difference := (avg_howto_ctr - avg_other_ctr)%Q |};
                        word_count_correlation := word_count_correlation |})
  end.

Definition pattern_percentage (total_videos : nat) (kv : string * nat)
  : outcome (string * Q) :=
  do frac <- py_div (qnat kv.2) (qnat total_videos);
  Returned (kv.1, (frac * 100)%Q).

Definition analyze_title_patterns {J : Json} (st : State) (niche : string)
  : outcome TitlePatternsResult :=
  match competitor_data st !! niche with
  | None | Some [] =>
      Returned (NoData {| status := "error";
                          message := "No data available for niche " +:+ niche |})
  | Some refs =>
      let videos := map (deref (heap st)) refs in
      do titles <- map_outcome title_of videos;
      let patterns := initial_patterns in
      let word_counts := map (λ title, length (split title)) titles in
      do avg_word_count <-
        py_div (qsum (map qnat word_counts)) (qnat (Nat.max (length word_counts) 1));
      let patterns := foldl count_title patterns titles in
      let total_videos := length titles in
      do pattern_percentages <- map_outcome (pattern_percentage total_videos) patterns;
      let all_words := lower (join " " titles) in
      let word_list := findall_words all_words in
      let word_freq := foldl count_word [] word_list in
      let common_words := take 20 (sorted_desc count_ltb word_freq) in
      do performance_correlation <- performance videos;
      do recommendations <-
        _generate_title_pattern_recommendations pattern_percentages
          performance_correlation;
      Returned (Analysed
        {| total_videos_analyzed := total_videos;
           average_word_count := avg_word_count;
           pattern_usage := pattern_percentages;
           common_words := common_words;
           performance_correlation := performance_correlation;
           pattern_recommendations := recommendations |})
  end.

(** *** [analyze_thumbnail_patterns] *)

(** A thumbnail dictionary holds the keys [has_face], [has_text] and
    [colors], as the writers of the repository create it; so
    [thumbnail.get("has_face", False)] is the value of the key and the test
    ["colors" in thumbnail] is true. *)
Definition has_thumbnail (v : VideoRecord) : bool :=
  bool_decide (is_Some (v_thumbnail v)).

(** [v["thumbnail"]] on a record that passed the filter ["thumbnail" in v]. *)
Definition thumbnail_of (v : VideoRecord) : Thumbnail :=
  default {| has_face := false; has_text := false; colors := [] |} (v_thumbnail v).

Definition shows_face (v : VideoRecord) : bool := has_face (thumbnail_of v).

Definition shows_text (v : VideoRecord) : bool := has_text (thumbnail_of v).

(** [{"face_avg_ctr": .., "no_face_avg_ctr": .., "difference": ..}] and
    the same dictionary for text. *)
Record CtrComparison : Type := {
  with_avg_ctr : Q;
  without_avg_ctr : Q;
  ctr_difference : Q
}.

(** The [performance_correlation] dictionary of the thumbnail analysis;
    [None] is an absent key. *)
Record ThumbnailCorrelation : Type := {
  face_vs_no_face_ctr : option CtrComparison;
  text_vs_no_text_ctr : option CtrComparison
}.

(** The text of an [explanation], by template; the number is the one that
    the text renders. *)
Inductive ThumbnailExplanation : Type :=
  | WithHigherCtr (diff : Q)
  | WithoutHigherCtr (diff : Q)
  | UsedInThumbnails (pct : Q).

Record ThumbnailRecommendation : Type := {
  tr_type : string;
  tr_recommendation : string;
  tr_explanation : ThumbnailExplanation
}.

Definition _generate_thumbnail_recommendations
    (faces_percentage text_percentage : Q) (pc : ThumbnailCorrelation)
  : list ThumbnailRecommendation :=
  let recommendations := [] in
  let recommendations :=
    match face_vs_no_face_ctr pc with
    | Some c =>
        let diff := ctr_difference c in
        if qgt diff 1 then
          recommendations ++
          [{| tr_type := "faces";
              tr_recommendation := "Include faces in your thumbnails";
              tr_explanation := WithHigherCtr diff |}]
        else if qlt diff (-1) then
          recommendations ++
          [{| tr_type := "faces";
              tr_recommendation := "Test thumbnails without faces";
              tr_explanation := WithoutHigherCtr (- diff) |}]
        else recommendations
    | None =>
        if qgt faces_percentage 70 then
          recommendations ++
          [{| tr_type := "faces";
              tr_recommendation := "Include faces in your thumbnails";
              tr_explanation := UsedInThumbnails faces_percentage |}]
        else recommendations
    end in
  let recommendations :=
    match text_vs_no_text_ctr pc with
    | Some c =>
        let diff := ctr_difference c in
        if qgt diff 1 then
          recommendations ++
          [{| tr_type := "text";
              tr_recommendation := "Include text in your thumbnails";
              tr_explanation := WithHigherCtr diff |}]
        else if qlt diff (-1) then
          recommendations ++
          [{| tr_type := "text";
              tr_recommendation := "Test thumbnails without text overlay";
              tr_explanation := WithoutHigherCtr (- diff) |}]
        else recommendations
    | None =>
        if qgt text_percentage 70 then
          recommendations ++
          [{| tr_type := "text";
              tr_recommendation := "Include text overlay in your thumbnails";
              tr_explanation := UsedInThumbnails text_percentage |}]
        else recommendations
    end in
  recommendations.

(** [{"percentage": .., "count": ..}]. *)
Record Presence : Type := {
  presence_percentage : Q;
  presence_count : nat
}.

Record ThumbnailAnalysis : Type := {
  total_thumbnails_analyzed : nat;
  face_presence : Presence;
  text_presence : Presence;
  common_colors : list (string * nat);
  thumbnail_correlation : ThumbnailCorrelation;
  thumbnail_recommendations : list ThumbnailRecommendation
}.

(** What [analyze_thumbnail_patterns] returns: an error dictionary or the
    analysis. *)
Inductive ThumbnailPatternsResult : Type :=
  | NoThumbnailData (r : StatusResult)
  | ThumbnailsAnalysed (a : ThumbnailAnalysis).

(** The two averages of a group and of its complement, and their
    difference. *)
Definition ctr_comparison (group : VideoRecord → bool) (videos_with_ctr : list VideoRecord)
  : outcome CtrComparison :=
  let with_videos := List.filter group videos_with_ctr in
  let without_videos := List.filter (λ v, negb (group v)) videos_with_ctr in
  do avg_with <- avg_ctr_guarded with_videos;
  do avg_without <- avg_ctr_guarded without_videos;
  Returned {| with_avg_ctr := avg_with;
              without_avg_ctr := avg_without;
              ctr_difference := (avg_with - avg_without)%Q |}.

Definition thumbnail_performance (videos_with_thumbnail : list VideoRecord)
  : outcome ThumbnailCorrelation :=
  let videos_with_ctr := List.filter has_ctr videos_with_thumbnail in
  match videos_with_ctr with
  | [] => Returned {| face_vs_no_face_ctr := None; text_vs_no_text_ctr := None |}
  | _ :: _ =>
      do face <- ctr_comparison shows_face videos_with_ctr;
      do text <- ctr_comparison shows_text videos_with_ctr;
      Returned {| face_vs_no_face_ctr := Some face; text_vs_no_text_ctr := Some text |}
  end.

Definition analyze_thumbnail_patterns {J : Json} (st : State) (niche : string)
  : outcome ThumbnailPatternsResult :=
  match competitor_data st !! niche with
  | None | Some [] =>
      Returned (NoThumbnailData
                  {| status := "error";
                     message := "No data available for niche " +:+ niche |})
  | Some refs =>
      let videos_with_thumbnail :=
        List.filter has_thumbnail (map (deref (heap st)) refs) in
      match videos_with_thumbnail with
      | [] =>
          Returned (NoThumbnailData
                      {| status := "error";
                         message := "No thumbnail data available for analysis" |})
      | _ :: _ =>
          let total_thumbnails := length videos_with_thumbnail in
          let faces_count := length (List.filter shows_face videos_with_thumbnail) in
          do faces_frac <- py_div (qnat faces_count) (qnat total_thumbnails);
          let faces_percentage := (faces_frac * 100)%Q in
          let text_count := length (List.filter shows_text videos_with_thumbnail) in
          do text_frac <- py_div (qnat text_count) (qnat total_thumbnails);
          let text_percentage := (text_frac * 100)%Q in
          let all_colors :=
            flat_map (λ v, colors (thumbnail_of v)) videos_with_thumbnail in
          let color_freq := foldl count_word [] all_colors in
          let common_colors := take 5 (sorted_desc count_ltb color_freq) in
          do performance_correlation <- thumbnail_performance videos_with_thumbnail;
          Returned (ThumbnailsAnalysed
            {| total_thumbnails_analyzed := total_thumbnails;
               face_presence := {| presence_percentage := faces_percentage;
                                   presence_count := faces_count |};
               text_presence := {| presence_percentage := text_percentage;
                                   presence_count := text_count |};
               common_colors := common_colors;
               thumbnail_correlation := performance_correlation;
               thumbnail_recommendations :=
                 _generate_thumbnail_recommendations faces_percentage
                   text_percentage performance_correlation |})
      end
  end.

(** *** [get_pattern_templates] and its three extractors *)

(** [self.competitor_data[niche]], with the references followed. *)
Definition niche_videos {J : Json} (st : State) (niche : string)
  : outcome (list VideoRecord) :=
  match competitor_data st !! niche with
  | None => Raised (KeyError niche)
  | Some refs => Returned (map (deref (heap st)) refs)
  end.

(** An entry of the title patterns; [tpl_frequency] is the number that the
    [frequency] text renders. *)
Record TitlePattern : Type := {
  tpl_template : string;
  tpl_examples : list string;
  tpl_frequency : Q
}.

(** [if hits: patterns.append({...})]. *)
Definition title_pattern (template : string) (hits titles : list string)
    (patterns : list TitlePattern) : outcome (list TitlePattern) :=
  match hits with
  | [] => Returned patterns
  | _ :: _ =>
      do frac <- py_div (qlen hits) (qlen titles);
      Returned (patterns ++
                [{| tpl_template := template;
                    tpl_examples := take 3 hits;
                    tpl_frequency := (frac * 100)%Q |}])
  end.

Definition is_how_to_title (t : string) : bool := startswith (lower t) "how to".

Definition is_listicle_title (t : string) : bool := match_leading_number t.

Definition is_question_title (t : string) : bool := endswith t "?".

Definition is_personal_title (t : string) : bool :=
  startswith (lower t) "i " || contains (lower t) "i tried".

Definition _extract_title_patterns {J : Json} (st : State) (niche : string)
  : outcome (list TitlePattern) :=
  do videos <- niche_videos st niche;
  do titles <- map_outcome title_of videos;
  let patterns := [] in
  do patterns <-
    title_pattern "How to {action} to {achieve_result}"
      (List.filter is_how_to_title titles) titles patterns;
  do patterns <-
    title_pattern "{number} {things} to {goal}"
      (List.filter is_listicle_title titles) titles patterns;
  do patterns <-
    title_pattern "{question}?"
      (List.filter is_question_title titles) titles patterns;
  do patterns <-
    title_pattern "I {action} {subject} for {timeframe} | Here's What Happened"
      (List.filter is_personal_title titles) titles patterns;
  Returned patterns.

Definition has_transcript (v : VideoRecord) : bool :=
  bool_decide (is_Some (v_transcript v)).

(** [v["transcript"]] on a record that passed the filter. *)
Definition transcript_of (v : VideoRecord) : string := default "" (v_transcript v).

(** [s[:n]]. *)
Fixpoint str_take (n : nat) (s : string) : string :=
  match n, s with
  | S n', String c s' => String c (str_take n' s')
  | _, _ => EmptyString
  end.

(** The first tenth of the transcript's words, at most 100 of them. *)
Definition intro_of (video : VideoRecord) : string :=
  let words := split (transcript_of video) in
  let intro_length := Nat.min (length words / 10) 100 in
  join " " (take intro_length words).

Definition is_question_intro (intro : string) : bool :=
  contains (str_take 50 intro) "?".

Definition is_greeting_intro (intro : string) : bool :=
  startswith (lower intro) "hey" || startswith (lower intro) "hi"
  || startswith (lower intro) "hello".

Definition is_statement_intro (intro : string) : bool :=
  contains (str_take 50 (lower intro)) "today"
  || contains (str_take 50 (lower intro)) "going to".

Definition is_story_intro (intro : string) : bool :=
  contains (str_take 50 (lower intro)) "once"
  || contains (str_take 50 (lower intro)) "when i".

(** An entry of the intro patterns; [ip_frequency] is the number that the
    [frequency] text renders. *)
Record IntroPattern : Type := {
  ip_type : string;
  ip_description : string;
  ip_frequency : Q
}.

(** [if count > total_intros * 0.2: intro_patterns.append({...})]. *)
Definition intro_pattern (type description : string) (count total_intros : nat)
    (intro_patterns : list IntroPattern) : outcome (list IntroPattern) :=
  if qgt (qnat count) (qnat total_intros * (2 # 10)) then
    do frac <- py_div (qnat count) (qnat total_intros);
    Returned (intro_patterns ++
              [{| ip_type := type;
                  ip_description := description;
                  ip_frequency := (frac * 100)%Q |}])
  else Returned intro_patterns.

Definition _extract_script_patterns {J : Json} (st : State) (niche : string)
  : outcome (list IntroPattern) :=
  do videos <- niche_videos st niche;
  let videos_with_transcript := List.filter has_transcript videos in
  match videos_with_transcript with
  | [] => Returned []
  | _ :: _ =>
      let intros := map intro_of videos_with_transcript in
      let question_intros := length (List.filter is_question_intro intros) in
      let greeting_intros := length (List.filter is_greeting_intro intros) in
      let statement_intros := length (List.filter is_statement_intro intros) in
      let story_intros := length (List.filter is_story_intro intros) in
      let total_intros := length intros in
      let intro_patterns := [] in
      do intro_patterns <-
        intro_pattern "question_intro" "Start with a thought-provoking question"
          question_intros total_intros intro_patterns;
      do intro_patterns <-
        intro_pattern "greeting_intro" "Start with a friendly greeting"
          greeting_intros total_intros intro_patterns;
      do intro_patterns <-
        intro_pattern "statement_intro"
          "Start with a clear statement of what you'll cover"
          statement_intros total_intros intro_patterns;
      do intro_patterns <-
        intro_pattern "story_intro" "Start with a personal story or anecdote"
          story_intros total_intros intro_patterns;
      Returned intro_patterns
  end.

(** The composition that the loop of [_extract_thumbnail_patterns] counts
    a thumbnail under. *)
Definition composition (thumbnail : Thumbnail) : string :=
  if has_face thumbnail && has_text thumbnail then "face_and_text"
  else if has_face thumbnail then "face_only"
  else if has_text thumbnail then "text_only"
  else "object_only".

Definition _get_thumbnail_description (pattern_type : string) : string :=
  if decide (pattern_type = "face_and_text")
  then "Face with text overlay - emotional expression with supporting text"
  else if decide (pattern_type = "face_only")
  then "Face only - emotional expression is the main hook"
  else if decide (pattern_type = "text_only")
  then "Text-focused - bold statement or question drives curiosity"
  else if decide (pattern_type = "object_only")
  then "Object-focused - visual demonstration of content topic"
  else pattern_type.

(** An entry of the thumbnail patterns; [tp_frequency] is the number that
    the [frequency] text renders. *)
Record ThumbnailPattern : Type := {
  tp_type : string;
  tp_description : string;
  tp_frequency : Q
}.

(** One round of [for comp, count in composition_counts.most_common()]. *)
Definition thumbnail_pattern (total_thumbnails : nat)
    (thumbnail_patterns : list ThumbnailPattern) (kv : string * nat)
  : outcome (list ThumbnailPattern) :=
  if qgt (qnat kv.2) (qnat total_thumbnails * (1 # 10)) then
    do frac <- py_div (qnat kv.2) (qnat total_thumbnails);
    Returned (thumbnail_patterns ++
              [{| tp_type := kv.1;
                  tp_description := _get_thumbnail_description kv.1;
                  tp_frequency := (frac * 100)%Q |}])
  else Returned thumbnail_patterns.

Definition _extract_thumbnail_patterns {J : Json} (st : State) (niche : string)
  : outcome (list ThumbnailPattern) :=
  do videos <- niche_videos st niche;
  let videos_with_thumbnail := List.filter has_thumbnail videos in
  match videos_with_thumbnail with
  | [] => Returned []
  | _ :: _ =>
      let composition_counts :=
        foldl count_word []
          (map (λ video, composition (thumbnail_of video)) videos_with_thumbnail) in
      let total_thumbnails := length videos_with_thumbnail in
      for_each (thumbnail_pattern total_thumbnails)
        (sorted_desc count_ltb composition_counts) []
  end.

Record PatternTemplates : Type := {
  pt_title_patterns : list TitlePattern;
  pt_script_patterns : list IntroPattern;
  pt_thumbnail_patterns : list ThumbnailPattern;
  pt_message : string
}.

(** What [get_pattern_templates] returns: the error dictionary or the
    templates. *)
Inductive TemplatesResult : Type :=
  | NoTemplates (r : StatusResult)
  | Templates (t : PatternTemplates).

Definition get_pattern_templates {J : Json} (st : State) (niche : string)
  : outcome TemplatesResult :=
  match competitor_data st !! niche with
  | None | Some [] =>
      Returned (NoTemplates
                  {| status := "error";
                     message := "No data available for niche " +:+ niche |})
  | Some _ =>
      do title_patterns <- _extract_title_patterns st niche;
      do script_patterns <- _extract_script_patterns st niche;
      do thumbnail_patterns <- _extract_thumbnail_patterns st niche;
      Returned (Templates
        {| pt_title_patterns := title_patterns;
           pt_script_patterns := script_patterns;
           pt_thumbnail_patterns := thumbnail_patterns;
           pt_message := "These patterns can be used to optimize your content" |})
  end.

End CompetitorAnalyzer.

(** ** [DataIntegrationModule._analyze_content_dna] *)

Module DataIntegrationModule.

(** *** Title DNA (source lines 90-129) *)

Definition initial_title_structures : list (string * nat) :=
  [("question", 0%nat); ("number", 0%nat); ("how_to", 0%nat);
   ("list", 0%nat); ("emotional", 0%nat)].

Definition list_markers : list string := ["top"; "best"; "ways"; "tips"].

Definition emotional_markers : list string :=
  ["amazing"; "incredible"; "shocking"; "surprising"; "best"; "worst"].

(** [any(w in title for w in words)]. *)
Definition any_in (words : list string) (title : string) : bool :=
  existsb (contains title) words.

Definition classify_title (title : string) (ts : list (string * nat))
  : list (string * nat) :=
  let ts := if contains title "?" then bump "question" ts else ts in
  let ts := if any_char isdigit title then bump "number" ts else ts in
  let ts := if startswith title "how to" || startswith title "how i"
            then bump "how_to" ts else ts in
  let ts := if any_in list_markers title then bump "list" ts else ts in
  let ts := if any_in emotional_markers title then bump "emotional" ts else ts in
  ts.

(** The first [for video in videos] loop: the state is [title_words] and
    [title_structures]. *)
Definition title_body (acc : list string * list (string * nat)) (video : VideoRecord)
  : list string * list (string * nat) :=
  let title := lower (get_title video) in
  ((acc.1 ++ List.filter (λ w, (3 <? String.length w)%nat) (split title))%list,
   classify_title title acc.2).

Definition title_pass (videos : list VideoRecord)
  : list string * list (string * nat) :=
  foldl title_body ([], initial_title_structures) videos.

Definition title_structures (videos : list VideoRecord) : list (string * nat) :=
  (title_pass videos).2.

(** [sorted(word_freq.items(), key=lambda x: x[1], reverse=True)[:20]]. *)
Definition title_keywords (videos : list VideoRecord) : list (string * nat) :=
  let word_freq := foldl count_word [] (title_pass videos).1 in
  take 20 (sorted_desc count_ltb word_freq).

Definition structure_stat (videos : list VideoRecord) (kv : string * nat)
  : outcome (string * StructureStat) :=
  do p <- py_div (qnat kv.2) (qlen videos);
  Returned (kv.1, {| st_count := kv.2; st_percentage := (p * 100)%Q |}).

Definition title_dna (videos : list VideoRecord) : outcome TitleDNA :=
  do structures <- map_outcome (structure_stat videos) (title_structures videos);
  do avg_length <-
    py_div (qsum (map (λ v, qlen (split (get_title v))) videos)) (qlen videos);
  Returned {| td_keywords := title_keywords videos;
              td_structures := structures;
              td_avg_length := avg_length |}.

(** *** Script DNA (source lines 131-194) *)

(** The state of the second loop: the [script_stats] dictionary and the
    five counters. *)
Record ScriptLoop : Type := {
  script_stats : ScriptStats;
  hooks_count : nat;
  sections_count : nat;
  wpm_count : nat;
  transitions_count : nat;
  cta_count : nat
}.

Definition default_script_stats : ScriptStats :=
  {| avg_hook_words := 25; avg_sections := 5; avg_wpm := 150;
     transitions_pct := 60; cta_pct := 80 |}.

Definition initial_script_loop : ScriptLoop :=
  {| script_stats := default_script_stats;
     hooks_count := 0; sections_count := 0; wpm_count := 0;
     transitions_count := 0; cta_count := 0 |}.

(** [(avg * (count - 1) + x) / count]. *)
Definition running_mean (avg : Q) (count : nat) (x : Q) : outcome Q :=
  py_div (avg * (qnat count - 1) + x)%Q (qnat count).

(** [((pct / 100) * (count - 1) + 1) / count * 100]. *)
Definition running_pct (pct : Q) (count : nat) : outcome Q :=
  do frac <- py_div pct 100;
  do r <- py_div (frac * (qnat count - 1) + 1)%Q (qnat count);
  Returned (r * 100)%Q.

Definition add_hook (ss : ScriptStructure) (s : ScriptLoop) : outcome ScriptLoop :=
  match hook_word_count ss with
  | None => Returned s
  | Some x =>
      let hooks := S (hooks_count s) in
      let st := script_stats s in
      do avg <- running_mean (avg_hook_words st) hooks x;
      Returned
        {| script_stats :=
             {| avg_hook_words := avg; avg_sections := avg_sections st;
                avg_wpm := avg_wpm st; transitions_pct := transitions_pct st;
                cta_pct := cta_pct st |};
           hooks_count := hooks; sections_count := sections_count s;
           wpm_count := wpm_count s; transitions_count := transitions_count s;
           cta_count := cta_count s |}
  end.

Definition add_sections (ss : ScriptStructure) (s : ScriptLoop) : outcome ScriptLoop :=
  match section_count ss with
  | None => Returned s
  | Some x =>
      let sections := S (sections_count s) in
      let st := script_stats s in
      do avg <- running_mean (avg_sections st) sections x;
      Returned
        {| script_stats :=
             {| avg_hook_words := avg_hook_words st; avg_sections := avg;
                avg_wpm := avg_wpm st; transitions_pct := transitions_pct st;
                cta_pct := cta_pct st |};
           hooks_count := hooks_count s; sections_count := sections;
           wpm_count := wpm_count s; transitions_count := transitions_count s;
           cta_count := cta_count s |}
  end.

Definition add_wpm (ss : ScriptStructure) (s : ScriptLoop) : outcome ScriptLoop :=
  match words_per_minute ss with
  | None => Returned s
  | Some x =>
      let wpm := S (wpm_count s) in
      let st := script_stats s in
      do avg <- running_mean (avg_wpm st) wpm x;
      Returned
        {| script_stats :=
             {| avg_hook_words := avg_hook_words st;
                avg_sections := avg_sections st; avg_wpm := avg;
                transitions_pct := transitions_pct st; cta_pct := cta_pct st |};
           hooks_count := hooks_count s; sections_count := sections_count s;
           wpm_count := wpm; transitions_count := transitions_count s;
           cta_count := cta_count s |}
  end.

(** The counter is incremented for every record that has the key; the
    percentage is recomputed only when the value is true. *)
Definition add_transitions (ss : ScriptStructure) (s : ScriptLoop) : outcome ScriptLoop :=
  match has_clear_transitions ss with
  | None => Returned s
  | Some b =>
      let transitions := S (transitions_count s) in
      let st := script_stats s in
      do pct <- (if b then running_pct (transitions_pct st) transitions
                 else Returned (transitions_pct st));
      Returned
        {| script_stats :=
             {| avg_hook_words := avg_hook_words st;
                avg_sections := avg_sections st; avg_wpm := avg_wpm st;
                transitions_pct := pct; cta_pct := cta_pct st |};
           hooks_count := hooks_count s; sections_count := sections_count s;
           wpm_count := wpm_count s; transitions_count := transitions;
           cta_count := cta_count s |}
  end.

Definition add_cta (ss : ScriptStructure) (s : ScriptLoop) : outcome ScriptLoop :=
  match has_cta ss with
  | None => Returned s
  | Some b =>
      let cta := S (cta_count s) in
      let st := script_stats s in
      do pct <- (if b then running_pct (cta_pct st) cta
                 else Returned (cta_pct st));
      Returned
        {| script_stats :=
             {| avg_hook_words := avg_hook_words st;
                avg_sections := avg_sections st; avg_wpm := avg_wpm st;
                transitions_pct := transitions_pct st; cta_pct := pct |};
           hooks_count := hooks_count s; sections_count := sections_count s;
           wpm_count := wpm_count s; transitions_count := transitions_count s;
           cta_count := cta |}
  end.

(** The body of the second [for video in videos] loop. *)
Definition script_body (s : ScriptLoop) (video : VideoRecord) : outcome ScriptLoop :=
  match v_script_structure video with
  | None => Returned s
  | Some ss =>
      do s <- add_hook ss s;
      do s <- add_sections ss s;
      do s <- add_wpm ss s;
      do s <- add_transitions ss s;
      add_cta ss s
  end.

Definition script_pass (videos : list VideoRecord) : outcome ScriptStats :=
  do s <- for_each script_body videos initial_script_loop;
  Returned (script_stats s).

(** *** Engagement factors (source lines 196-210) *)

Definition has_views (v : VideoRecord) : bool := bool_decide (is_Some (v_views v)).

Definition engagement_factors (videos : list VideoRecord)
  : outcome (option EngagementFactors) :=
  if (1 <? length videos)%nat then
    let videos_with_engagement := List.filter has_views videos in
    match videos_with_engagement with
    | [] => Returned None
    | first :: _ =>
        do avg_views <-
          py_div (qsum (map (λ v, default 0%Q (v_views v)) videos_with_engagement))
                 (qlen videos_with_engagement);
        let avg_likes :=
          match v_likes first with
          | Some _ => qsum (map (λ v, default 0%Q (v_likes v)) videos_with_engagement)
          | None => 0%Q
          end in
        Returned (Some {| ef_avg_views := avg_views;
                          ef_avg_likes := match v_likes first with
                                          | Some _ => Likes avg_likes
                                          | None => NotAvailable
                                          end |})
    end
  else Returned None.

(** *** Content-DNA patterns (source lines 212-259) *)

(** [max(title_structures.items(), key=lambda x: x[1])]. *)
Definition top_title_structure (videos : list VideoRecord) : outcome (string * nat) :=
  py_max count_ltb (title_structures videos).

Definition title_entry (videos : list VideoRecord) (top : string * nat)
  : outcome PatternEntry :=
  do frac <- py_div (qnat top.2) (qlen videos);
  Returned {| pe_element := "title";
              pe_pattern := top.1 +:+ "_structure";
              pe_prevalence := Some (frac * 100)%Q;
              pe_value := None;
              pe_recommendation := "Use a " +:+ top.1 +:+ " structure in your title" |}.

Definition transitions_entry (st : ScriptStats) : PatternEntry :=
  {| pe_element := "script";
     pe_pattern := "clear_transitions";
     pe_prevalence := Some (transitions_pct st);
     pe_value := None;
     pe_recommendation :=
       "Use clear transition phrases between sections of your script" |}.

Definition cta_entry (st : ScriptStats) : PatternEntry :=
  {| pe_element := "script";
     pe_pattern := "verbal_cta";
     pe_prevalence := Some (cta_pct st);
     pe_value := None;
     pe_recommendation := "Include verbal calls to action in your script" |}.

Definition hook_entry (st : ScriptStats) : PatternEntry :=
  {| pe_element := "script";
     pe_pattern := "hook_length";
     pe_prevalence := None;
     pe_value := Some (avg_hook_words st);
     pe_recommendation :=
       "Use a hook of approximately " +:+ pretty (py_int (avg_hook_words st))
         +:+ " words" |}.

Definition pace_entry (st : ScriptStats) : PatternEntry :=
  {| pe_element := "script";
     pe_pattern := "speaking_pace";
     pe_prevalence := None;
     pe_value := Some (avg_wpm st);
     pe_recommendation :=
       "Aim for a speaking pace of " +:+ pretty (py_int (avg_wpm st))
         +:+ " words per minute" |}.

(** The list [content_dna], built by appending.  The test
    ['script_dna' in analysis] is always true: the key is set at source
    line 191. *)
Definition content_dna (videos : list VideoRecord) (top : string * nat)
    (st : ScriptStats) : outcome (list PatternEntry) :=
  do content_dna <-
    (if (0 <? top.2)%nat
     then do e <- title_entry videos top; Returned [e]
     else Returned []);
  let content_dna :=
    if qgt (transitions_pct st) 50 then content_dna ++ [transitions_entry st]
    else content_dna in
  let content_dna :=
    if qgt (cta_pct st) 50 then content_dna ++ [cta_entry st]
    else content_dna in
  let content_dna := content_dna ++ [hook_entry st] in
  let content_dna := content_dna ++ [pace_entry st] in
  Returned content_dna.

(** *** Summary (source lines 261-267) *)

Definition summary (top : string * nat) (keywords : list (string * nat))
    (content_dna : list PatternEntry) : Summary :=
  {| sm_title_strategy :=
       "Use " +:+ top.1 +:+ " structure with keywords: "
         +:+ join ", " (map fst (take 5 keywords));
     sm_pattern_count := length content_dna;
     sm_top_patterns := map pe_pattern (take 3 content_dna);
     sm_has_script_dna := true |}.

(** *** The aggregator *)

Definition _analyze_content_dna (now : string) (videos : list VideoRecord)
    (niche : string) : outcome ContentDNA :=
  do title_dna <- title_dna videos;
  do script_stats <- script_pass videos;
  do engagement <- engagement_factors videos;
  do top <- top_title_structure videos;
  do content_dna <- content_dna videos top script_stats;
  Returned {| dna_niche := niche;
              dna_video_count := length videos;
              dna_timestamp := now;
              dna_title_dna := title_dna;
              dna_script_dna := {| sd_stats := script_stats; sd_keywords := [] |};
              dna_engagement_factors := engagement;
              dna_content_dna_patterns := content_dna;
              dna_summary := summary top (td_keywords title_dna) content_dna |}.

(** *** [run_enhanced_analysis] *)

(** The [error] text of a failure: a fixed text, or [str(e)] of the
    exception caught. *)
Inductive ErrorText : Type :=
  | Text (s : string)
  | StrOf (e : exn).

(** The dictionary returned by [run_enhanced_analysis]:
    [{"success": False, "error": ..., ("message": ...)}] or
    [{"success": True, "analysis_file": ..., "video_count": ...,
      "analysis_summary": ...}]. *)
Inductive EnhancedResult : Type :=
  | Failure (error : ErrorText) (message : option string)
  | Success (analysis_file : string) (video_count : nat) (analysis_summary : Summary).


(** The body of the [try] block.  It reads the database file, not the
    analyzer's attribute, and writes the analysis under [data/]; the
    analysis files are kept as documents, nothing here reads them back. *)
Definition run_enhanced_analysis_body {J : Json} (now : string)
    (database_file : DatabaseFile) (analysis_files : gmap string ContentDNA) (niche : string)
  : outcome EnhancedResult * gmap string ContentDNA :=
  match open_and_load database_file with
  | Raised e => (Raised e, analysis_files)
  | Returned competitor_data =>
      match competitor_data !! niche with
      | None | Some [] =>
          (Returned (Failure (Text ("No data available for niche: " +:+ niche)) None),
           analysis_files)
      | Some videos =>
          let enriched_videos := videos in
          match enriched_videos with
          | [] =>
              (Returned
                 (Failure (Text ("No data available for niche: " +:+ niche))
                    (Some "Please import videos using the data integration module first")),
               analysis_files)
          | _ :: _ =>
              match _analyze_content_dna now enriched_videos niche with
              | Raised e => (Raised e, analysis_files)
              | Returned analysis =>
                  let analysis_file :=
                    "data/enhanced_analysis_" +:+ niche +:+ ".json" in
                  (Returned (Success analysis_file (length enriched_videos)
                               (dna_summary analysis)),
                   <[analysis_file := analysis]> analysis_files)
              end
          end
      end
  end.

Definition run_enhanced_analysis {J : Json} (now : string)
    (database_file : DatabaseFile) (analysis_files : gmap string ContentDNA) (niche : string)
  : outcome EnhancedResult * gmap string ContentDNA :=
  let r := run_enhanced_analysis_body now database_file analysis_files niche in
  (except_exception r.1
     (λ e, Returned (Failure (StrOf e) (Some "Failed to run enhanced analysis"))),
   r.2).

(** *** [get_content_dna_recommendations] *)

















End DataIntegrationModule.

(** ** The analysis dictionary of the API extractor *)

Record BasicInfo : Type := {
  bi_title : option string;
  bi_channel_name : option string;
  bi_publish_date : option string;
  bi_length_seconds : option Q
}.

Record Engagement : Type := {
  view_count : option Q;
  like_count : option Q;
  comment_count : option Q;
  favorite_count : option Q
}.

Record Seo : Type := {
  seo_description : option string;
  seo_tags : option (list string);
  seo_category_id : option string
}.

Record ContentDetails : Type := {
  has_caption : option bool
}.

Record ChannelInfo : Type := {
  ci_subscriber_count : option Q;
  ci_video_count : option Q;
  ci_view_count : option Q
}.

Record Metadata : Type := {
  basic_info : option BasicInfo;
  engagement : option Engagement;
  seo : option Seo;
  content_details : option ContentDetails;
  channel_info : option ChannelInfo
}.

(** An entry of a pattern list.  Only the [pattern] name and, for the
    engagement entries, the [value] are represented; the [example] and
    [description] texts are not. *)
Record PatternNote : Type := {
  pn_pattern : option string;
  pn_value : option Q
}.

(** The [patterns] dictionary; the three keys the code knows. *)
Record Patterns : Type := {
  title_patterns : option (list PatternNote);
  description_patterns : option (list PatternNote);
  engagement_patterns : option (list PatternNote)
}.

Record Analysis : Type := {
  an_video_id : option string;
  an_video_url : option string;
  an_metadata : option Metadata;
  an_patterns : option Patterns
}.

(** The empty dictionaries used as [.get] defaults. *)
Definition no_basic_info : BasicInfo :=
  {| bi_title := None; bi_channel_name := None; bi_publish_date := None;
     bi_length_seconds := None |}.

Definition no_engagement : Engagement :=
  {| view_count := None; like_count := None; comment_count := None;
     favorite_count := None |}.

Definition no_seo : Seo :=
  {| seo_description := None; seo_tags := None; seo_category_id := None |}.

Definition no_content_details : ContentDetails := {| has_caption := None |}.

Definition no_metadata : Metadata :=
  {| basic_info := None; engagement := None; seo := None;
     content_details := None; channel_info := None |}.

(** [if engagement:]: the dictionary has a key. *)
Definition engagement_nonempty (e : Engagement) : bool :=
  bool_decide (is_Some (view_count e)) || bool_decide (is_Some (like_count e))
  || bool_decide (is_Some (comment_count e))
  || bool_decide (is_Some (favorite_count e)).

Definition isupper (c : ascii) : bool :=
  (65 <=? ascii_code c)%nat && (ascii_code c <=? 90)%nat.

(** ** [YouTubeDataExtractor._identify_patterns] *)

Module YouTubeDataExtractor.

Definition note (name : string) : PatternNote :=
  {| pn_pattern := Some name; pn_value := None |}.

Definition emotional_words : list string :=
  ["amazing"; "shocking"; "surprising"; "incredible"; "best"; "worst"].

Definition identify_title_patterns (title : string) : list PatternNote :=
  match title with
  | EmptyString => []
  | _ =>
      (if any_char isdigit title then [note "number_in_title"] else [])
      ++ (if contains title "?" then [note "question_title"] else [])
      ++ (if existsb (contains (lower title)) emotional_words
          then [note "emotional_title"] else [])
      ++ (if startswith (lower title) "how to" || startswith (lower title) "how i"
          then [note "how_to_title"] else [])
  end.

(** [re.search(r'\d+:\d+', s)]. *)
Fixpoint has_timestamp (s : string) : bool :=
  match s with
  | String a ((String b (String c _)) as s') =>
      (isdigit a && bool_decide (b = ":"%char) && isdigit c) || has_timestamp s'
  | _ => false
  end.

(** [re.findall(r'https?://[^\s]+', s)] is not empty. *)
Fixpoint followed_by_nonspace (n : nat) (s : string) : bool :=
  match n, s with
  | O, String c _ => negb (isspace c)
  | S n', String _ s' => followed_by_nonspace n' s'
  | _, EmptyString => false
  end.

Fixpoint has_link (s : string) : bool :=
  (startswith s "http://" && followed_by_nonspace 7 s)
  || (startswith s "https://" && followed_by_nonspace 8 s)
  || match s with
     | EmptyString => false
     | String _ s' => has_link s'
     end.

(** [re.findall(r'#\w+', s)] is not empty. *)
Fixpoint has_hashtag (s : string) : bool :=
  match s with
  | String a ((String b _) as s') =>
      (bool_decide (a = "#"%char) && isword b) || has_hashtag s'
  | _ => false
  end.

(** After a capital: [n] characters of [[A-Z\s]] were read; the run must
    be followed by a colon and have at least one character. *)
Fixpoint heading_rest (n : nat) (s : string) : bool :=
  match s with
  | EmptyString => false
  | String c s' =>
      if isupper c || isspace c then heading_rest (S n) s'
      else bool_decide (c = ":"%char) && (1 <=? n)%nat
  end.

(** [re.findall(r'[A-Z][A-Z\s]+:', s)] is not empty. *)
Fixpoint has_heading (s : string) : bool :=
  match s with
  | EmptyString => false
  | String c s' => (isupper c && heading_rest 0 s') || has_heading s'
  end.

Definition identify_description_patterns (description : string) : list PatternNote :=
  match description with
  | EmptyString => []
  | _ =>
      (if has_timestamp description then [note "timestamps"] else [])
      ++ (if has_link description then [note "external_links"] else [])
      ++ (if has_hashtag description then [note "hashtags"] else [])
      ++ (if has_heading description then [note "structured_sections"] else [])
  end.

(** Source lines 455-478: the ratios are computed under the test
    [view_count > 0]. *)
Definition identify_engagement_patterns (engagement : Engagement)
  : outcome (list PatternNote) :=
  let view_count := default 0%Q (view_count engagement) in
  let like_count := default 0%Q (like_count engagement) in
  let comment_count := default 0%Q (comment_count engagement) in
  if qgt view_count 0 then
    do like_frac <- py_div like_count view_count;
    let like_ratio := (like_frac * 100)%Q in
    do comment_frac <- py_div comment_count view_count;
    let comment_ratio := (comment_frac * 100)%Q in
    Returned [{| pn_pattern := Some "like_ratio"; pn_value := Some like_ratio |};
              {| pn_pattern := Some "comment_ratio"; pn_value := Some comment_ratio |}]
  else Returned [].

Definition _identify_patterns (analysis : Analysis) : outcome Patterns :=
  let metadata := default no_metadata (an_metadata analysis) in
  let basic_info := default no_basic_info (basic_info metadata) in
  let engagement := default no_engagement (engagement metadata) in
  let seo := default no_seo (seo metadata) in
  let title := default "" (bi_title basic_info) in
  let description := default "" (seo_description seo) in
  do engagement_patterns <- identify_engagement_patterns engagement;
  Returned {| title_patterns := Some (identify_title_patterns title);
              description_patterns := Some (identify_description_patterns description);
              engagement_patterns := Some engagement_patterns |}.

(** *** [_parse_duration] *)

Definition digit_value (c : ascii) : nat := (ascii_code c - 48)%nat.

(** [re.search(r'(\d+)' + unit, s)], then [int] of the group: the first
    maximal run of digits that is directly followed by [unit].  [run] is
    the value of the digits of the run being read. *)
Fixpoint search_number_before (unit : ascii) (run : option nat) (s : string)
  : option nat :=
  match s with
  | EmptyString => None
  | String c s' =>
      if isdigit c
      then search_number_before unit
             (Some (10 * default 0%nat run + digit_value c)%nat) s'
      else
        match run with
        | Some n =>
            if decide (c = unit) then Some n else search_number_before unit None s'
        | None => search_number_before unit None s'
        end
  end.

Definition _parse_duration (duration_str : string) : nat :=
  let hours := default 0%nat (search_number_before "H" None duration_str) in
  let minutes := default 0%nat (search_number_before "M" None duration_str) in
  let seconds := default 0%nat (search_number_before "S" None duration_str) in
  (hours * 3600 + minutes * 60 + seconds)%nat.

End YouTubeDataExtractor.

(** ** [APIIntegrationModule._transform_to_competitor_format] *)

Module APIIntegrationModule.

Definition personal_indicators : list string :=
  ["i "; "me"; "my"; "how i"; "i tried"].

Definition _infer_face_presence (title niche : string) : bool :=
  if existsb (contains (lower title)) personal_indicators then true
  else if in_list niche ["health_fitness"; "productivity"] then true
  else false.

(** [[p.get('pattern', '') for p in pattern_list]]. *)
Definition pattern_names (l : list PatternNote) : list string :=
  map (λ p, default "" (pn_pattern p)) l.

Definition engagement_metrics_of (engagement : Engagement)
  : outcome (option EngagementMetrics) :=
  if engagement_nonempty engagement then
    let view_count := default 0%Q (view_count engagement) in
    if qgt view_count 0 then
      do like_frac <- py_div (default 0%Q (like_count engagement)) view_count;
      let like_ratio := (like_frac * 100)%Q in
      do comment_frac <- py_div (default 0%Q (comment_count engagement)) view_count;
      let comment_ratio := (comment_frac * 100)%Q in
      Returned (Some {| like_ratio := like_ratio; comment_ratio := comment_ratio |})
    else Returned None
  else Returned None.

Definition _transform_to_competitor_format (analysis : Analysis) (niche : string)
  : outcome VideoRecord :=
  let metadata := default no_metadata (an_metadata analysis) in
  let basic_info := default no_basic_info (basic_info metadata) in
  let engagement := default no_engagement (engagement metadata) in
  let seo := default no_seo (seo metadata) in
  let content_details := default no_content_details (content_details metadata) in
  let thumbnail_data :=
    {| has_face := _infer_face_presence (default "" (bi_title basic_info)) niche;
       has_text := true;
       colors := ["blue"; "red"; "white"] |} in
  let rich_data :=
    {| rd_keywords := default [] (seo_tags seo);
       rd_category_id := default "" (seo_category_id seo);
       rd_has_caption := default false (has_caption content_details) |} in
  let channel_data :=
    (λ ci, {| cd_subscriber_count := default 0%Q (ci_subscriber_count ci);
              cd_video_count := default 0%Q (ci_video_count ci);
              cd_total_views := default 0%Q (ci_view_count ci) |})
      <$> channel_info metadata in
  do engagement_metrics <- engagement_metrics_of engagement;
  let detected_patterns :=
    (λ patterns,
       {| pd_title_patterns := pattern_names <$> title_patterns patterns;
          pd_description_patterns := pattern_names <$> description_patterns patterns;
          pd_engagement_patterns := pattern_names <$> engagement_patterns patterns |})
      <$> an_patterns analysis in
  Returned
    {| v_title := Some (default "" (bi_title basic_info));
       v_channel := Some (default "" (bi_channel_name basic_info));
       v_url := Some (default "" (an_video_url analysis));
       v_video_id := Some (default "" (an_video_id analysis));
       v_views := Some (default 0%Q (view_count engagement));
       v_likes := Some (default 0%Q (like_count engagement));
       v_comments := Some (default 0%Q (comment_count engagement));
       v_description := Some (default "" (seo_description seo));
       v_thumbnail := Some thumbnail_data;
       v_upload_date := Some (default "" (bi_publish_date basic_info));
       v_duration := Some (default 0%Q (bi_length_seconds basic_info));
       v_ctr := None; v_retention := None; v_transcript := None;
       v_script_structure := None;
       v_rich_data := Some rich_data;
       v_channel_data := channel_data;
       v_engagement_metrics := engagement_metrics;
       v_detected_patterns := detected_patterns;
       v_date_added := None |}.

(** *** [extract_and_integrate] *)

(** What [get_complete_video_analysis] hands over: the analysis, whose
    [success] is true, or a dictionary without a true [success], which may
    carry an [error] text. *)
Inductive ExtractionResult : Type :=
  | ExtractionFailed (error : option string)
  | Extracted (analysis : Analysis).

(** [{"success": False, "error": ...}] or [{"success": True, "video_id": ...,
    "message": ..., "analysis_file": ..., "enriched_data": ...}], where
    [enriched_data] is the dictionary that was added to the database. *)
Inductive IntegrationResult : Type :=
  | NotIntegrated (error : string)
  | Integrated (video_id message analysis_file : string)
      (enriched_data : CompetitorAnalyzer.loc).

(** The module's analyzer, with its world, and the analysis files under
    [data/]. *)
Record ApiState {J : Json} : Type := {
  competitor_analyzer : CompetitorAnalyzer.State;
  api_analysis_files : gmap string Analysis
}.

(** The call of the API is the argument [extraction].  The transformed
    dictionary is a new object: it gets a reference that the heap does not
    use. *)
Definition extract_and_integrate {J : Json} (now : string)
    (extraction : ExtractionResult) (niche : string) (s : ApiState)
  : outcome IntegrationResult * ApiState :=
  match extraction with
  | ExtractionFailed error =>
      (Returned (NotIntegrated (default "Failed to extract video data" error)), s)
  | Extracted analysis =>
      match _transform_to_competitor_format analysis niche with
      | Raised e => (Raised e, s)
      | Returned video =>
          let st := competitor_analyzer s in
          let video_info := fresh (dom (CompetitorAnalyzer.heap st)) in
          let r :=
            CompetitorAnalyzer.manual_add_video now video_info niche
              {| CompetitorAnalyzer.heap :=
                   <[video_info := video]> (CompetitorAnalyzer.heap st);
                 CompetitorAnalyzer.competitor_data :=
                   CompetitorAnalyzer.competitor_data st;
                 CompetitorAnalyzer.database_file :=
                   CompetitorAnalyzer.database_file st |} in
          match r.1 with
          | Raised e =>
              (Raised e,
               {| competitor_analyzer := r.2;
                  api_analysis_files := api_analysis_files s |})
          | Returned result =>
              let video_id := default "unknown" (an_video_id analysis) in
              let analysis_file := "data/" +:+ video_id +:+ "_api_analysis.json" in
              (Returned (Integrated video_id (message result) analysis_file video_info),
               {| competitor_analyzer := r.2;
                  api_analysis_files :=
                    <[analysis_file := analysis]> (api_analysis_files s) |})
          end
      end
  end.

End APIIntegrationModule.

(** ** [YouTubeOptimizerSystem._check_competitor_data] *)

Module YouTubeOptimizerSystem.


End YouTubeOptimizerSystem.

(** ** [SelectiveVideoAnalyzer._get_existing_videos] *)

Module SelectiveVideoAnalyzer.

(** The identifiers of the records of the niche that carry one, as the
    database file has them. *)
Definition _get_existing_videos {J : Json} (database_file : DatabaseFile)
    (niche : string) : outcome (list string) :=
  match open_and_load database_file with
  | Returned competitor_data =>
      match competitor_data !! niche with
      | None => Returned []
      | Some videos => Returned (omap v_video_id videos)
      end
  | Raised FileNotFoundError | Raised JSONDecodeError => Returned []
  | Raised e => Raised e
  end.

End SelectiveVideoAnalyzer.

(** ** Vocabulary of the specification *)

(** The values of one [script_structure] key over the records that carry
    it, in list order; a record without [script_structure] contributes
    nothing. *)
Definition hook_values (videos : list VideoRecord) : list Q :=
  omap (λ v, v_script_structure v ≫= hook_word_count) videos.

Definition section_values (videos : list VideoRecord) : list Q :=
  omap (λ v, v_script_structure v ≫= section_count) videos.

Definition wpm_values (videos : list VideoRecord) : list Q :=
  omap (λ v, v_script_structure v ≫= words_per_minute) videos.

Definition transition_flags (videos : list VideoRecord) : list bool :=
  omap (λ v, v_script_structure v ≫= has_clear_transitions) videos.

Definition cta_flags (videos : list VideoRecord) : list bool :=
  omap (λ v, v_script_structure v ≫= has_cta) videos.

(** The arithmetic mean of [xs], and [dflt] when there is no value. *)
Definition mean_or (dflt : Q) (xs : list Q) : Q :=
  match xs with
  | [] => dflt
  | _ :: _ => (qsum xs / qlen xs)%Q
  end.

(** [avg] and [count] are the mean and the number of the values [xs]. *)
Definition tracks (dflt : Q) (xs : list Q) (avg : Q) (count : nat) : Prop :=
  count = length xs ∧ (avg == mean_or dflt xs)%Q.

(** The invariant of the script loop after the records [seen]: the three
    averages and their counters follow the values seen so far. *)
Definition loop_inv (seen : list VideoRecord)
    (s : DataIntegrationModule.ScriptLoop) : Prop :=
  tracks 25 (hook_values seen)
    (avg_hook_words (DataIntegrationModule.script_stats s))
    (DataIntegrationModule.hooks_count s)
  ∧ tracks 5 (section_values seen)
      (avg_sections (DataIntegrationModule.script_stats s))
      (DataIntegrationModule.sections_count s)
  ∧ tracks 150 (wpm_values seen)
      (avg_wpm (DataIntegrationModule.script_stats s))
      (DataIntegrationModule.wpm_count s).

(** 100 times the number of true flags over the number of flags, and
    [dflt] when there is no flag. *)
Definition pct_true_or (dflt : Q) (flags : list bool) : Q :=
  match flags with
  | [] => dflt
  | _ :: _ => (100 * qlen (List.filter id flags) / qlen flags)%Q
  end.

(** [x] is the first item of [l] with the highest count: every item before
    it has a strictly lower count, every item after it has at most its
    count. *)
Definition first_max (x : string * nat) (l : list (string * nat)) : Prop :=
  ∃ l1 l2, l = l1 ++ x :: l2
    ∧ (∀ y, y ∈ l1 → (y.2 < x.2)%nat)
    ∧ (∀ y, y ∈ l2 → (y.2 ≤ x.2)%nat).

(** The document with its [timestamp] field replaced. *)
Definition with_timestamp (t : string) (d : ContentDNA) : ContentDNA :=
  {| dna_niche := dna_niche d;
     dna_video_count := dna_video_count d;
     dna_timestamp := t;
     dna_title_dna := dna_title_dna d;
     dna_script_dna := dna_script_dna d;
     dna_engagement_factors := dna_engagement_factors d;
     dna_content_dna_patterns := dna_content_dna_patterns d;
     dna_summary := dna_summary d |}.

(** [d[key]] on a dictionary in insertion order. *)
Fixpoint assoc {V : Type} (key : string) (d : list (string * V)) : option V :=
  match d with
  | [] => None
  | kv :: d' => if decide (kv.1 = key) then Some kv.2 else assoc key d'
  end.

(** The configured niche set. *)
Definition configured_niches : gset string :=
  {[ "productivity"; "health_fitness"; "ai_tech" ]}.

(** The niche has no record in the document: its key is absent or its
    list is empty. *)
Definition no_records (db : Database) (niche : string) : Prop :=
  db !! niche = None ∨ db !! niche = Some [].

(** The reference [r] is held by none of the lists of the database. *)
Definition not_stored (r : positive) (data : gmap string (list positive)) : Prop :=
  ∀ k ls, data !! k = Some ls → r ∉ ls.

(** The engagement dictionary that the code reads from an analysis. *)
Definition engagement_of (analysis : Analysis) : Engagement :=
  default no_engagement (engagement (default no_metadata (an_metadata analysis))).

(** ** Sample inputs *)

(** The three titles of the specification's example. *)
Definition example_titles : list string :=
  ["How to Focus Better"; "5 Tips for Sleep"; "Why Diets Fail?"].

(** Three records that carry these titles and nothing else. *)
Definition example_videos : list VideoRecord := map titled example_titles.

(** [{"has_clear_transitions": t, "has_cta": c}]. *)
Definition flags_only (t c : bool) : ScriptStructure :=
  {| hook_word_count := None; section_count := None; words_per_minute := None;
     has_clear_transitions := Some t; has_cta := Some c |}.

(** One record whose script has neither clear transitions nor a call to
    action. *)
Definition videos_without_transitions : list VideoRecord :=
  [with_script (flags_only false false) (titled "Morning routine")].

(** A record with both flags true followed by one with both flags false. *)
Definition videos_half_transitions : list VideoRecord :=
  [with_script (flags_only true true) (titled "Morning routine");
   with_script (flags_only false false) (titled "Evening routine")].



(** An analyzer whose niche "productivity" holds the three example
    records. *)
Definition example_state {J : Json} : CompetitorAnalyzer.State :=
  {| CompetitorAnalyzer.heap :=
       <[3%positive := titled "Why Diets Fail?"]>
         (<[2%positive := titled "5 Tips for Sleep"]>
            (<[1%positive := titled "How to Focus Better"]> ∅));
     CompetitorAnalyzer.competitor_data :=
       <["productivity" := [1%positive; 2%positive; 3%positive]]>
         (<["health_fitness" := []]> (<["ai_tech" := []]> ∅));
     CompetitorAnalyzer.database_file := NoFile |}.

(** A freshly created analyzer (no database file was present) and one
    video dictionary made by a caller, not yet added. *)
Definition fresh_state {J : Json} : CompetitorAnalyzer.State :=
  {| CompetitorAnalyzer.heap := <[1%positive := titled "Deep Work in 10 Minutes"]> ∅;
     CompetitorAnalyzer.competitor_data :=
       <["ai_tech" := []]> (<["health_fitness" := []]> (<["productivity" := []]> ∅));
     CompetitorAnalyzer.database_file :=
       FileText (json_dump CompetitorAnalyzer.initial_db) |}.

(** An analyzer holding one record, added earlier, under "productivity". *)
Definition one_video_state {J : Json} : CompetitorAnalyzer.State :=
  {| CompetitorAnalyzer.heap :=
       <[2%positive := titled "Zone 2 Training Explained"]>
         (<[1%positive := set_date_added "2024-04-30 09:00:00"
                            (titled "Deep Work in 10 Minutes")]> ∅);
     CompetitorAnalyzer.competitor_data :=
       <["ai_tech" := []]>
         (<["health_fitness" := []]> (<["productivity" := [1%positive]]> ∅));
     CompetitorAnalyzer.database_file := NoFile |}.

(** An analysis of a video that nobody has viewed yet but that already
    has likes. *)
Definition unviewed_analysis : Analysis :=
  {| an_video_id := Some "dQw4w9WgXcQ";
     an_video_url := Some "https://youtube.com/watch?v=dQw4w9WgXcQ";
     an_metadata :=
       Some {| basic_info :=
                 Some {| bi_title := Some "My First Upload";
                         bi_channel_name := Some "New Channel";
                         bi_publish_date := Some "2024-05-01T09:00:00Z";
                         bi_length_seconds := Some 95%Q |};
               engagement :=
                 Some {| view_count := Some 0%Q; like_count := Some 2%Q;
                         comment_count := Some 1%Q; favorite_count := Some 0%Q |};
               seo := None; content_details := None; channel_info := None |};
     an_patterns := None |}.

(** ** Vocabulary of the further properties *)

(** The number of occurrences of [w] in [ws]. *)
Definition occurrences (w : string) (ws : list string) : nat :=
  length (filter (λ x, x = w) ws).

(** [a] comes before [b] in a list sorted by count, highest first. *)
Definition by_count_desc (a b : string * nat) : Prop := (b.2 ≤ a.2)%nat.



(** The word tokens that the pattern extractor counts in a list of
    titles. *)
Definition title_tokens (titles : list string) : list string :=
  findall_words (lower (join " " titles)).

(** The counters of the pattern extractor, as a dictionary. *)
Definition pattern_counters (how_to listicle question statement i_personal
    you_focused : nat) : list (string * nat) :=
  [("how_to", how_to); ("listicle", listicle); ("question", question);
   ("statement", statement); ("i_personal", i_personal);
   ("you_focused", you_focused)].


(** [x] is the first item of [l] with the lowest value: every item before
    it has a strictly higher value, every item after it has at least its
    value. *)
Definition first_min (x : string * Q) (l : list (string * Q)) : Prop :=
  ∃ l1 l2, l = l1 ++ x :: l2
    ∧ (∀ y, y ∈ l1 → (x.2 < y.2)%Q)
    ∧ (∀ y, y ∈ l2 → (x.2 <= y.2)%Q).


(** A freshly created analyzer and a caller's dictionary [{"url": ...}]
    that has no title. *)
Definition untitled_state {J : Json} : CompetitorAnalyzer.State :=
  {| CompetitorAnalyzer.heap :=
       <[1%positive :=
           {| v_title := None; v_channel := None;
              v_url := Some "https://youtube.com/watch?v=example0";
              v_video_id := None; v_views := None; v_likes := None;
              v_comments := None; v_description := None; v_thumbnail := None;
              v_upload_date := None; v_duration := None; v_ctr := None;
              v_retention := None; v_transcript := None;
              v_script_structure := None; v_rich_data := None;
              v_channel_data := None; v_engagement_metrics := None;
              v_detected_patterns := None; v_date_added := None |}]> ∅;
     CompetitorAnalyzer.competitor_data :=
       <["ai_tech" := []]> (<["health_fitness" := []]> (<["productivity" := []]> ∅));
     CompetitorAnalyzer.database_file := NoFile |}.


(** [{"title": t, "video_id": i}], and an analyzer that holds one such
    record under "productivity" while the caller holds a second one. *)
Definition identified_video (i t : string) : VideoRecord :=
  {| v_title := Some t; v_channel := None; v_url := None; v_video_id := Some i;
     v_views := None; v_likes := None; v_comments := None;
     v_description := None; v_thumbnail := None; v_upload_date := None;
     v_duration := None; v_ctr := None; v_retention := None;
     v_transcript := None; v_script_structure := None; v_rich_data := None;
     v_channel_data := None; v_engagement_metrics := None;
     v_detected_patterns := None; v_date_added := None |}.

Definition identified_state {J : Json} : CompetitorAnalyzer.State :=
  {| CompetitorAnalyzer.heap :=
       <[2%positive := identified_video "dQw4w9WgXcQ" "Deep Work in 10 Minutes"]>
         (<[1%positive := identified_video "9bZkp7q19f0" "How to Focus Better"]> ∅);
     CompetitorAnalyzer.competitor_data :=
       <["ai_tech" := []]>
         (<["health_fitness" := []]> (<["productivity" := [1%positive]]> ∅));
     CompetitorAnalyzer.database_file := NoFile |}.


(** The records of a niche that carry a thumbnail, and those of them that
    also carry a click-through rate. *)
Definition thumbnail_videos {J : Json} (st : CompetitorAnalyzer.State)
    (niche : string) : list VideoRecord :=
  List.filter CompetitorAnalyzer.has_thumbnail
    (map (CompetitorAnalyzer.deref (CompetitorAnalyzer.heap st))
       (default [] (CompetitorAnalyzer.competitor_data st !! niche))).


(** [{"title": t, "ctr": c, "thumbnail": {"has_face": f, "has_text": x,
    "colors": ["blue", "red", "white"]}}]. *)
Definition thumbnail_video (t : string) (c : option Q) (f x : bool) : VideoRecord :=
  {| v_title := Some t; v_channel := None; v_url := None; v_video_id := None;
     v_views := None; v_likes := None; v_comments := None;
     v_description := None;
     v_thumbnail := Some {| has_face := f; has_text := x;
                            colors := ["blue"; "red"; "white"] |};
     v_upload_date := None; v_duration := None; v_ctr := c; v_retention := None;
     v_transcript := None; v_script_structure := None; v_rich_data := None;
     v_channel_data := None; v_engagement_metrics := None;
     v_detected_patterns := None; v_date_added := None |}.

(** Three records under "productivity": two show a face and carry no
    click-through rate, one shows none and has a rate of 4. *)
Definition thumbnail_state {J : Json} : CompetitorAnalyzer.State :=
  {| CompetitorAnalyzer.heap :=
       <[3%positive := thumbnail_video "Desk Setup Tour" (Some 4%Q) false true]>
         (<[2%positive := thumbnail_video "I Tried Time Blocking" None true false]>
            (<[1%positive := thumbnail_video "How to Focus Better" None true true]> ∅));
     CompetitorAnalyzer.competitor_data :=
       <["ai_tech" := []]>
         (<["health_fitness" := []]>
            (<["productivity" := [1%positive; 2%positive; 3%positive]]> ∅));
     CompetitorAnalyzer.database_file := NoFile |}.


(** The four compositions, the compositions of the thumbnails of a niche,
    and the entry that [_extract_thumbnail_patterns] lists for a counter
    that is above a tenth of the total. *)
Definition composition_names : list string :=
  ["face_and_text"; "face_only"; "text_only"; "object_only"].

Definition compositions {J : Json} (st : CompetitorAnalyzer.State)
    (niche : string) : list string :=
  map (λ v, CompetitorAnalyzer.composition (CompetitorAnalyzer.thumbnail_of v))
    (thumbnail_videos st niche).

Definition above_tenth (total : nat) (kv : string * nat) : bool :=
  qgt (qnat kv.2) (qnat total * (1 # 10)).

Definition listed_pattern (total : nat) (kv : string * nat)
  : CompetitorAnalyzer.ThumbnailPattern :=
  {| CompetitorAnalyzer.tp_type := kv.1;
     CompetitorAnalyzer.tp_description :=
       CompetitorAnalyzer._get_thumbnail_description kv.1;
     CompetitorAnalyzer.tp_frequency := (qnat kv.2 / qnat total * 100)%Q |}.

Definition by_frequency_desc (a b : CompetitorAnalyzer.ThumbnailPattern) : Prop :=
  (CompetitorAnalyzer.tp_frequency b <= CompetitorAnalyzer.tp_frequency a)%Q.


(** A title pattern that comes with one to three examples taken from the
    titles, in their order, and with a frequency above 0 and at most 100. *)
Definition exemplified (titles : list string) (p : CompetitorAnalyzer.TitlePattern)
  : Prop :=
  CompetitorAnalyzer.tpl_examples p ≠ []
  ∧ (length (CompetitorAnalyzer.tpl_examples p) ≤ 3)%nat
  ∧ sublist (CompetitorAnalyzer.tpl_examples p) titles
  ∧ (0 < CompetitorAnalyzer.tpl_frequency p <= 100)%Q.






(** Every reference held by the mapping points to a dictionary of the
    heap. *)
Definition allocated {J : Json} (st : CompetitorAnalyzer.State) : Prop :=
  ∀ k ls l,
    CompetitorAnalyzer.competitor_data st !! k = Some ls → l ∈ ls →
    is_Some (CompetitorAnalyzer.heap st !! l).

(** The file that [extract_and_integrate] writes the analysis to. *)
Definition api_analysis_path (analysis : Analysis) : string :=
  "data/" +:+ default "unknown" (an_video_id analysis) +:+ "_api_analysis.json".


(** The value of a string of decimal digits; a component [<digits><unit>]
    of an ISO 8601 duration put before [rest], or nothing; and the amount
    that the component stands for. *)
Fixpoint decimal_from (acc : nat) (digits : string) : nat :=
  match digits with
  | EmptyString => acc
  | String c digits' =>
      decimal_from (10 * acc + YouTubeDataExtractor.digit_value c)%nat digits'
  end.

Definition decimal (digits : string) : nat := decimal_from 0 digits.

Definition is_number (digits : string) : Prop :=
  digits ≠ "" ∧ all_char isdigit digits = true.

Definition component (amount : option string) (unit : ascii) (rest : string)
  : string :=
  match amount with
  | Some digits => digits +:+ String unit rest
  | None => rest
  end.

Definition amount_of (amount : option string) : nat :=
  match amount with
  | Some digits => decimal digits
  | None => 0%nat
  end.

Definition is_amount (amount : option string) : Prop :=
  match amount with
  | Some digits => is_number digits
  | None => True
  end.


(** [analysis["patterns"] = p]: the step by which
    [get_complete_video_analysis] completes the analysis with the result of
    [_identify_patterns]. *)
Definition with_patterns (p : Patterns) (analysis : Analysis) : Analysis :=
  {| an_video_id := an_video_id analysis;
     an_video_url := an_video_url analysis;
     an_metadata := an_metadata analysis;
     an_patterns := Some p |}.


(** A record that came through the API: the result of
    [_transform_to_competitor_format], as it is or with a time stamp. *)
Definition api_imported (v : VideoRecord) : Prop :=
  ∃ analysis niche v',
    APIIntegrationModule._transform_to_competitor_format analysis niche = Returned v'
    ∧ (v = v' ∨ ∃ now, v = set_date_added now v').

(** An analyzer whose "ai_tech" list holds two records that came through
    the API. *)
Definition api_state {J : Json} : CompetitorAnalyzer.State :=
  {| CompetitorAnalyzer.heap :=
       <[2%positive :=
           set_date_added "2024-05-02 08:00:00"
             (match APIIntegrationModule._transform_to_competitor_format
                      unviewed_analysis "ai_tech" with
              | Returned v => v
              | Raised _ => empty_video
              end)]>
         (<[1%positive :=
              set_date_added "2024-05-01 10:00:00"
                (match APIIntegrationModule._transform_to_competitor_format
                         unviewed_analysis "ai_tech" with
                 | Returned v => v
                 | Raised _ => empty_video
                 end)]> ∅);
     CompetitorAnalyzer.competitor_data :=
       <["ai_tech" := [1%positive; 2%positive]]>
         (<["health_fitness" := []]> (<["productivity" := []]> ∅));
     CompetitorAnalyzer.database_file := NoFile |}.


(** * Properties *)

(** ** Arithmetic helpers *)

Lemma qnat_S_nonzero (n : nat) : Qeq_bool (qnat (S n)) 0 = false.
Proof.
  destruct (Qeq_bool (qnat (S n)) 0) eqn:E; [|reflexivity].
  apply Qeq_bool_eq in E. unfold qnat, Qeq in E. simpl in E. lia.
Qed.

Lemma qlen_nonzero {A : Type} (l : list A) : l ≠ [] → Qeq_bool (qlen l) 0 = false.
Proof.
  destruct l as [|x l]; [congruence|]. intros _. apply (qnat_S_nonzero (length l)).
Qed.

Lemma py_div_returns (a b : Q) :
  Qeq_bool b 0 = false → py_div a b = Returned (a / b)%Q.
Proof. unfold py_div. intros ->. reflexivity. Qed.

Lemma py_div_S (a : Q) (n : nat) :
  py_div a (qnat (S n)) = Returned (a / qnat (S n))%Q.
Proof. apply py_div_returns, qnat_S_nonzero. Qed.

Lemma qnat_S (n : nat) : (qnat (S n) == qnat n + 1)%Q.
Proof.
  unfold qnat. rewrite Nat2Z.inj_succ, <- Z.add_1_r, inject_Z_plus. reflexivity.
Qed.

Lemma qnat_S_neq (n : nat) : ¬ (qnat (S n) == 0)%Q.
Proof. unfold qnat, Qeq. simpl. lia. Qed.

Lemma qsum_snoc (xs : list Q) (x : Q) : (qsum (xs ++ [x]) == qsum xs + x)%Q.
Proof.
  induction xs as [|y xs IH]; simpl.
  - ring.
  - rewrite IH. ring.
Qed.

Lemma map_outcome_returns {A B : Type} (f : A → outcome B) (g : A → B) (l : list A) :
  (∀ x, f x = Returned (g x)) → map_outcome f l = Returned (map g l).
Proof.
  intros Hf. induction l as [|x l IH]; simpl; [reflexivity|].
  rewrite Hf. simpl. rewrite IH. reflexivity.
Qed.

(** ** The running averages of the script loop *)

Import DataIntegrationModule.

Lemma mean_or_snoc (dflt : Q) (xs : list Q) (x : Q) :
  (mean_or dflt (xs ++ [x]) == (qsum xs + x) / (qnat (length xs) + 1))%Q.
Proof.
  assert (Hlen : (qlen (xs ++ [x]) == qnat (length xs) + 1)%Q).
  { unfold qlen. rewrite length_app. simpl.
    replace (length xs + 1)%nat with (S (length xs)) by lia. apply qnat_S. }
  destruct xs as [|y xs].
  - simpl. change (qlen [x]) with 1%Q. change (qnat 0) with 0%Q. field.
  - change (mean_or dflt ((y :: xs) ++ [x]))
      with (qsum ((y :: xs) ++ [x]) / qlen ((y :: xs) ++ [x]))%Q.
    rewrite Hlen, qsum_snoc. reflexivity.
Qed.

Lemma running_mean_tracks (dflt : Q) (xs : list Q) (avg : Q) (count : nat) (x : Q) :
  tracks dflt xs avg count →
  ∃ avg', running_mean avg (S count) x = Returned avg'
          ∧ tracks dflt (xs ++ [x]) avg' (S count).
Proof.
  intros [-> Havg]. unfold running_mean. rewrite py_div_S.
  eexists; split; [reflexivity|]. split.
  - rewrite length_app. simpl. lia.
  - rewrite mean_or_snoc, qnat_S, Havg.
    destruct xs as [|y xs].
    + simpl. change (qnat 0) with 0%Q. field.
    + change (mean_or dflt (y :: xs)) with (qsum (y :: xs) / qlen (y :: xs))%Q.
      change (qlen (y :: xs)) with (qnat (S (length xs))).
      pose proof (qnat_S_neq (length xs)) as Hne.
      change (length (y :: xs)) with (S (length xs)).
      field. split; [|exact Hne].
      rewrite <- qnat_S. apply qnat_S_neq.
Qed.

Lemma py_div_100 (a : Q) : py_div a 100 = Returned (a / 100)%Q.
Proof. apply py_div_returns. reflexivity. Qed.

Lemma running_pct_returns (pct : Q) (count : nat) :
  ∃ r, running_pct pct (S count) = Returned r.
Proof.
  unfold running_pct. rewrite py_div_100. cbn [obind].
  rewrite py_div_S. cbn [obind]. eauto.
Qed.

Lemma omap_snoc {A B : Type} (f : A → option B) (l : list A) (x : A) :
  omap f (l ++ [x]) = omap f l ++ option_list (f x).
Proof. rewrite omap_app. simpl. destruct (f x); reflexivity. Qed.

Lemma script_body_inv (seen : list VideoRecord) (s : ScriptLoop) (v : VideoRecord) :
  loop_inv seen s →
  ∃ s', script_body s v = Returned s' ∧ loop_inv (seen ++ [v]) s'.
Proof.
  intros (Hh & Hs & Hw).
  unfold loop_inv, script_body, hook_values, section_values, wpm_values.
  rewrite !omap_snoc.
  destruct (v_script_structure v) as [ss|]; cbn [mbind option_bind option_list].
  2: { rewrite !app_nil_r. eexists; split; [reflexivity|]. tauto. }
  (* hook *)
  assert (∃ s1, add_hook ss s = Returned s1
    ∧ tracks 25 (omap (λ v, v_script_structure v ≫= hook_word_count) seen
                 ++ option_list (hook_word_count ss))
        (avg_hook_words (script_stats s1)) (hooks_count s1)
    ∧ avg_sections (script_stats s1) = avg_sections (script_stats s)
    ∧ sections_count s1 = sections_count s
    ∧ avg_wpm (script_stats s1) = avg_wpm (script_stats s)
    ∧ wpm_count s1 = wpm_count s) as (s1 & -> & Hh1 & E1 & E2 & E3 & E4).
  { unfold add_hook. destruct (hook_word_count ss) as [x|]; cbn [option_list].
    - destruct (running_mean_tracks _ _ _ _ x Hh) as (avg' & -> & Hh').
      cbn [obind]. eexists; split; [reflexivity|]. cbn. tauto.
    - rewrite app_nil_r. eexists; split; [reflexivity|]. tauto. }
  rewrite <- E1, <- E2 in Hs. rewrite <- E3, <- E4 in Hw. clear E1 E2 E3 E4 Hh.
  cbn [obind].
  (* sections *)
  assert (∃ s2, add_sections ss s1 = Returned s2
    ∧ tracks 5 (omap (λ v, v_script_structure v ≫= section_count) seen
                ++ option_list (section_count ss))
        (avg_sections (script_stats s2)) (sections_count s2)
    ∧ avg_hook_words (script_stats s2) = avg_hook_words (script_stats s1)
    ∧ hooks_count s2 = hooks_count s1
    ∧ avg_wpm (script_stats s2) = avg_wpm (script_stats s1)
    ∧ wpm_count s2 = wpm_count s1) as (s2 & -> & Hs2 & E1 & E2 & E3 & E4).
  { unfold add_sections. destruct (section_count ss) as [x|]; cbn [option_list].
    - destruct (running_mean_tracks _ _ _ _ x Hs) as (avg' & -> & Hs').
      cbn [obind]. eexists; split; [reflexivity|]. cbn. tauto.
    - rewrite app_nil_r. eexists; split; [reflexivity|]. tauto. }
  rewrite <- E1, <- E2 in Hh1. rewrite <- E3, <- E4 in Hw. clear E1 E2 E3 E4 Hs.
  cbn [obind].
  (* words per minute *)
  assert (∃ s3, add_wpm ss s2 = Returned s3
    ∧ tracks 150 (omap (λ v, v_script_structure v ≫= words_per_minute) seen
                  ++ option_list (words_per_minute ss))
        (avg_wpm (script_stats s3)) (wpm_count s3)
    ∧ avg_hook_words (script_stats s3) = avg_hook_words (script_stats s2)
    ∧ hooks_count s3 = hooks_count s2
    ∧ avg_sections (script_stats s3) = avg_sections (script_stats s2)
    ∧ sections_count s3 = sections_count s2) as (s3 & -> & Hw3 & E1 & E2 & E3 & E4).
  { unfold add_wpm. destruct (words_per_minute ss) as [x|]; cbn [option_list].
    - destruct (running_mean_tracks _ _ _ _ x Hw) as (avg' & -> & Hw').
      cbn [obind]. eexists; split; [reflexivity|]. cbn. tauto.
    - rewrite app_nil_r. eexists; split; [reflexivity|]. tauto. }
  rewrite <- E1, <- E2 in Hh1. rewrite <- E3, <- E4 in Hs2. clear E1 E2 E3 E4 Hw.
  cbn [obind].
  (* transitions and calls to action leave the three averages alone *)
  unfold add_transitions.
  destruct (has_clear_transitions ss) as [[|]|];
    [destruct (running_pct_returns (transitions_pct (script_stats s3))
                 (transitions_count s3)) as (r & ->)| |];
    cbn [obind]; unfold add_cta; cbn;
    (destruct (has_cta ss) as [[|]|];
      [match goal with
       | |- context [running_pct ?p (S ?c)] =>
           destruct (running_pct_returns p c) as (r' & ->)
       end| |];
      cbn [obind]; (eexists; split; [reflexivity|]); cbn;
      destruct (hook_word_count ss), (section_count ss), (words_per_minute ss);
      cbn; cbn in Hh1, Hs2, Hw3; tauto).
Qed.

Lemma script_loop_inv (videos seen : list VideoRecord) (s : ScriptLoop) :
  loop_inv seen s →
  ∃ s', for_each script_body videos s = Returned s' ∧ loop_inv (seen ++ videos) s'.
Proof.
  revert seen s. induction videos as [|v videos IH]; intros seen s Hinv.
  - rewrite app_nil_r. exists s. split; [reflexivity|assumption].
  - destruct (script_body_inv seen s v Hinv) as (s1 & Hs1 & Hinv1).
    destruct (IH (seen ++ [v]) s1 Hinv1) as (s' & Hs' & Hinv').
    exists s'. split.
    + simpl. rewrite Hs1. exact Hs'.
    + rewrite <- app_assoc in Hinv'. exact Hinv'.
Qed.

Lemma loop_inv_initial : loop_inv [] initial_script_loop.
Proof. repeat split; reflexivity. Qed.

(** The script loop never raises, and its three averages are the means of
    the values carried by the records. *)
Lemma script_pass_means (videos : list VideoRecord) :
  ∃ st, script_pass videos = Returned st
    ∧ (avg_hook_words st == mean_or 25 (hook_values videos))%Q
    ∧ (avg_sections st == mean_or 5 (section_values videos))%Q
    ∧ (avg_wpm st == mean_or 150 (wpm_values videos))%Q.
Proof.
  destruct (script_loop_inv videos [] initial_script_loop loop_inv_initial)
    as (s & Hs & (_ & Hh) & (_ & Hsec) & (_ & Hw)).
  exists (script_stats s). unfold script_pass. rewrite Hs. auto.
Qed.

(** ** The aggregator returns on every non-empty list *)

Lemma bump_keys (key : string) (d : list (string * nat)) :
  map fst (bump key d) = map fst d.
Proof.
  unfold bump. induction d as [|kv d IH]; simpl; [reflexivity|].
  rewrite IH. destruct (decide (kv.1 = key)); reflexivity.
Qed.

Lemma classify_title_keys (title : string) (ts : list (string * nat)) :
  map fst (classify_title title ts) = map fst ts.
Proof.
  unfold classify_title.
  repeat match goal with
         | |- context [if ?c then _ else _] => destruct c
         end; rewrite ?bump_keys; reflexivity.
Qed.

Lemma title_pass_keys (videos : list VideoRecord) (acc : list string * list (string * nat)) :
  map fst (foldl title_body acc videos).2 = map fst acc.2.
Proof.
  revert acc. induction videos as [|v videos IH]; intros acc; simpl; [reflexivity|].
  rewrite IH. apply classify_title_keys.
Qed.

(** The counters keep the keys of the initial dictionary, in its order. *)
Lemma title_structures_keys (videos : list VideoRecord) :
  map fst (title_structures videos)
  = ["question"; "number"; "how_to"; "list"; "emotional"].
Proof. unfold title_structures, title_pass. rewrite title_pass_keys. reflexivity. Qed.

Lemma max_from_first_max (l pre post : list (string * nat)) (best : string * nat) :
  (∀ y, y ∈ pre → (y.2 < best.2)%nat) →
  (∀ y, y ∈ post → (y.2 ≤ best.2)%nat) →
  first_max (max_from count_ltb best l) (pre ++ best :: post ++ l).
Proof.
  revert pre post best. induction l as [|x l IH]; intros pre post best Hpre Hpost.
  - simpl. rewrite app_nil_r. exists pre, post. auto.
  - simpl. unfold count_ltb at 2. destruct (Nat.ltb_spec best.2 x.2) as [Hlt|Hge].
    + replace (pre ++ best :: post ++ x :: l)
        with ((pre ++ best :: post) ++ x :: [] ++ l)
        by (rewrite <- app_assoc; reflexivity).
      apply IH.
      * intros y Hy. apply elem_of_app in Hy as [Hy|Hy].
        -- specialize (Hpre y Hy). lia.
        -- apply elem_of_cons in Hy as [->|Hy]; [lia|].
           specialize (Hpost y Hy). lia.
      * intros y Hy. apply elem_of_nil in Hy. contradiction.
    + replace (pre ++ best :: post ++ x :: l)
        with (pre ++ best :: (post ++ [x]) ++ l)
        by (rewrite <- (app_assoc post); reflexivity).
      apply IH; [assumption|].
      intros y Hy. apply elem_of_app in Hy as [Hy|Hy]; [auto|].
      apply list_elem_of_singleton in Hy as ->. lia.
Qed.

Lemma py_max_first_max (l : list (string * nat)) :
  l ≠ [] → ∃ top, py_max count_ltb l = Returned top ∧ first_max top l.
Proof.
  destruct l as [|x l]; [congruence|]. intros _.
  exists (max_from count_ltb x l). split; [reflexivity|].
  apply (max_from_first_max l [] [] x); intros y Hy; apply elem_of_nil in Hy;
    contradiction.
Qed.

Lemma top_title_structure_returns (videos : list VideoRecord) :
  ∃ top, top_title_structure videos = Returned top
         ∧ first_max top (title_structures videos).
Proof.
  apply py_max_first_max. intros E.
  pose proof (title_structures_keys videos) as K. rewrite E in K. discriminate.
Qed.

Lemma title_dna_returns (videos : list VideoRecord) :
  videos ≠ [] → ∃ td, title_dna videos = Returned td.
Proof.
  intros Hne. unfold title_dna.
  rewrite (map_outcome_returns (structure_stat videos)
             (λ kv, (kv.1, {| st_count := kv.2;
                              st_percentage := (qnat kv.2 / qlen videos * 100)%Q |}))).
  - cbn [obind]. rewrite py_div_returns by (apply qlen_nonzero; assumption).
    cbn [obind]. eauto.
  - intros kv. unfold structure_stat.
    rewrite py_div_returns by (apply qlen_nonzero; assumption). reflexivity.
Qed.

Lemma engagement_factors_returns (videos : list VideoRecord) :
  ∃ e, engagement_factors videos = Returned e.
Proof.
  unfold engagement_factors. destruct (1 <? length videos)%nat; [|eauto].
  destruct (List.filter has_views videos) as [|first rest] eqn:E; [eauto|].
  rewrite py_div_returns by (apply qlen_nonzero; discriminate).
  cbn [obind]. eauto.
Qed.

Lemma title_entry_returns (videos : list VideoRecord) (top : string * nat) :
  videos ≠ [] →
  title_entry videos top
  = Returned {| pe_element := "title";
                pe_pattern := top.1 +:+ "_structure";
                pe_prevalence := Some (qnat top.2 / qlen videos * 100)%Q;
                pe_value := None;
                pe_recommendation :=
                  "Use a " +:+ top.1 +:+ " structure in your title" |}.
Proof.
  intros Hne. unfold title_entry.
  rewrite py_div_returns by (apply qlen_nonzero; assumption). reflexivity.
Qed.

Lemma content_dna_returns (videos : list VideoRecord) (top : string * nat)
    (st : ScriptStats) :
  videos ≠ [] →
  content_dna videos top st
  = Returned
      ((if (0 <? top.2)%nat
        then [{| pe_element := "title";
                 pe_pattern := top.1 +:+ "_structure";
                 pe_prevalence := Some (qnat top.2 / qlen videos * 100)%Q;
                 pe_value := None;
                 pe_recommendation :=
                   "Use a " +:+ top.1 +:+ " structure in your title" |}]
        else [])
       ++ (if qgt (transitions_pct st) 50 then [transitions_entry st] else [])
       ++ (if qgt (cta_pct st) 50 then [cta_entry st] else [])
       ++ [hook_entry st; pace_entry st]).
Proof.
  intros Hne. unfold content_dna.
  destruct (0 <? top.2)%nat.
  - rewrite title_entry_returns by assumption. cbn [obind].
    destruct (qgt (transitions_pct st) 50), (qgt (cta_pct st) 50); reflexivity.
  - cbn [obind].
    destruct (qgt (transitions_pct st) 50), (qgt (cta_pct st) 50); reflexivity.
Qed.

(** The shape of the result on a non-empty list, shared by the theorems
    below. *)
Lemma analyze_content_dna_returns (now : string) (videos : list VideoRecord)
    (niche : string) :
  videos ≠ [] →
  ∃ td st eng top cd,
    title_dna videos = Returned td
    ∧ script_pass videos = Returned st
    ∧ engagement_factors videos = Returned eng
    ∧ top_title_structure videos = Returned top
    ∧ content_dna videos top st = Returned cd
    ∧ _analyze_content_dna now videos niche
      = Returned {| dna_niche := niche;
                    dna_video_count := length videos;
                    dna_timestamp := now;
                    dna_title_dna := td;
                    dna_script_dna := {| sd_stats := st; sd_keywords := [] |};
                    dna_engagement_factors := eng;
                    dna_content_dna_patterns := cd;
                    dna_summary := summary top (td_keywords td) cd |}.
Proof.
  intros Hne.
  destruct (title_dna_returns videos Hne) as (td & Htd).
  destruct (script_pass_means videos) as (st & Hst & _).
  destruct (engagement_factors_returns videos) as (eng & Heng).
  destruct (top_title_structure_returns videos) as (top & Htop & _).
  pose proof (content_dna_returns videos top st Hne) as Hcd.
  eexists td, st, eng, top, _. repeat (split; [eassumption|]).
  unfold _analyze_content_dna. rewrite Htd, Hst, Heng, Htop. cbn [obind].
  rewrite Hcd. reflexivity.
Qed.

(** On the empty list the aggregator raises in the title statistics; the
    entry point [run_enhanced_analysis] never passes it an empty list. *)
Lemma analyze_content_dna_empty (now niche : string) :
  _analyze_content_dna now [] niche = Raised ZeroDivisionError.
Proof. reflexivity. Qed.

(** ** Properties of the aggregator *)

(** C1 (as amended).  The aggregator reads the wall clock into the
    [timestamp] field.  Two invocations on the same niche name and the same
    records, at clock readings [t1] and [t2], raise the same exception or
    return documents that agree on every field but [timestamp]: the second
    document is the first with its timestamp replaced by [t2]. *)
Theorem analyze_content_dna_deterministic_up_to_timestamp
    (t1 t2 : string) (videos : list VideoRecord) (niche : string) :
  _analyze_content_dna t2 videos niche
  = omap_outcome (with_timestamp t2) (_analyze_content_dna t1 videos niche).
Proof.
  unfold _analyze_content_dna.
  destruct (title_dna videos) as [td|e]; [|reflexivity]. cbn [obind].
  destruct (script_pass videos) as [st|e]; [|reflexivity]. cbn [obind].
  destruct (engagement_factors videos) as [eng|e]; [|reflexivity]. cbn [obind].
  destruct (top_title_structure videos) as [top|e]; [|reflexivity]. cbn [obind].
  destruct (content_dna videos top st) as [cd|e]; reflexivity.
Qed.

(** C1 (as stated) fails: the document is not a function of the niche name
    and the records alone.  The same three records aggregated one second
    apart give two different documents. *)
Lemma analyze_content_dna_depends_on_clock :
  ¬ (∀ (t1 t2 : string) (videos : list VideoRecord) (niche : string),
       _analyze_content_dna t1 videos niche = _analyze_content_dna t2 videos niche).
Proof.
  intros H.
  specialize (H "2024-05-01 10:00:00" "2024-05-01 10:00:01" example_videos
                "productivity").
  apply (f_equal (omap_outcome dna_timestamp)) in H.
  vm_compute in H. discriminate H.
Qed.

(** C2 (code defect).  The percentage of clear transitions is recomputed
    only for records whose flag is true.  On one record whose flag is false
    the aggregator returns the baselines 60 and 80, where 100 * 0 / 1 = 0 is
    specified; on a true record followed by a false one it returns 100,
    where 100 * 1 / 2 = 50 is specified. *)
Theorem transitions_pct_skips_false_records (now niche : string) :
  (∃ d, _analyze_content_dna now videos_without_transitions niche = Returned d
        ∧ transitions_pct (sd_stats (dna_script_dna d)) = 60%Q
        ∧ cta_pct (sd_stats (dna_script_dna d)) = 80%Q
        ∧ (pct_true_or 60 (transition_flags videos_without_transitions) == 0)%Q
        ∧ (pct_true_or 80 (cta_flags videos_without_transitions) == 0)%Q)
  ∧ (∃ d, _analyze_content_dna now videos_half_transitions niche = Returned d
          ∧ (transitions_pct (sd_stats (dna_script_dna d)) == 100)%Q
          ∧ (cta_pct (sd_stats (dna_script_dna d)) == 100)%Q
          ∧ (pct_true_or 60 (transition_flags videos_half_transitions) == 50)%Q
          ∧ (pct_true_or 80 (cta_flags videos_half_transitions) == 50)%Q).
Proof.
  split.
  - destruct (analyze_content_dna_returns now videos_without_transitions niche)
      as (td & st & eng & top & cd & _ & Hst & _ & _ & _ & Hrun); [discriminate|].
    eexists; split; [exact Hrun|]. cbn.
    vm_compute in Hst. injection Hst as <-. repeat split; reflexivity.
  - destruct (analyze_content_dna_returns now videos_half_transitions niche)
      as (td & st & eng & top & cd & _ & Hst & _ & _ & _ & Hrun); [discriminate|].
    eexists; split; [exact Hrun|]. cbn.
    vm_compute in Hst. injection Hst as <-. repeat split; reflexivity.
Qed.



Lemma qgt_spec (a b : Q) : qgt a b = true ↔ (b < a)%Q.
Proof.
  unfold qgt. rewrite negb_true_iff. split.
  - intros Hle. apply Qnot_le_lt. intros Hab.
    apply Qle_bool_iff in Hab. congruence.
  - intros Hlt. destruct (Qle_bool a b) eqn:E; [|reflexivity].
    apply Qle_bool_iff in E. exfalso. exact (Qlt_not_le _ _ Hlt E).
Qed.

Lemma qgt_dec (a b : Q) (A : Type) (x y : A) :
  (if qgt a b then x else y) = (if Qlt_le_dec b a then x else y).
Proof.
  destruct (Qlt_le_dec b a) as [Hlt|Hle].
  - apply qgt_spec in Hlt. rewrite Hlt. reflexivity.
  - destruct (qgt a b) eqn:E; [|reflexivity].
    apply qgt_spec in E. exfalso. exact (Qlt_not_le _ _ E Hle).
Qed.

(** C7.  On every non-empty list of records the aggregator returns a
    document whose [content_dna_patterns] is, in this order: a title entry
    if and only if the highest title-structure count is positive, a
    [clear_transitions] entry if and only if [transitions_pct > 50], a
    [verbal_cta] entry if and only if [cta_pct > 50], then the [hook_length]
    and [speaking_pace] entries, and nothing else.  The title entry names
    [top], the first item with the highest count among the counters, which
    are kept in the order question, number, how_to, list, emotional. *)
Theorem content_dna_patterns_shape (now : string) (videos : list VideoRecord)
    (niche : string) :
  videos ≠ [] →
  ∃ d top,
    _analyze_content_dna now videos niche = Returned d
    ∧ map fst (title_structures videos)
      = ["question"; "number"; "how_to"; "list"; "emotional"]
    ∧ first_max top (title_structures videos)
    ∧ dna_content_dna_patterns d
      = (if decide (0 < top.2)%nat
         then [{| pe_element := "title";
                  pe_pattern := top.1 +:+ "_structure";
                  pe_prevalence := Some (qnat top.2 / qlen videos * 100)%Q;
                  pe_value := None;
                  pe_recommendation :=
                    "Use a " +:+ top.1 +:+ " structure in your title" |}]
         else [])
        ++ (if Qlt_le_dec 50 (transitions_pct (sd_stats (dna_script_dna d)))
            then [transitions_entry (sd_stats (dna_script_dna d))] else [])
        ++ (if Qlt_le_dec 50 (cta_pct (sd_stats (dna_script_dna d)))
            then [cta_entry (sd_stats (dna_script_dna d))] else [])
        ++ [hook_entry (sd_stats (dna_script_dna d));
            pace_entry (sd_stats (dna_script_dna d))].
Proof.
  intros Hne.
  destruct (analyze_content_dna_returns now videos niche Hne)
    as (td & st & eng & top & cd & _ & _ & _ & Htop & Hcd & Hrun).
  destruct (top_title_structure_returns videos) as (top' & Htop' & Hmax).
  rewrite Htop in Htop'. injection Htop' as <-.
  rewrite (content_dna_returns videos top st Hne) in Hcd. injection Hcd as <-.
  eexists _, top. split; [exact Hrun|].
  split; [apply title_structures_keys|]. split; [exact Hmax|].
  cbn [dna_content_dna_patterns dna_script_dna sd_stats].
  rewrite !qgt_dec. f_equal.
  destruct (decide (0 < top.2)%nat) as [Hpos|Hzero].
  - apply Nat.ltb_lt in Hpos. rewrite Hpos. reflexivity.
  - apply Nat.ltb_nlt in Hzero. rewrite Hzero. reflexivity.
Qed.

Lemma content_dna_patterns_shape_witness :
  ∃ d top,
    _analyze_content_dna "2024-05-01 10:00:00" example_videos "productivity"
    = Returned d
    ∧ map fst (title_structures example_videos)
      = ["question"; "number"; "how_to"; "list"; "emotional"]
    ∧ first_max top (title_structures example_videos)
    ∧ dna_content_dna_patterns d
      = (if decide (0 < top.2)%nat
         then [{| pe_element := "title";
                  pe_pattern := top.1 +:+ "_structure";
                  pe_prevalence := Some (qnat top.2 / qlen example_videos * 100)%Q;
                  pe_value := None;
                  pe_recommendation :=
                    "Use a " +:+ top.1 +:+ " structure in your title" |}]
         else [])
        ++ (if Qlt_le_dec 50 (transitions_pct (sd_stats (dna_script_dna d)))
            then [transitions_entry (sd_stats (dna_script_dna d))] else [])
        ++ (if Qlt_le_dec 50 (cta_pct (sd_stats (dna_script_dna d)))
            then [cta_entry (sd_stats (dna_script_dna d))] else [])
        ++ [hook_entry (sd_stats (dna_script_dna d));
            pace_entry (sd_stats (dna_script_dna d))].
Proof. apply content_dna_patterns_shape. discriminate. Defined.

(** ** Properties of the Local Video Store *)

Import CompetitorAnalyzer.

Section Store.

Context {J : Json}.

Lemma manual_add_video_data (now : string) (r : loc) (niche : string) (st : State) :
  competitor_data (manual_add_video now r niche st).2
  = <[niche := default [] (competitor_data st !! niche) ++ [r]]> (competitor_data st).
Proof.
  unfold manual_add_video. cbn.
  destruct (competitor_data st !! niche) as [ls|] eqn:E.
  - rewrite E. reflexivity.
  - rewrite lookup_insert_eq. cbn. apply insert_insert_eq.
Qed.

Lemma manual_add_video_heap (now : string) (r : loc) (niche : string) (st : State) :
  heap (manual_add_video now r niche st).2 = alter (set_date_added now) r (heap st).
Proof. reflexivity. Qed.

Lemma manual_add_video_file (now : string) (r : loc) (niche : string) (st : State) :
  database_file (manual_add_video now r niche st).2
  = FileText (json_dump (snapshot (heap (manual_add_video now r niche st).2)
                           (competitor_data (manual_add_video now r niche st).2))).
Proof. reflexivity. Qed.

Lemma dom_snapshot (h : gmap loc VideoRecord) (data : gmap string (list loc)) :
  dom (snapshot h data) = dom data.
Proof. unfold snapshot. apply dom_fmap_L. Qed.

(** C4 (as amended).  [load_competitor_data] establishes the configured
    key set when no file exists.  [manual_add_video] never removes a key and
    adds at most its niche argument: the keys afterwards, in memory and in
    the document it saves, are the previous keys together with that niche.
    [save_competitor_data] leaves the mapping as it is. *)
Theorem niche_keys_grow_by_the_argument :
  (load_competitor_data NoFile
   = (Returned initial_db, FileText (json_dump initial_db))
   ∧ dom initial_db = configured_niches)
  ∧ (∀ (now : string) (r : loc) (niche : string) (st : State),
       let st' := (manual_add_video now r niche st).2 in
       dom (competitor_data st') = dom (competitor_data st) ∪ {[ niche ]}
       ∧ database_file st'
         = FileText (json_dump (snapshot (heap st') (competitor_data st')))
       ∧ dom (snapshot (heap st') (competitor_data st'))
         = dom (competitor_data st) ∪ {[ niche ]})
  ∧ (∀ st : State, competitor_data (save_competitor_data st) = competitor_data st).
Proof.
  split; [split; [reflexivity|]|split].
  - unfold initial_db, configured_niches. rewrite !dom_insert_L, dom_empty_L.
    apply set_eq. intros k.
    rewrite !elem_of_union, !elem_of_singleton, elem_of_empty. tauto.
  - intros now r niche st st'. subst st'.
    assert (Hdom : dom (competitor_data (manual_add_video now r niche st).2)
                   = dom (competitor_data st) ∪ {[ niche ]}).
    { rewrite manual_add_video_data, dom_insert_L. apply union_comm_L. }
    split; [exact Hdom|]. split; [apply manual_add_video_file|].
    rewrite dom_snapshot. exact Hdom.
  - reflexivity.
Qed.


Lemma deref_alter_ne (f : VideoRecord → VideoRecord) (h : gmap loc VideoRecord)
    (r l : loc) :
  l ≠ r → deref (alter f r h) l = deref h l.
Proof. intros Hne. unfold deref. rewrite lookup_alter_ne by congruence. reflexivity. Qed.

Lemma map_deref_alter (f : VideoRecord → VideoRecord) (h : gmap loc VideoRecord)
    (r : loc) (ls : list loc) :
  r ∉ ls → map (deref (alter f r h)) ls = map (deref h) ls.
Proof.
  intros Hnot. apply map_ext_in. intros l Hl. apply deref_alter_ne.
  intros ->. apply Hnot. apply list_elem_of_In. exact Hl.
Qed.

(** C10 (as amended).  Let [r] refer to a video dictionary with content
    [v] that is not yet held by any list of the mapping, and let [n] be an
    existing niche key.  After [manual_add_video(r, n)] the saved list of
    every other key [m] is unchanged, the list under [n] is the previous
    list followed by exactly one element, [v] with [date_added] set, and no
    dictionary other than [r] is modified. *)
Theorem manual_add_video_frame (now : string) (r : loc) (v : VideoRecord)
    (n m : string) (st : State) :
  heap st !! r = Some v →
  is_Some (competitor_data st !! n) →
  m ≠ n →
  not_stored r (competitor_data st) →
  let st' := (manual_add_video now r n st).2 in
  snapshot (heap st') (competitor_data st') !! m
  = snapshot (heap st) (competitor_data st) !! m
  ∧ snapshot (heap st') (competitor_data st') !! n
    = (λ old, old ++ [set_date_added now v])
        <$> snapshot (heap st) (competitor_data st) !! n
  ∧ (∀ l, l ≠ r → heap st' !! l = heap st !! l).
Proof.
  intros Hr [ls Hn] Hne Hfresh st'. subst st'.
  rewrite manual_add_video_data, manual_add_video_heap.
  unfold snapshot. rewrite !lookup_fmap. split; [|split].
  - rewrite lookup_insert_ne by congruence.
    destruct (competitor_data st !! m) as [lm|] eqn:Em; [|reflexivity].
    cbn. f_equal. apply map_deref_alter. eapply Hfresh. exact Em.
  - rewrite lookup_insert_eq, Hn. cbn. f_equal.
    rewrite map_app. f_equal.
    + apply map_deref_alter. eapply Hfresh. exact Hn.
    + cbn. unfold deref. rewrite lookup_alter_eq, Hr. reflexivity.
  - intros l Hl. rewrite lookup_alter_ne by congruence. reflexivity.
Qed.

End Store.

Section StoreExamples.

(** The examples below run with the member-list JSON library. *)
#[local] Existing Instance member_list_json.

(** C4 (as stated) fails: adding a video under a niche that is not a key
    creates the key. *)
Lemma manual_add_video_creates_niche_key :
  ¬ (∀ (J : Json) (now : string) (r : loc) (niche : string) (st : State),
       dom (competitor_data st) = configured_niches →
       dom (competitor_data (manual_add_video now r niche st).2) = configured_niches).
Proof.
  intros Hkeep.
  specialize (Hkeep member_list_json "2024-05-01 10:00:00" 1%positive "cooking"
                fresh_state).
  assert (Hin : "cooking" ∈ configured_niches).
  { rewrite <- Hkeep.
    - rewrite manual_add_video_data, dom_insert_L.
      apply elem_of_union_l, elem_of_singleton. reflexivity.
    - unfold fresh_state, configured_niches. cbn.
      rewrite !dom_insert_L, dom_empty_L. apply set_eq. intros k.
      rewrite !elem_of_union, !elem_of_singleton, elem_of_empty. tauto. }
  unfold configured_niches in Hin.
  rewrite !elem_of_union, !elem_of_singleton in Hin.
  destruct Hin as [[Hin|Hin]|Hin]; discriminate Hin.
Qed.


Lemma manual_add_video_frame_witness :
  let st' := (@manual_add_video member_list_json "2024-05-01 10:00:00" 2%positive
                "health_fitness" one_video_state).2 in
  snapshot (heap st') (competitor_data st') !! "productivity"
  = snapshot (heap one_video_state) (competitor_data one_video_state)
      !! "productivity"
  ∧ snapshot (heap st') (competitor_data st') !! "health_fitness"
    = (λ old, old ++ [set_date_added "2024-05-01 10:00:00"
                        (titled "Zone 2 Training Explained")])
        <$> snapshot (heap one_video_state) (competitor_data one_video_state)
              !! "health_fitness"
  ∧ (∀ l, l ≠ 2%positive → heap st' !! l = heap one_video_state !! l).
Proof.
  apply (@manual_add_video_frame member_list_json "2024-05-01 10:00:00" 2%positive
           (titled "Zone 2 Training Explained") "health_fitness" "productivity"
           one_video_state).
  - reflexivity.
  - eexists. reflexivity.
  - discriminate.
  - intros k ls Hk Hin. unfold one_video_state in Hk. cbn in Hk.
    destruct (decide (k = "ai_tech")) as [->|Ha].
    { rewrite lookup_insert_eq in Hk. injection Hk as <-.
      apply elem_of_nil in Hin. exact Hin. }
    rewrite lookup_insert_ne in Hk by congruence.
    destruct (decide (k = "health_fitness")) as [->|Hh].
    { rewrite lookup_insert_eq in Hk. injection Hk as <-.
      apply elem_of_nil in Hin. exact Hin. }
    rewrite lookup_insert_ne in Hk by congruence.
    destruct (decide (k = "productivity")) as [->|Hp].
    { rewrite lookup_insert_eq in Hk. injection Hk as <-.
      apply list_elem_of_singleton in Hin. discriminate Hin. }
    rewrite lookup_insert_ne in Hk by congruence.
    rewrite lookup_empty in Hk. discriminate Hk.
Defined.

(** C10 (as stated) fails when [r] is a dictionary that the mapping already
    holds: the stamp is written into the shared dictionary, so the list under
    another key changes.  Here the record stored under "productivity" is
    added again under "health_fitness". *)
Lemma manual_add_video_restamps_stored_record :
  ¬ (∀ (J : Json) (now : string) (r : loc) (v : VideoRecord) (n m : string)
       (st : State),
       heap st !! r = Some v →
       is_Some (competitor_data st !! n) →
       m ≠ n →
       let st' := (manual_add_video now r n st).2 in
       snapshot (heap st') (competitor_data st') !! m
       = snapshot (heap st) (competitor_data st) !! m
       ∧ snapshot (heap st') (competitor_data st') !! n
         = (λ old, old ++ [set_date_added now v])
             <$> snapshot (heap st) (competitor_data st) !! n).
Proof.
  intros Hframe.
  destruct (Hframe member_list_json "2024-05-01 10:00:00" 1%positive
              (set_date_added "2024-04-30 09:00:00" (titled "Deep Work in 10 Minutes"))
              "health_fitness" "productivity" one_video_state)
    as [Hm _].
  - reflexivity.
  - eexists. reflexivity.
  - discriminate.
  - vm_compute in Hm. discriminate Hm.
Qed.

End StoreExamples.

(** ** Properties of the pattern extractor *)

Lemma map_outcome_length {A B : Type} (f : A → outcome B) (l : list A) (ys : list B) :
  map_outcome f l = Returned ys → length ys = length l.
Proof.
  revert ys. induction l as [|x l IH]; intros ys; simpl.
  - intros [= <-]. reflexivity.
  - destruct (f x) as [y|e]; [|discriminate]. cbn [obind].
    destruct (map_outcome f l) as [ys'|e]; [|discriminate]. cbn [obind].
    intros [= <-]. simpl. f_equal. apply IH. reflexivity.
Qed.

Lemma qnat_max_1_nonzero (n : nat) : Qeq_bool (qnat (Nat.max n 1)) 0 = false.
Proof.
  destruct n as [|n]; [reflexivity|].
  replace (Nat.max (S n) 1) with (S n) by lia. apply qnat_S_nonzero.
Qed.

Lemma avg_ctr_guarded_returns (vs : list VideoRecord) :
  ∃ q, avg_ctr_guarded vs = Returned q.
Proof.
  unfold avg_ctr_guarded. rewrite py_div_returns by apply qnat_max_1_nonzero. eauto.
Qed.

Lemma word_count_rounds_return (videos : list VideoRecord) (wcs : list nat)
    (acc : list (nat * Q)) :
  ∃ r, for_each (word_count_round videos) wcs acc = Returned r.
Proof.
  revert acc. induction wcs as [|wc wcs IH]; intros acc; simpl; [eauto|].
  unfold word_count_round at 1.
  destruct (List.filter _ videos) as [|v0 matches] eqn:E; cbn [obind]; [apply IH|].
  rewrite py_div_returns by (apply qlen_nonzero; discriminate).
  cbn [obind]. apply IH.
Qed.

Lemma performance_returns (videos : list VideoRecord) :
  ∃ pc, performance videos = Returned pc.
Proof.
  unfold performance. destruct (List.filter has_ctr videos) as [|v0 vs]; [eauto|].
  destruct (avg_ctr_guarded_returns (List.filter is_how_to (v0 :: vs))) as (a & ->).
  cbn [obind].
  destruct (avg_ctr_guarded_returns
              (List.filter (λ v, negb (is_how_to v)) (v0 :: vs))) as (b & ->).
  cbn [obind].
  destruct (word_count_rounds_return (v0 :: vs) (seq 3 12) []) as (w & ->).
  cbn [obind]. eauto.
Qed.

Lemma recommendations_return (patterns : list (string * Q))
    (pc : option PerformanceCorrelation) :
  patterns ≠ [] →
  ∃ recs, _generate_title_pattern_recommendations patterns pc = Returned recs.
Proof.
  destruct patterns as [|p patterns]; [congruence|]. intros _.
  unfold _generate_title_pattern_recommendations, py_min, py_max.
  cbn [obind]. eauto.
Qed.

Section Extractor.

Context {J : Json}.

(** The pattern extractor returns an analysis whenever the niche has
    records and every record has a title. *)
Lemma analyze_title_patterns_returns (st : State) (niche : string)
    (refs : list loc) (titles : list string) :
  competitor_data st !! niche = Some refs →
  refs ≠ [] →
  map (λ l, v_title (deref (heap st) l)) refs = map Some titles →
  ∃ avg words pc recs,
    analyze_title_patterns st niche
    = Returned (Analysed
        {| total_videos_analyzed := length titles;
           average_word_count := avg;
           pattern_usage :=
             map (λ kv, (kv.1, (qnat kv.2 / qnat (length titles) * 100)%Q))
                 (count_patterns titles);
           common_words := words;
           performance_correlation := pc;
           pattern_recommendations := recs |}).
Proof.
  intros Hlook Hne Htitles.
  assert (Hmap : map_outcome title_of (map (deref (heap st)) refs) = Returned titles).
  { clear Hlook Hne. revert titles Htitles.
    induction refs as [|r refs IH]; intros [|t titles] Ht; try discriminate Ht.
    - reflexivity.
    - simpl in Ht. injection Ht as Hr Hrest. simpl.
      unfold title_of at 1. rewrite Hr. cbn [obind].
      rewrite (IH titles Hrest). reflexivity. }
  assert (Hlen : length titles = length refs).
  { apply map_outcome_length in Hmap. rewrite length_map in Hmap. exact Hmap. }
  unfold analyze_title_patterns. rewrite Hlook.
  destruct refs as [|r refs]; [congruence|].
  rewrite Hmap. cbn [obind].
  rewrite py_div_returns by apply qnat_max_1_nonzero. cbn [obind].
  rewrite (map_outcome_returns (pattern_percentage (length titles))
             (λ kv, (kv.1, (qnat kv.2 / qnat (length titles) * 100)%Q))).
  2: { intros kv. unfold pattern_percentage. rewrite Hlen. simpl length.
       rewrite py_div_S. reflexivity. }
  cbn [obind].
  destruct (performance_returns (map (deref (heap st)) (r :: refs))) as (pc & ->).
  cbn [obind].
  destruct (recommendations_return
              (map (λ kv, (kv.1, (qnat kv.2 / qnat (length titles) * 100)%Q))
                 (foldl count_title initial_patterns titles)) pc) as (recs & ->).
  { intros E. apply (f_equal length) in E. rewrite length_map in E.
    assert (K : ∀ ts p, length (foldl count_title p ts) = length p).
    { clear. induction ts as [|t ts IH]; intros p; simpl; [reflexivity|].
      rewrite IH. unfold count_title.
      repeat match goal with
             | |- context [if ?c then _ else _] => destruct c
             end; unfold bump; rewrite ?length_map; reflexivity. }
    rewrite K in E. discriminate E. }
  cbn [obind]. eauto.
Qed.

(** C6.  For a niche that holds exactly three records, titled "How to
    Focus Better", "5 Tips for Sleep" and "Why Diets Fail?", the counters of
    the pattern extractor end at how_to = 1, listicle = 1, question = 1, and
    the extractor returns an analysis of 3 videos whose [pattern_usage] is
    100/3 percent for each of these three structures. *)
Theorem three_titles_pattern_usage (st : State) (niche : string) (refs : list loc) :
  competitor_data st !! niche = Some refs →
  map (λ l, v_title (deref (heap st) l)) refs = map Some example_titles →
  assoc "how_to" (count_patterns example_titles) = Some 1%nat
  ∧ assoc "listicle" (count_patterns example_titles) = Some 1%nat
  ∧ assoc "question" (count_patterns example_titles) = Some 1%nat
  ∧ ∃ a, analyze_title_patterns st niche = Returned (Analysed a)
      ∧ total_videos_analyzed a = 3%nat
      ∧ assoc "how_to" (pattern_usage a) = Some (100 # 3)
      ∧ assoc "listicle" (pattern_usage a) = Some (100 # 3)
      ∧ assoc "question" (pattern_usage a) = Some (100 # 3)
      ∧ (100 # 3 == 100 / 3)%Q.
Proof.
  intros Hlook Htitles.
  repeat (split; [reflexivity|]).
  destruct (analyze_title_patterns_returns st niche refs example_titles Hlook)
    as (avg & words & pc & recs & Hrun).
  - intros ->. discriminate Htitles.
  - exact Htitles.
  - eexists; split; [exact Hrun|]. cbn [total_videos_analyzed pattern_usage].
    repeat (split; [reflexivity|]). reflexivity.
Qed.

End Extractor.

Section ExtractorExamples.

#[local] Existing Instance member_list_json.

Lemma three_titles_pattern_usage_witness :
  assoc "how_to" (count_patterns example_titles) = Some 1%nat
  ∧ assoc "listicle" (count_patterns example_titles) = Some 1%nat
  ∧ assoc "question" (count_patterns example_titles) = Some 1%nat
  ∧ ∃ a, @analyze_title_patterns member_list_json example_state "productivity"
         = Returned (Analysed a)
      ∧ total_videos_analyzed a = 3%nat
      ∧ assoc "how_to" (pattern_usage a) = Some (100 # 3)
      ∧ assoc "listicle" (pattern_usage a) = Some (100 # 3)
      ∧ assoc "question" (pattern_usage a) = Some (100 # 3)
      ∧ (100 # 3 == 100 / 3)%Q.
Proof.
  apply (@three_titles_pattern_usage member_list_json example_state "productivity"
           [1%positive; 2%positive; 3%positive]); reflexivity.
Defined.

End ExtractorExamples.

Section EmptyNiche.

Context {J : Json}.

(** C5.  When the niche has no record (its key is absent or its list is
    empty) the pattern extractor returns the dictionary with status "error"
    and a message, and the aggregation entry point returns a dictionary with
    [success] false and an error text; neither raises, and no analysis file
    is written.  The entry point reads the database file: its premise is on
    the document read from there, and a missing or unreadable file gives a
    failure dictionary as well. *)
Theorem empty_niche_gives_error_result (st : State) (now : string)
    (file : DatabaseFile) (analysis_files : gmap string ContentDNA)
    (niche : string) :
  no_records (snapshot (heap st) (competitor_data st)) niche →
  (∀ db, open_and_load file = Returned db → no_records db niche) →
  analyze_title_patterns st niche
  = Returned (NoData {| status := "error";
                        message := "No data available for niche " +:+ niche |})
  ∧ ∃ error message,
      DataIntegrationModule.run_enhanced_analysis now file analysis_files niche
      = (Returned (DataIntegrationModule.Failure error message), analysis_files).
Proof.
  intros Hmem Hfile. split.
  - unfold analyze_title_patterns.
    unfold no_records, snapshot in Hmem. rewrite lookup_fmap in Hmem.
    destruct (competitor_data st !! niche) as [[|r refs]|]; try reflexivity.
    destruct Hmem as [Hmem|Hmem]; discriminate Hmem.
  - unfold DataIntegrationModule.run_enhanced_analysis,
      DataIntegrationModule.run_enhanced_analysis_body.
    destruct (open_and_load file) as [db|e]; cbn; [|eauto].
    destruct (Hfile db eq_refl) as [->| ->]; cbn; eauto.
Qed.

End EmptyNiche.

Lemma empty_niche_gives_error_result_witness :
  @analyze_title_patterns member_list_json example_state "ai_tech"
  = Returned (NoData {| status := "error";
                        message := "No data available for niche " +:+ "ai_tech" |})
  ∧ ∃ error message,
      @DataIntegrationModule.run_enhanced_analysis member_list_json
        "2024-05-01 10:00:00" (FileText (json_dump initial_db)) ∅ "ai_tech"
      = (Returned (DataIntegrationModule.Failure error message), ∅).
Proof.
  apply (@empty_niche_gives_error_result member_list_json example_state
           "2024-05-01 10:00:00" (FileText (json_dump initial_db)) ∅ "ai_tech").
  - right. reflexivity.
  - intros db Hdb. right.
    apply (f_equal (λ o, match o with
                         | Returned x => x !! "ai_tech"
                         | Raised _ => None
                         end)) in Hdb.
    rewrite <- Hdb. vm_compute. reflexivity.
Defined.

(** ** Properties of the engagement ratios *)

Lemma qgt_zero_false (x : Q) : (x == 0)%Q → qgt x 0 = false.
Proof.
  intros Hx. unfold qgt.
  assert (Qle_bool x 0 = true) as ->; [|reflexivity].
  apply Qle_bool_iff. rewrite Hx. apply Qle_refl.
Qed.

Lemma qgt_zero_nonzero (x : Q) : qgt x 0 = true → Qeq_bool x 0 = false.
Proof.
  unfold qgt. intros Hgt.
  destruct (Qeq_bool x 0) eqn:E; [|reflexivity].
  apply Qeq_bool_eq in E.
  assert (Qle_bool x 0 = true) as Hle.
  { apply Qle_bool_iff. rewrite E. apply Qle_refl. }
  rewrite Hle in Hgt. discriminate Hgt.
Qed.

(** The two ratio computations never raise, whatever the view count. *)
Lemma engagement_metrics_of_returns (e : Engagement) :
  ∃ m, APIIntegrationModule.engagement_metrics_of e = Returned m.
Proof.
  unfold APIIntegrationModule.engagement_metrics_of.
  destruct (engagement_nonempty e); [|eauto].
  destruct (qgt (default 0%Q (view_count e)) 0) eqn:Hgt; [|eauto].
  rewrite !py_div_returns by (apply qgt_zero_nonzero; exact Hgt).
  cbn [obind]. eauto.
Qed.

Lemma identify_engagement_patterns_returns (e : Engagement) :
  ∃ l, YouTubeDataExtractor.identify_engagement_patterns e = Returned l.
Proof.
  unfold YouTubeDataExtractor.identify_engagement_patterns.
  destruct (qgt (default 0%Q (view_count e)) 0) eqn:Hgt; [|eauto].
  rewrite !py_div_returns by (apply qgt_zero_nonzero; exact Hgt).
  cbn [obind]. eauto.
Qed.

(** C9.  For an analysis whose engagement view count is 0 (or absent, which
    reads as 0), [_transform_to_competitor_format] returns a record, with
    [views] as read and without [engagement_metrics], and
    [_identify_patterns] returns patterns whose engagement list is empty:
    neither divides by the view count. *)
Theorem zero_views_never_divide (analysis : Analysis) (niche : string) :
  (default 0 (view_count (engagement_of analysis)) == 0)%Q →
  (∃ v, APIIntegrationModule._transform_to_competitor_format analysis niche
        = Returned v
        ∧ v_views v = Some (default 0%Q (view_count (engagement_of analysis)))
        ∧ v_engagement_metrics v = None)
  ∧ (∃ p, YouTubeDataExtractor._identify_patterns analysis = Returned p
          ∧ engagement_patterns p = Some []).
Proof.
  unfold engagement_of. intros Hzero. split.
  - unfold APIIntegrationModule._transform_to_competitor_format,
      APIIntegrationModule.engagement_metrics_of.
    rewrite (qgt_zero_false _ Hzero).
    destruct (engagement_nonempty _); cbn [obind]; eexists; repeat split.
  - unfold YouTubeDataExtractor._identify_patterns,
      YouTubeDataExtractor.identify_engagement_patterns.
    rewrite (qgt_zero_false _ Hzero). cbn [obind]. eexists; split; reflexivity.
Qed.

Lemma zero_views_never_divide_witness :
  (∃ v, APIIntegrationModule._transform_to_competitor_format unviewed_analysis
          "productivity" = Returned v
        ∧ v_views v = Some (default 0%Q (view_count (engagement_of unviewed_analysis)))
        ∧ v_engagement_metrics v = None)
  ∧ (∃ p, YouTubeDataExtractor._identify_patterns unviewed_analysis = Returned p
          ∧ engagement_patterns p = Some []).
Proof. apply zero_views_never_divide. reflexivity. Defined.

(** * Further properties of the code *)

(** ** Title structures of the aggregator *)

Lemma title_dna_value (videos : list VideoRecord) :
  videos ≠ [] →
  ∃ avg,
    title_dna videos
    = Returned
        {| td_keywords := title_keywords videos;
           td_structures :=
             map (λ kv, (kv.1, {| st_count := kv.2;
                                  st_percentage := (qnat kv.2 / qlen videos * 100)%Q |}))
                 (title_structures videos);
           td_avg_length := avg |}.
Proof.
  intros Hne. unfold title_dna.
  rewrite (map_outcome_returns (structure_stat videos)
             (λ kv, (kv.1, {| st_count := kv.2;
                              st_percentage := (qnat kv.2 / qlen videos * 100)%Q |}))).
  - cbn [obind]. rewrite py_div_returns by (apply qlen_nonzero; assumption).
    cbn [obind]. eauto.
  - intros kv. unfold structure_stat.
    rewrite py_div_returns by (apply qlen_nonzero; assumption). reflexivity.
Qed.

(** One title raises each counter by at most one: the five tests bump
    five different keys. *)
Lemma classify_title_cons (title : string) (kv : string * nat)
    (ts : list (string * nat)) :
  classify_title title (kv :: ts)
  = classify_title title [kv] ++ classify_title title ts.
Proof.
  unfold classify_title.
  destruct (contains title "?"), (any_char isdigit title),
    (startswith title "how to" || startswith title "how i"),
    (any_in list_markers title), (any_in emotional_markers title); reflexivity.
Qed.

Lemma classify_title_single (title k : string) (n : nat) :
  ∃ m, classify_title title [(k, n)] = [(k, m)] ∧ (n ≤ m ≤ S n)%nat.
Proof.
  assert (Hb : ∀ key m, bump key [(k, m)]
                        = [(k, if decide (k = key) then S m else m)]).
  { intros key m. unfold bump. cbn [map fst snd]. case_decide; reflexivity. }
  unfold classify_title.
  destruct (decide (k = "question")) as [->|H1];
    [|destruct (decide (k = "number")) as [->|H2];
      [|destruct (decide (k = "how_to")) as [->|H3];
        [|destruct (decide (k = "list")) as [->|H4];
          [|destruct (decide (k = "emotional")) as [->|H5]]]]];
    destruct (contains title "?"), (any_char isdigit title),
      (startswith title "how to" || startswith title "how i"),
      (any_in list_markers title), (any_in emotional_markers title);
    rewrite ?Hb;
    repeat first [rewrite decide_True by reflexivity
                 |rewrite decide_False by (assumption || discriminate)];
    (eexists; split; [reflexivity|lia]).
Qed.

Lemma classify_title_step (title : string) (ts : list (string * nat)) :
  Forall2 (λ a b, b.1 = a.1 ∧ (a.2 ≤ b.2 ≤ S a.2)%nat) ts (classify_title title ts).
Proof.
  induction ts as [|[k n] ts IH].
  - unfold classify_title.
    destruct (contains title "?"), (any_char isdigit title),
      (startswith title "how to" || startswith title "how i"),
      (any_in list_markers title), (any_in emotional_markers title); constructor.
  - rewrite classify_title_cons.
    destruct (classify_title_single title k n) as (m & -> & Hm).
    constructor; [split; [reflexivity|exact Hm]|exact IH].
Qed.

Lemma title_pass_counts (videos : list VideoRecord)
    (acc : list string * list (string * nat)) (bound : nat) :
  Forall (λ kv, (kv.2 ≤ bound)%nat) acc.2 →
  Forall (λ kv, (kv.2 ≤ bound + length videos)%nat) (foldl title_body acc videos).2.
Proof.
  revert acc bound. induction videos as [|v videos IH]; intros acc bound Hacc.
  - simpl. rewrite Nat.add_0_r. exact Hacc.
  - simpl. replace (bound + S (length videos))%nat with (S bound + length videos)%nat
      by lia.
    apply IH. cbn [title_body snd].
    pose proof (classify_title_step (lower (get_title v)) acc.2) as Hstep.
    revert Hacc Hstep. generalize (classify_title (lower (get_title v)) acc.2).
    generalize acc.2. clear. intros l l' Hl Hstep.
    induction Hstep as [|a b l l' [_ Hab] _ IH]; [constructor|].
    inversion Hl; subst. constructor; [lia|auto].
Qed.

(** No counter exceeds the number of videos. *)
Lemma title_structures_le (videos : list VideoRecord) :
  Forall (λ kv, (kv.2 ≤ length videos)%nat) (title_structures videos).
Proof.
  unfold title_structures, title_pass.
  apply (title_pass_counts videos ([], initial_title_structures) 0).
  unfold initial_title_structures. cbn. repeat constructor.
Qed.

Lemma qnat_le (a b : nat) : (a ≤ b)%nat → (qnat a <= qnat b)%Q.
Proof. intros H. unfold qnat. rewrite <- Zle_Qle. lia. Qed.

Lemma qnat_nonneg (a : nat) : (0 <= qnat a)%Q.
Proof. apply (qnat_le 0 a). lia. Qed.

Lemma qnat_S_pos (n : nat) : (0 < qnat (S n))%Q.
Proof. unfold qnat, Qlt. simpl. lia. Qed.

(** A share of at most the whole, as a percentage, lies between 0 and 100. *)
Lemma percentage_bounds (count total : nat) :
  (count ≤ total)%nat → (0 < total)%nat →
  (0 <= qnat count / qnat total * 100 <= 100)%Q.
Proof.
  intros Hle Hpos. destruct total as [|t]; [lia|].
  pose proof (qnat_S_pos t) as Ht. pose proof (qnat_le _ _ Hle) as Hc.
  pose proof (qnat_nonneg count) as H0.
  assert (Hdiv : (0 <= qnat count / qnat (S t) <= 1)%Q).
  { split.
    - apply Qle_shift_div_l; [exact Ht|]. lra.
    - apply Qle_shift_div_r; [exact Ht|]. lra. }
  lra.
Qed.

(** X1.  On every non-empty list of records the aggregator returns a
    document whose title structures are the five counters in their fixed
    order; each count is at most the number of videos and each percentage is
    100 * count / video_count, between 0 and 100.  The percentages are
    independent and need not add up to 100. *)
Theorem title_structure_percentages (now : string) (videos : list VideoRecord)
    (niche : string) :
  videos ≠ [] →
  ∃ d, _analyze_content_dna now videos niche = Returned d
    ∧ dna_video_count d = length videos
    ∧ map fst (td_structures (dna_title_dna d))
      = ["question"; "number"; "how_to"; "list"; "emotional"]
    ∧ ∀ k st, (k, st) ∈ td_structures (dna_title_dna d) →
        (st_count st ≤ dna_video_count d)%nat
        ∧ (st_percentage st == 100 * qnat (st_count st) / qnat (dna_video_count d))%Q
        ∧ (0 <= st_percentage st <= 100)%Q.
Proof.
  intros Hne.
  destruct (analyze_content_dna_returns now videos niche Hne)
    as (td & st & eng & top & cd & Htd & _ & _ & _ & _ & Hrun).
  destruct (title_dna_value videos Hne) as (avg & Htd').
  rewrite Htd' in Htd. injection Htd as <-.
  eexists; split; [exact Hrun|].
  cbn [dna_video_count dna_title_dna td_structures].
  split; [reflexivity|]. split.
  - rewrite map_map. cbn [fst]. apply title_structures_keys.
  - intros k s Hin. apply list_elem_of_fmap in Hin as ([k' n] & [= -> ->] & Hin).
    cbn [st_count st_percentage fst snd].
    pose proof (title_structures_le videos) as Hle.
    rewrite Forall_forall in Hle. specialize (Hle _ Hin). cbn [snd] in Hle.
    assert (Hpos : (0 < length videos)%nat).
    { destruct videos; [congruence|simpl; lia]. }
    split; [exact Hle|]. split.
    + unfold qlen. change (inject_Z (Z.of_nat (length videos))) with (qnat (length videos)).
      destruct videos as [|v0 vs]; [congruence|].
      pose proof (qnat_S_neq (length vs)) as Hnz. simpl length. field. exact Hnz.
    + apply (percentage_bounds n (length videos) Hle Hpos).
Qed.

Lemma title_structure_percentages_witness :
  ∃ d, _analyze_content_dna "2024-05-01 10:00:00" example_videos "productivity"
       = Returned d
    ∧ dna_video_count d = length example_videos
    ∧ map fst (td_structures (dna_title_dna d))
      = ["question"; "number"; "how_to"; "list"; "emotional"]
    ∧ ∀ k st, (k, st) ∈ td_structures (dna_title_dna d) →
        (st_count st ≤ dna_video_count d)%nat
        ∧ (st_percentage st == 100 * qnat (st_count st) / qnat (dna_video_count d))%Q
        ∧ (0 <= st_percentage st <= 100)%Q.
Proof. apply title_structure_percentages. discriminate. Defined.

(** ** The two percentages of the script loop *)

Lemma for_each_invariant {A S : Type} (P : S → Prop) (body : S → A → outcome S) :
  (∀ s x, P s → ∃ s', body s x = Returned s' ∧ P s') →
  ∀ l s, P s → ∃ s', for_each body l s = Returned s' ∧ P s'.
Proof.
  intros Hbody l. induction l as [|x l IH]; intros s Hs.
  - exists s. split; [reflexivity|exact Hs].
  - destruct (Hbody s x Hs) as (s1 & E1 & H1).
    destruct (IH s1 H1) as (s' & E' & H').
    exists s'. split; [|exact H']. simpl. rewrite E1. exact E'.
Qed.

Lemma running_pct_value (pct : Q) (count : nat) :
  running_pct pct (S count)
  = Returned ((pct / 100 * (qnat (S count) - 1) + 1) / qnat (S count) * 100)%Q.
Proof.
  unfold running_pct. rewrite py_div_100. cbn [obind].
  rewrite py_div_S. reflexivity.
Qed.

(** The update moves the percentage towards 100 and never past it. *)
Lemma running_pct_bounds (lo pct : Q) (count : nat) :
  (lo <= pct <= 100)%Q → (lo <= 100)%Q →
  (lo <= (pct / 100 * (qnat (S count) - 1) + 1) / qnat (S count) * 100 <= 100)%Q.
Proof.
  intros [Hlo Hhi] Hlo100.
  pose proof (qnat_S_pos count) as Hk. pose proof (qnat_nonneg count) as Hc.
  pose proof (qnat_S count) as HS.
  assert (Hne : ¬ (qnat (S count) == 0)%Q) by apply qnat_S_neq.
  assert (E : ((pct / 100 * (qnat (S count) - 1) + 1) / qnat (S count) * 100
               == (pct * qnat count + 100) / qnat (S count))%Q).
  { rewrite HS. field. rewrite <- HS. exact Hne. }
  rewrite E. split.
  - apply Qle_shift_div_l; [exact Hk|]. rewrite HS. nra.
  - apply Qle_shift_div_r; [exact Hk|]. rewrite HS. nra.
Qed.

Lemma script_body_percentages (s : ScriptLoop) (v : VideoRecord) :
  (60 <= transitions_pct (script_stats s) <= 100)%Q
  ∧ (80 <= cta_pct (script_stats s) <= 100)%Q →
  ∃ s', script_body s v = Returned s'
    ∧ (60 <= transitions_pct (script_stats s') <= 100)%Q
    ∧ (80 <= cta_pct (script_stats s') <= 100)%Q.
Proof.
  intros [Ht Hc]. unfold script_body.
  destruct (v_script_structure v) as [ss|]; [|eauto].
  unfold add_hook, add_sections, add_wpm, running_mean.
  destruct (hook_word_count ss) as [x1|]; rewrite ?py_div_S;
    cbn [obind script_stats avg_hook_words avg_sections avg_wpm transitions_pct
         cta_pct hooks_count sections_count wpm_count transitions_count cta_count];
  (destruct (section_count ss) as [x2|]; rewrite ?py_div_S;
    cbn [obind script_stats avg_hook_words avg_sections avg_wpm transitions_pct
         cta_pct hooks_count sections_count wpm_count transitions_count cta_count]);
  (destruct (words_per_minute ss) as [x3|]; rewrite ?py_div_S;
    cbn [obind script_stats avg_hook_words avg_sections avg_wpm transitions_pct
         cta_pct hooks_count sections_count wpm_count transitions_count cta_count]);
  unfold add_transitions;
  cbn [obind script_stats avg_hook_words avg_sections avg_wpm transitions_pct
         cta_pct hooks_count sections_count wpm_count transitions_count cta_count];
  (destruct (has_clear_transitions ss) as [[|]|]; rewrite ?running_pct_value;
    cbn [obind script_stats avg_hook_words avg_sections avg_wpm transitions_pct
         cta_pct hooks_count sections_count wpm_count transitions_count cta_count]);
  unfold add_cta;
  cbn [obind script_stats avg_hook_words avg_sections avg_wpm transitions_pct
         cta_pct hooks_count sections_count wpm_count transitions_count cta_count];
  (destruct (has_cta ss) as [[|]|]; rewrite ?running_pct_value;
    cbn [obind script_stats avg_hook_words avg_sections avg_wpm transitions_pct
         cta_pct hooks_count sections_count wpm_count transitions_count cta_count]);
  (eexists; split; [reflexivity|]);
  cbn [script_stats transitions_pct cta_pct];
  (split; [first [exact Ht | apply running_pct_bounds; [exact Ht|lra]]
          |first [exact Hc | apply running_pct_bounds; [exact Hc|lra]]]).
Qed.

Lemma script_pass_percentages (videos : list VideoRecord) :
  ∃ st, script_pass videos = Returned st
    ∧ (60 <= transitions_pct st <= 100)%Q
    ∧ (80 <= cta_pct st <= 100)%Q.
Proof.
  destruct (for_each_invariant
              (λ s, (60 <= transitions_pct (script_stats s) <= 100)%Q
                    ∧ (80 <= cta_pct (script_stats s) <= 100)%Q)
              script_body script_body_percentages videos initial_script_loop)
    as (s & Hs & Ht & Hc).
  { cbn. split; split; discriminate. }
  exists (script_stats s). unfold script_pass. rewrite Hs. cbn [obind]. auto.
Qed.

(** X2.  On every non-empty list of records the aggregator's
    [transitions_pct] lies between its baseline 60 and 100 and [cta_pct]
    between its baseline 80 and 100: an update moves the percentage towards
    100, and a record whose flag is false leaves it where it is. *)
Theorem script_percentages_stay_above_baseline (now : string)
    (videos : list VideoRecord) (niche : string) :
  videos ≠ [] →
  ∃ d, _analyze_content_dna now videos niche = Returned d
    ∧ (60 <= transitions_pct (sd_stats (dna_script_dna d)) <= 100)%Q
    ∧ (80 <= cta_pct (sd_stats (dna_script_dna d)) <= 100)%Q.
Proof.
  intros Hne.
  destruct (analyze_content_dna_returns now videos niche Hne)
    as (td & st & eng & top & cd & _ & Hst & _ & _ & _ & Hrun).
  destruct (script_pass_percentages videos) as (st' & Hst' & Hbounds).
  rewrite Hst in Hst'. injection Hst' as <-.
  eexists; split; [exact Hrun|]. exact Hbounds.
Qed.

Lemma script_percentages_stay_above_baseline_witness :
  ∃ d, _analyze_content_dna "2024-05-01 10:00:00" videos_half_transitions
         "productivity" = Returned d
    ∧ (60 <= transitions_pct (sd_stats (dna_script_dna d)) <= 100)%Q
    ∧ (80 <= cta_pct (sd_stats (dna_script_dna d)) <= 100)%Q.
Proof. apply script_percentages_stay_above_baseline. discriminate. Defined.

(** X3.  As both percentages stay above 50, the two threshold tests of the
    aggregator always pass: on every non-empty list [content_dna_patterns]
    ends with the four script entries [clear_transitions], [verbal_cta],
    [hook_length], [speaking_pace], preceded by at most one title entry, so
    the summary's [pattern_count] is 4 or 5 and [top_patterns] always has
    three names. *)
Theorem script_entries_always_present (now : string) (videos : list VideoRecord)
    (niche : string) :
  videos ≠ [] →
  ∃ d title_part,
    _analyze_content_dna now videos niche = Returned d
    ∧ (length title_part ≤ 1)%nat
    ∧ Forall (λ e, pe_element e = "title") title_part
    ∧ dna_content_dna_patterns d
      = title_part
        ++ [transitions_entry (sd_stats (dna_script_dna d));
            cta_entry (sd_stats (dna_script_dna d));
            hook_entry (sd_stats (dna_script_dna d));
            pace_entry (sd_stats (dna_script_dna d))]
    ∧ sm_pattern_count (dna_summary d) = (length title_part + 4)%nat
    ∧ length (sm_top_patterns (dna_summary d)) = 3%nat.
Proof.
  intros Hne.
  destruct (analyze_content_dna_returns now videos niche Hne)
    as (td & st & eng & top & cd & _ & Hst & _ & _ & Hcd & Hrun).
  destruct (script_pass_percentages videos) as (st' & Hst' & Ht & Hc).
  rewrite Hst in Hst'. injection Hst' as <-.
  rewrite (content_dna_returns videos top st Hne) in Hcd. injection Hcd as <-.
  assert (Et : qgt (transitions_pct st) 50 = true) by (apply qgt_spec; lra).
  assert (Ec : qgt (cta_pct st) 50 = true) by (apply qgt_spec; lra).
  rewrite Et, Ec in Hrun.
  match type of Hrun with
  | context [(?tp ++ [transitions_entry st] ++ _)] => eexists _, tp
  end.
  split; [exact Hrun|].
  cbn [dna_content_dna_patterns dna_script_dna sd_stats dna_summary summary
       sm_pattern_count sm_top_patterns].
  destruct (0 <? top.2)%nat; cbn [length app take map];
    (split; [lia|]); (split; [repeat constructor|]);
    (split; [reflexivity|]); split; reflexivity.
Qed.

Lemma script_entries_always_present_witness :
  ∃ d title_part,
    _analyze_content_dna "2024-05-01 10:00:00" videos_without_transitions
      "productivity" = Returned d
    ∧ (length title_part ≤ 1)%nat
    ∧ Forall (λ e, pe_element e = "title") title_part
    ∧ dna_content_dna_patterns d
      = title_part
        ++ [transitions_entry (sd_stats (dna_script_dna d));
            cta_entry (sd_stats (dna_script_dna d));
            hook_entry (sd_stats (dna_script_dna d));
            pace_entry (sd_stats (dna_script_dna d))]
    ∧ sm_pattern_count (dna_summary d) = (length title_part + 4)%nat
    ∧ length (sm_top_patterns (dna_summary d)) = 3%nat.
Proof. apply script_entries_always_present. discriminate. Defined.

(** ** Word counts and the top of a frequency table *)

Lemma assoc_count_word (d : list (string * nat)) (w w' : string) :
  assoc w' (count_word d w)
  = if decide (w = w') then Some (S (default 0%nat (assoc w' d))) else assoc w' d.
Proof.
  induction d as [|[k n] d IH]; cbn [count_word assoc fst snd].
  - destruct (decide (w = w')); reflexivity.
  - destruct (decide (k = w)) as [->|Hkw]; cbn [assoc fst snd].
    + destruct (decide (w = w')); reflexivity.
    + destruct (decide (k = w')) as [->|Hkw'].
      * destruct (decide (w = w')); [congruence|reflexivity].
      * exact IH.
Qed.

Lemma occurrences_cons (w x : string) (ws : list string) :
  occurrences w (x :: ws)
  = ((if decide (x = w) then 1 else 0) + occurrences w ws)%nat.
Proof.
  unfold occurrences. rewrite filter_cons.
  destruct (decide (x = w)); reflexivity.
Qed.

Lemma assoc_foldl_count_word (ws : list string) (d : list (string * nat)) (w : string) :
  assoc w (foldl count_word d ws)
  = match occurrences w ws with
    | O => assoc w d
    | S _ => Some (default 0%nat (assoc w d) + occurrences w ws)%nat
    end.
Proof.
  revert d. induction ws as [|x ws IH]; intros d; [reflexivity|].
  cbn [foldl]. rewrite IH, occurrences_cons, assoc_count_word.
  destruct (decide (x = w)) as [->|Hx]; cbn [default];
    destruct (occurrences w ws); cbn; try reflexivity; f_equal; lia.
Qed.

Lemma keys_count_word (d : list (string * nat)) (w : string) :
  map fst (count_word d w)
  = if decide (w ∈ map fst d) then map fst d else map fst d ++ [w].
Proof.
  induction d as [|[k n] d IH]; cbn [count_word map fst].
  - destruct (decide (w ∈ [])) as [H|_]; [|reflexivity].
    apply elem_of_nil in H. contradiction.
  - destruct (decide (k = w)) as [->|Hk]; cbn [map fst].
    + rewrite decide_True by apply list_elem_of_here. reflexivity.
    + rewrite IH. destruct (decide (w ∈ map fst d)) as [Hin|Hnin].
      * rewrite decide_True by (apply list_elem_of_further; exact Hin). reflexivity.
      * rewrite decide_False; [reflexivity|].
        intros Hin. apply elem_of_cons in Hin as [->|Hin]; [congruence|auto].
Qed.

Lemma NoDup_keys_foldl_count_word (ws : list string) (d : list (string * nat)) :
  NoDup (map fst d) → NoDup (map fst (foldl count_word d ws)).
Proof.
  revert d. induction ws as [|x ws IH]; intros d Hd; [exact Hd|].
  cbn [foldl]. apply IH. rewrite keys_count_word.
  destruct (decide (x ∈ map fst d)) as [Hin|Hnin]; [exact Hd|].
  apply NoDup_app. split; [exact Hd|]. split.
  - intros y Hy Hy'. apply list_elem_of_singleton in Hy' as ->. auto.
  - apply NoDup_singleton.
Qed.

Lemma assoc_elem_of (d : list (string * nat)) (w : string) (c : nat) :
  NoDup (map fst d) → (w, c) ∈ d ↔ assoc w d = Some c.
Proof.
  induction d as [|[k n] d IH]; intros Hd; cbn [assoc fst snd].
  - split; [intros H; apply elem_of_nil in H; contradiction|discriminate].
  - cbn [map fst] in Hd. apply NoDup_cons in Hd as [Hk Hd].
    destruct (decide (k = w)) as [->|Hkw].
    + split.
      * intros Hin. apply elem_of_cons in Hin as [[= ->]|Hin]; [reflexivity|].
        exfalso. apply Hk. apply list_elem_of_fmap. exists (w, c). auto.
      * intros [= ->]. apply list_elem_of_here.
    + rewrite <- (IH Hd). split.
      * intros Hin. apply elem_of_cons in Hin as [[= -> ->]|Hin]; [congruence|exact Hin].
      * apply list_elem_of_further.
Qed.

Lemma insert_desc_perm (x : string * nat) (l : list (string * nat)) :
  insert_desc count_ltb x l ≡ₚ x :: l.
Proof.
  induction l as [|y l IH]; cbn [insert_desc]; [reflexivity|].
  destruct (count_ltb x y); [|reflexivity].
  rewrite IH. apply Permutation_swap.
Qed.

Lemma sorted_desc_perm (l : list (string * nat)) :
  sorted_desc count_ltb l ≡ₚ l.
Proof.
  unfold sorted_desc. induction l as [|x l IH]; cbn [foldr]; [reflexivity|].
  rewrite insert_desc_perm, IH. reflexivity.
Qed.

Lemma insert_desc_sorted (x : string * nat) (l : list (string * nat)) :
  StronglySorted by_count_desc l →
  StronglySorted by_count_desc (insert_desc count_ltb x l).
Proof.
  induction 1 as [|y l Hl IH Hy]; cbn [insert_desc].
  - repeat constructor.
  - unfold count_ltb at 1. destruct (Nat.ltb_spec x.2 y.2) as [Hlt|Hge].
    + constructor; [exact IH|].
      rewrite Forall_forall. intros z Hz.
      rewrite insert_desc_perm in Hz. apply elem_of_cons in Hz as [->|Hz].
      * unfold by_count_desc. lia.
      * rewrite Forall_forall in Hy. auto.
    + constructor; [constructor; assumption|].
      constructor; [exact Hge|].
      rewrite Forall_forall in Hy |- *. intros z Hz. specialize (Hy z Hz).
      unfold by_count_desc in *. lia.
Qed.

Lemma sorted_desc_sorted (l : list (string * nat)) :
  StronglySorted by_count_desc (sorted_desc count_ltb l).
Proof.
  unfold sorted_desc. induction l as [|x l IH]; cbn [foldr]; [constructor|].
  apply insert_desc_sorted, IH.
Qed.

Lemma StronglySorted_take {A : Type} (R : relation A) (n : nat) (l : list A) :
  StronglySorted R l → StronglySorted R (take n l).
Proof.
  intros H. rewrite <- (take_drop n l) in H.
  apply StronglySorted_app_1_l in H. exact H.
Qed.

(** The first [n] rows of the frequency table of [ws], most frequent
    first: what the rows are and what is left out. *)
Lemma top_counts_spec (n : nat) (ws : list string) :
  let top := take n (sorted_desc count_ltb (foldl count_word [] ws)) in
  (length top ≤ n)%nat
  ∧ StronglySorted by_count_desc top
  ∧ NoDup (map fst top)
  ∧ (∀ w c, (w, c) ∈ top → w ∈ ws ∧ c = occurrences w ws)
  ∧ (∀ w, w ∈ ws → w ∉ map fst top →
       ∀ w' c', (w', c') ∈ top → (occurrences w ws ≤ c')%nat).
Proof.
  intros top. subst top.
  set (freq := foldl count_word [] ws).
  assert (Hnd : NoDup (map fst freq)).
  { apply NoDup_keys_foldl_count_word. constructor. }
  assert (Hfreq : ∀ w c, (w, c) ∈ freq ↔ (0 < occurrences w ws)%nat
                                         ∧ c = occurrences w ws).
  { intros w c. rewrite (assoc_elem_of freq w c Hnd). unfold freq.
    rewrite assoc_foldl_count_word. cbn [assoc default].
    destruct (occurrences w ws) as [|k]; split.
    - discriminate.
    - intros [H _]. lia.
    - intros [= <-]. split; lia.
    - intros [_ ->]. reflexivity. }
  assert (Hocc : ∀ w, w ∈ ws ↔ (0 < occurrences w ws)%nat).
  { intros w. unfold occurrences. split.
    - intros Hin.
      assert (w ∈ filter (λ x, x = w) ws) as Hf by (apply list_elem_of_filter; auto).
      destruct (filter (λ x, x = w) ws); [apply elem_of_nil in Hf; contradiction|].
      simpl. lia.
    - intros Hpos. destruct (filter (λ x, x = w) ws) as [|y l] eqn:E; [simpl in Hpos; lia|].
      assert (y ∈ filter (λ x, x = w) ws) as Hy by (rewrite E; apply list_elem_of_here).
      apply list_elem_of_filter in Hy as [-> Hy]. exact Hy. }
  pose proof (sorted_desc_sorted freq) as Hsorted.
  pose proof (sorted_desc_perm freq) as Hperm.
  split; [rewrite length_take; lia|]. split; [apply StronglySorted_take, Hsorted|].
  split.
  { change (NoDup (fst <$> take n (sorted_desc count_ltb freq))).
    rewrite fmap_take.
    apply (sublist_NoDup _ (fst <$> sorted_desc count_ltb freq));
      [|apply sublist_take].
    rewrite Hperm. exact Hnd. }
  split.
  - intros w c Hin. apply subseteq_take in Hin. rewrite Hperm in Hin.
    apply Hfreq in Hin as [Hpos ->]. split; [apply Hocc, Hpos|reflexivity].
  - intros w Hw Hout w' c' Hin'.
    assert (Hwf : (w, occurrences w ws) ∈ sorted_desc count_ltb freq).
    { rewrite Hperm. apply Hfreq. split; [apply Hocc, Hw|reflexivity]. }
    rewrite <- (take_drop n (sorted_desc count_ltb freq)) in Hwf, Hsorted.
    apply elem_of_app in Hwf as [Hwf|Hwf].
    + exfalso. apply Hout. apply list_elem_of_fmap. exists (w, occurrences w ws). auto.
    + apply (StronglySorted_app_1_elem_of _ _ _ _ _ Hsorted Hin' Hwf).
Qed.

(** ** Keywords of the aggregator *)





(** ** The pattern extractor in detail *)

Lemma count_title_step (title : string) (a b c p y : nat) :
  ∃ a' b' c' p' y',
    count_title (pattern_counters a b c 0 p y) title
    = pattern_counters a' b' c' 0 p' y'
    ∧ (a' + b' + c' ≤ S (a + b + c))%nat
    ∧ (a ≤ a' ∧ b ≤ b' ∧ c ≤ c')%nat
    ∧ (p ≤ p' ≤ S p)%nat ∧ (y ≤ y' ≤ S y)%nat.
Proof.
  assert (Hh : ∀ a b c p y, bump "how_to" (pattern_counters a b c 0 p y)
                            = pattern_counters (S a) b c 0 p y) by reflexivity.
  assert (Hl : ∀ a b c p y, bump "listicle" (pattern_counters a b c 0 p y)
                            = pattern_counters a (S b) c 0 p y) by reflexivity.
  assert (Hq : ∀ a b c p y, bump "question" (pattern_counters a b c 0 p y)
                            = pattern_counters a b (S c) 0 p y) by reflexivity.
  assert (Hp : ∀ a b c p y, bump "i_personal" (pattern_counters a b c 0 p y)
                            = pattern_counters a b c 0 (S p) y) by reflexivity.
  assert (Hy : ∀ a b c p y, bump "you_focused" (pattern_counters a b c 0 p y)
                            = pattern_counters a b c 0 p (S y)) by reflexivity.
  unfold count_title.
  repeat match goal with
         | |- context [if ?cond then _ else _] => destruct cond
         end;
    rewrite ?Hh, ?Hl, ?Hq, ?Hp, ?Hy;
    (eexists _, _, _, _, _; split; [reflexivity|lia]).
Qed.

Lemma count_patterns_shape_from (titles : list string) (a b c p y : nat) :
  ∃ a' b' c' p' y',
    foldl count_title (pattern_counters a b c 0 p y) titles
    = pattern_counters a' b' c' 0 p' y'
    ∧ (a' + b' + c' ≤ a + b + c + length titles)%nat
    ∧ (p' ≤ p + length titles)%nat ∧ (y' ≤ y + length titles)%nat.
Proof.
  revert a b c p y. induction titles as [|t titles IH]; intros a b c p y.
  - exists a, b, c, p, y. cbn. repeat split; lia.
  - cbn [foldl]. destruct (count_title_step t a b c p y)
      as (a1 & b1 & c1 & p1 & y1 & -> & H1 & H2 & H3 & H4).
    destruct (IH a1 b1 c1 p1 y1) as (a' & b' & c' & p' & y' & -> & H5 & H6 & H7).
    exists a', b', c', p', y'. cbn [length]. repeat split; lia.
Qed.

(** The three title structures exclude one another, and nothing ever
    counts as a statement. *)
Lemma count_patterns_shape (titles : list string) :
  ∃ a b c p y,
    count_patterns titles = pattern_counters a b c 0 p y
    ∧ (a + b + c ≤ length titles)%nat
    ∧ (p ≤ length titles)%nat ∧ (y ≤ length titles)%nat.
Proof.
  destruct (count_patterns_shape_from titles 0 0 0 0 0)
    as (a & b & c & p & y & E & H1 & H2 & H3).
  exists a, b, c, p, y. split; [exact E|]. repeat split; lia.
Qed.

Section ExtractorDetails.

Context {J : Json}.

(** What the pattern extractor returns when the niche has records and
    every record has a title. *)
Lemma analyze_title_patterns_value (st : State) (niche : string)
    (refs : list loc) (titles : list string) :
  competitor_data st !! niche = Some refs →
  refs ≠ [] →
  map (λ l, v_title (deref (heap st) l)) refs = map Some titles →
  ∃ avg pc recs,
    _generate_title_pattern_recommendations
      (map (λ kv, (kv.1, (qnat kv.2 / qnat (length titles) * 100)%Q))
         (count_patterns titles)) pc = Returned recs
    ∧ length titles = length refs
    ∧ analyze_title_patterns st niche
      = Returned (Analysed
          {| total_videos_analyzed := length titles;
             average_word_count := avg;
             pattern_usage :=
               map (λ kv, (kv.1, (qnat kv.2 / qnat (length titles) * 100)%Q))
                   (count_patterns titles);
             common_words :=
               take 20 (sorted_desc count_ltb
                          (foldl count_word [] (title_tokens titles)));
             performance_correlation := pc;
             pattern_recommendations := recs |}).
Proof.
  intros Hlook Hne Htitles.
  assert (Hmap : map_outcome title_of (map (deref (heap st)) refs) = Returned titles).
  { clear Hlook Hne. revert titles Htitles.
    induction refs as [|r refs IH]; intros [|t titles] Ht; try discriminate Ht.
    - reflexivity.
    - simpl in Ht. injection Ht as Hr Hrest. simpl.
      unfold title_of at 1. rewrite Hr. cbn [obind].
      rewrite (IH titles Hrest). reflexivity. }
  assert (Hlen : length titles = length refs).
  { apply map_outcome_length in Hmap. rewrite length_map in Hmap. exact Hmap. }
  unfold analyze_title_patterns. rewrite Hlook.
  destruct refs as [|r refs]; [congruence|].
  rewrite Hmap. cbn [obind].
  rewrite py_div_returns by apply qnat_max_1_nonzero. cbn [obind].
  rewrite (map_outcome_returns (pattern_percentage (length titles))
             (λ kv, (kv.1, (qnat kv.2 / qnat (length titles) * 100)%Q))).
  2: { intros kv. unfold pattern_percentage. rewrite Hlen. simpl length.
       rewrite py_div_S. reflexivity. }
  cbn [obind].
  destruct (performance_returns (map (deref (heap st)) (r :: refs))) as (pc & ->).
  cbn [obind].
  destruct (count_patterns_shape titles) as (a & b & c & p & y & Eshape & _).
  destruct (recommendations_return
              (map (λ kv, (kv.1, (qnat kv.2 / qnat (length titles) * 100)%Q))
                 (foldl count_title initial_patterns titles)) pc) as (recs & Hrecs).
  { change (foldl count_title initial_patterns titles) with (count_patterns titles).
    rewrite Eshape. discriminate. }
  rewrite Hrecs. cbn [obind].
  eexists _, pc, recs. split; [exact Hrecs|]. split; [exact Hlen|]. reflexivity.
Qed.



End ExtractorDetails.

Section ExtractorDetailsExamples.

#[local] Existing Instance member_list_json.


End ExtractorDetailsExamples.

Lemma qlt_spec (a b : Q) : qlt a b = true ↔ (a < b)%Q.
Proof.
  unfold qlt. rewrite negb_true_iff. split.
  - intros Hle. apply Qnot_le_lt. intros Hab.
    apply Qle_bool_iff in Hab. congruence.
  - intros Hlt. destruct (Qle_bool b a) eqn:E; [|reflexivity].
    apply Qle_bool_iff in E. exfalso. exact (Qlt_not_le _ _ Hlt E).
Qed.

Lemma min_from_first_min (l pre post : list (string * Q)) (best : string * Q) :
  (∀ y, y ∈ pre → (best.2 < y.2)%Q) →
  (∀ y, y ∈ post → (best.2 <= y.2)%Q) →
  first_min (max_from (λ a b, value_ltb b a) best l) (pre ++ best :: post ++ l).
Proof.
  revert pre post best. induction l as [|x l IH]; intros pre post best Hpre Hpost.
  - simpl. rewrite app_nil_r. exists pre, post. auto.
  - cbn [max_from]. unfold value_ltb at 2.
    destruct (qlt x.2 best.2) eqn:E.
    + apply qlt_spec in E.
      replace (pre ++ best :: post ++ x :: l)
        with ((pre ++ best :: post) ++ x :: [] ++ l)
        by (rewrite <- app_assoc; reflexivity).
      apply IH.
      * intros y Hy. apply elem_of_app in Hy as [Hy|Hy].
        -- specialize (Hpre y Hy). lra.
        -- apply elem_of_cons in Hy as [->|Hy]; [lra|].
           specialize (Hpost y Hy). lra.
      * intros y Hy. apply elem_of_nil in Hy. contradiction.
    + assert (Hge : (best.2 <= x.2)%Q).
      { apply Qnot_lt_le. intros Hlt. apply qlt_spec in Hlt. congruence. }
      replace (pre ++ best :: post ++ x :: l)
        with (pre ++ best :: (post ++ [x]) ++ l)
        by (rewrite <- (app_assoc post); reflexivity).
      apply IH; [assumption|].
      intros y Hy. apply elem_of_app in Hy as [Hy|Hy]; [auto|].
      apply list_elem_of_singleton in Hy as ->. exact Hge.
Qed.

Lemma py_min_first_min (l : list (string * Q)) :
  l ≠ [] → ∃ low, py_min value_ltb l = Returned low ∧ first_min low l.
Proof.
  destruct l as [|x l]; [congruence|]. intros _.
  exists (max_from (λ a b, value_ltb b a) x l). split; [reflexivity|].
  apply (min_from_first_min l [] [] x); intros y Hy; apply elem_of_nil in Hy;
    contradiction.
Qed.

Lemma share_nonneg (count total : nat) :
  (0 <= qnat count / qnat (S total) * 100)%Q.
Proof.
  pose proof (qnat_S_pos total) as Ht. pose proof (qnat_nonneg count) as Hc.
  assert (0 <= qnat count / qnat (S total))%Q.
  { apply Qle_shift_div_l; [exact Ht|]. lra. }
  lra.
Qed.

(** When some pattern is unused and no share is negative, the list of
    recommendations ends with the "opportunity" entry for the first unused
    pattern. *)
Lemma recommendations_end_with_opportunity (patterns : list (string * Q))
    (pc : option PerformanceCorrelation) (recs : list Recommendation) :
  (∀ kv, kv ∈ patterns → (0 <= kv.2)%Q) →
  (∃ kv, kv ∈ patterns ∧ (kv.2 == 0)%Q) →
  _generate_title_pattern_recommendations patterns pc = Returned recs →
  ∃ front low,
    recs = front ++ [{| rec_type := "opportunity";
                        rec_recommendation :=
                          "Experiment with " +:+ replace_char "_" " " low.1
                            +:+ " format";
                        rec_explanation := OnlyUsedBy low.2 |}]
    ∧ (low.2 == 0)%Q
    ∧ first_min low patterns.
Proof.
  intros Hnonneg (z & Hz & Hz0) Hrecs.
  assert (Hne : patterns ≠ []).
  { intros ->. apply elem_of_nil in Hz. exact Hz. }
  destruct (py_min_first_min patterns Hne) as (low & Hlow & Hfirst).
  assert (Hlow0 : (low.2 == 0)%Q).
  { destruct Hfirst as (l1 & l2 & E & H1 & H2).
    assert (Hlowin : low ∈ patterns).
    { rewrite E. apply elem_of_app. right. apply list_elem_of_here. }
    pose proof (Hnonneg low Hlowin) as Hge.
    assert (Hle : (low.2 <= z.2)%Q).
    { rewrite E in Hz. apply elem_of_app in Hz as [Hz|Hz].
      - specialize (H1 z Hz). lra.
      - apply elem_of_cons in Hz as [->|Hz]; [lra|]. exact (H2 z Hz). }
    lra. }
  unfold _generate_title_pattern_recommendations in Hrecs.
  destruct (py_max value_ltb patterns) as [top|e] eqn:Etop;
    [|destruct patterns; [congruence|discriminate Etop]].
  cbn [obind] in Hrecs. rewrite Hlow in Hrecs. cbn [obind] in Hrecs.
  assert (Elt : qlt low.2 10 = true) by (apply qlt_spec; lra).
  rewrite Elt in Hrecs. injection Hrecs as <-.
  eexists _, low. split; [reflexivity|]. split; [exact Hlow0|exact Hfirst].
Qed.

Section ExtractorUsage.

Context {J : Json}.

(** X6.  In a title analysis the shares of the six patterns lie between 0
    and 100; "how_to", "listicle" and "question" exclude one another, so
    their three shares add up to at most 100; and the share of "statement"
    is always 0, as no branch of the loop counts it. *)
Theorem pattern_usage_bounds (st : State) (niche : string)
    (refs : list loc) (titles : list string) :
  competitor_data st !! niche = Some refs →
  refs ≠ [] →
  map (λ l, v_title (deref (heap st) l)) refs = map Some titles →
  ∃ a how_to listicle question statement i_personal you_focused,
    analyze_title_patterns st niche = Returned (Analysed a)
    ∧ pattern_usage a
      = [("how_to", how_to); ("listicle", listicle); ("question", question);
         ("statement", statement); ("i_personal", i_personal);
         ("you_focused", you_focused)]
    ∧ (0 <= how_to ∧ 0 <= listicle ∧ 0 <= question)%Q
    ∧ (how_to + listicle + question <= 100)%Q
    ∧ (statement == 0)%Q
    ∧ (0 <= i_personal <= 100)%Q
    ∧ (0 <= you_focused <= 100)%Q.
Proof.
  intros Hlook Hne Htitles.
  destruct (analyze_title_patterns_value st niche refs titles Hlook Hne Htitles)
    as (avg & pc & recs & _ & Hlen & Hrun).
  destruct (count_patterns_shape titles) as (a & b & c & p & y & E & Habc & Hp & Hy).
  rewrite E in Hrun. cbn [pattern_counters map fst snd] in Hrun.
  assert (Hpos : (0 < length titles)%nat).
  { rewrite Hlen. destruct refs; [congruence|simpl; lia]. }
  eexists _, _, _, _, _, _, _. split; [exact Hrun|].
  cbn [pattern_usage]. split; [reflexivity|].
  destruct (length titles) as [|n] eqn:En; [lia|].
  pose proof (percentage_bounds (a + b + c) (S n) Habc Hpos) as [_ Hsum].
  assert (Eabc : (qnat (a + b + c) == qnat a + qnat b + qnat c)%Q).
  { unfold qnat. rewrite !Nat2Z.inj_add, !inject_Z_plus. reflexivity. }
  pose proof (qnat_S_neq n) as Hnz.
  split; [repeat split; apply share_nonneg|]. split.
  { rewrite Eabc in Hsum.
    assert (Hs : ((qnat a + qnat b + qnat c) / qnat (S n) * 100
                  == qnat a / qnat (S n) * 100 + qnat b / qnat (S n) * 100
                     + qnat c / qnat (S n) * 100)%Q) by (field; exact Hnz).
    rewrite <- Hs. exact Hsum. }
  split.
  { change (qnat 0) with 0%Q. field. exact Hnz. }
  split; apply percentage_bounds; lia.
Qed.

(** X7.  Every title analysis ends its recommendations with an
    "opportunity" entry: as the share of "statement" is 0, the lowest share
    is 0, below the threshold of 10, and the entry names the first pattern,
    in the order of the counters, that no title uses. *)
Theorem opportunity_always_recommended (st : State) (niche : string)
    (refs : list loc) (titles : list string) :
  competitor_data st !! niche = Some refs →
  refs ≠ [] →
  map (λ l, v_title (deref (heap st) l)) refs = map Some titles →
  ∃ a front low,
    analyze_title_patterns st niche = Returned (Analysed a)
    ∧ pattern_recommendations a
      = front ++ [{| rec_type := "opportunity";
                     rec_recommendation :=
                       "Experiment with " +:+ replace_char "_" " " low.1
                         +:+ " format";
                     rec_explanation := OnlyUsedBy low.2 |}]
    ∧ (low.2 == 0)%Q
    ∧ first_min low (pattern_usage a).
Proof.
  intros Hlook Hne Htitles.
  destruct (analyze_title_patterns_value st niche refs titles Hlook Hne Htitles)
    as (avg & pc & recs & Hrecs & Hlen & Hrun).
  assert (Hpos : (0 < length titles)%nat).
  { rewrite Hlen. destruct refs; [congruence|simpl; lia]. }
  destruct (length titles) as [|n] eqn:En; [lia|].
  destruct (count_patterns_shape titles) as (a & b & c & p & y & E & _).
  pose proof (λ H1 H2, recommendations_end_with_opportunity _ pc recs H1 H2 Hrecs)
    as Hend.
  destruct Hend as (front & low & Erecs & Hlow0 & Hfirst).
  - intros kv Hkv. apply list_elem_of_fmap in Hkv as (kv' & -> & _).
    cbn [snd]. apply share_nonneg.
  - rewrite E. eexists ("statement", _). split.
    + cbn [pattern_counters map fst snd].
      do 3 apply list_elem_of_further. apply list_elem_of_here.
    + cbn [snd]. change (qnat 0) with 0%Q. field. apply qnat_S_neq.
  - eexists _, front, low. split; [exact Hrun|].
    cbn [pattern_recommendations pattern_usage]. auto.
Qed.

End ExtractorUsage.

Section ExtractorUsageExamples.

#[local] Existing Instance member_list_json.

Lemma pattern_usage_bounds_witness :
  ∃ a how_to listicle question statement i_personal you_focused,
    analyze_title_patterns example_state "productivity" = Returned (Analysed a)
    ∧ pattern_usage a
      = [("how_to", how_to); ("listicle", listicle); ("question", question);
         ("statement", statement); ("i_personal", i_personal);
         ("you_focused", you_focused)]
    ∧ (0 <= how_to ∧ 0 <= listicle ∧ 0 <= question)%Q
    ∧ (how_to + listicle + question <= 100)%Q
    ∧ (statement == 0)%Q
    ∧ (0 <= i_personal <= 100)%Q
    ∧ (0 <= you_focused <= 100)%Q.
Proof.
  apply (pattern_usage_bounds example_state "productivity"
           [1%positive; 2%positive; 3%positive] example_titles).
  - reflexivity.
  - discriminate.
  - reflexivity.
Defined.

Lemma opportunity_always_recommended_witness :
  ∃ a front low,
    analyze_title_patterns example_state "productivity" = Returned (Analysed a)
    ∧ pattern_recommendations a
      = front ++ [{| rec_type := "opportunity";
                     rec_recommendation :=
                       "Experiment with " +:+ replace_char "_" " " low.1
                         +:+ " format";
                     rec_explanation := OnlyUsedBy low.2 |}]
    ∧ (low.2 == 0)%Q
    ∧ first_min low (pattern_usage a).
Proof.
  apply (opportunity_always_recommended example_state "productivity"
           [1%positive; 2%positive; 3%positive] example_titles).
  - reflexivity.
  - discriminate.
  - reflexivity.
Defined.

End ExtractorUsageExamples.

(** ** Records without a title *)

Lemma map_outcome_raises {A B : Type} (f : A → outcome B) (e : exn) (l : list A) :
  (∀ x, x ∈ l → f x = Raised e ∨ ∃ y, f x = Returned y) →
  (∃ x, x ∈ l ∧ f x = Raised e) →
  map_outcome f l = Raised e.
Proof.
  induction l as [|x l IH]; intros Hall (z & Hz & Hfz).
  - apply elem_of_nil in Hz. contradiction.
  - cbn [map_outcome].
    destruct (Hall x (list_elem_of_here _ _)) as [Hx|(y & Hx)]; rewrite Hx;
      [reflexivity|].
    cbn [obind]. rewrite IH; [reflexivity| |].
    + intros x' Hx'. apply Hall. apply list_elem_of_further. exact Hx'.
    + apply elem_of_cons in Hz as [->|Hz]; [rewrite Hx in Hfz; discriminate|].
      eauto.
Qed.

Lemma title_of_cases (v : VideoRecord) :
  title_of v = Raised (KeyError "title") ∨ ∃ t, title_of v = Returned t.
Proof. unfold title_of. destruct (v_title v); eauto. Qed.

Section MissingTitle.

Context {J : Json}.

Lemma analyze_title_patterns_missing_title (st : State) (niche : string)
    (refs : list loc) (r : loc) :
  competitor_data st !! niche = Some refs →
  r ∈ refs →
  v_title (deref (heap st) r) = None →
  analyze_title_patterns st niche = Raised (KeyError "title").
Proof.
  intros Hlook Hr Htitle. unfold analyze_title_patterns. rewrite Hlook.
  destruct refs as [|r0 refs]; [apply elem_of_nil in Hr; contradiction|].
  rewrite (map_outcome_raises title_of (KeyError "title")); [reflexivity| |].
  - intros v _. apply title_of_cases.
  - exists (deref (heap st) r). split.
    + apply list_elem_of_fmap. exists r. auto.
    + unfold title_of. rewrite Htitle. reflexivity.
Qed.

(** X8.  For a niche that has records, [analyze_title_patterns] raises
    [KeyError('title')] exactly when some record of the niche has no
    [title] key; otherwise it returns an analysis of all the records. *)
Theorem title_analysis_needs_every_title (st : State) (niche : string)
    (refs : list loc) :
  competitor_data st !! niche = Some refs →
  refs ≠ [] →
  (analyze_title_patterns st niche = Raised (KeyError "title")
   ↔ ∃ r, r ∈ refs ∧ v_title (deref (heap st) r) = None)
  ∧ ((∀ r, r ∈ refs → is_Some (v_title (deref (heap st) r))) →
     ∃ a, analyze_title_patterns st niche = Returned (Analysed a)
          ∧ total_videos_analyzed a = length refs).
Proof.
  intros Hlook Hne.
  assert (Hall : (∀ r, r ∈ refs → is_Some (v_title (deref (heap st) r))) →
                 ∃ a, analyze_title_patterns st niche = Returned (Analysed a)
                      ∧ total_videos_analyzed a = length refs).
  { intros Htitles.
    assert (∃ titles, map (λ l, v_title (deref (heap st) l)) refs = map Some titles)
      as (titles & Ht).
    { clear Hlook Hne. induction refs as [|r refs IH]; [exists []; reflexivity|].
      destruct (Htitles r (list_elem_of_here _ _)) as (t & Ht).
      destruct IH as (ts & Hts).
      { intros r' Hr'. apply Htitles. apply list_elem_of_further. exact Hr'. }
      exists (t :: ts). simpl. rewrite Ht, Hts. reflexivity. }
    destruct (analyze_title_patterns_value st niche refs titles Hlook Hne Ht)
      as (avg & pc & recs & _ & Hlen & Hrun).
    eexists; split; [exact Hrun|]. exact Hlen. }
  split; [|exact Hall]. split.
  - intros Hraise.
    destruct (decide (Forall (λ r, is_Some (v_title (deref (heap st) r))) refs))
      as [Hf|Hnf].
    + rewrite Forall_forall in Hf. destruct (Hall Hf) as (a & Hrun & _).
      rewrite Hrun in Hraise. discriminate Hraise.
    + apply not_Forall_Exists in Hnf; [|intros r; apply _].
      apply Exists_exists in Hnf as (r & Hr & Hnone).
      exists r. split; [exact Hr|].
      destruct (v_title (deref (heap st) r)) as [t|] eqn:Et; [|reflexivity].
      exfalso. apply Hnone. exists t. exact Et.
  - intros (r & Hr & Hnone).
    exact (analyze_title_patterns_missing_title st niche refs r Hlook Hr Hnone).
Qed.

(** X9.  Adding a dictionary that has no [title] key makes
    [manual_add_video] raise [KeyError('title')], but only after the
    dictionary was stamped, appended to the niche and saved; from then on
    the title analysis of that niche raises the same error. *)
Theorem untitled_video_is_stored_then_raises (now : string) (r : loc)
    (v : VideoRecord) (niche : string) (st : State) :
  heap st !! r = Some v →
  v_title v = None →
  (manual_add_video now r niche st).1 = Raised (KeyError "title")
  ∧ competitor_data (manual_add_video now r niche st).2 !! niche
    = Some (default [] (competitor_data st !! niche) ++ [r])
  ∧ heap (manual_add_video now r niche st).2 !! r = Some (set_date_added now v)
  ∧ database_file (manual_add_video now r niche st).2
    = FileText (json_dump
                  (snapshot (heap (manual_add_video now r niche st).2)
                            (competitor_data (manual_add_video now r niche st).2)))
  ∧ analyze_title_patterns (manual_add_video now r niche st).2 niche
    = Raised (KeyError "title").
Proof.
  intros Hr Htitle.
  assert (Hheap : heap (manual_add_video now r niche st).2 !! r
                  = Some (set_date_added now v)).
  { rewrite manual_add_video_heap, lookup_alter_eq, Hr. reflexivity. }
  assert (Hdata : competitor_data (manual_add_video now r niche st).2 !! niche
                  = Some (default [] (competitor_data st !! niche) ++ [r])).
  { rewrite manual_add_video_data. apply lookup_insert_eq. }
  split.
  - unfold manual_add_video. cbn [fst]. unfold deref.
    rewrite lookup_alter_eq, Hr. cbn. rewrite Htitle. reflexivity.
  - split; [exact Hdata|]. split; [exact Hheap|].
    split; [apply manual_add_video_file|].
    apply (analyze_title_patterns_missing_title _ niche _ r Hdata).
    + apply elem_of_app. right. apply list_elem_of_here.
    + unfold deref. rewrite Hheap. cbn. exact Htitle.
Qed.

End MissingTitle.

Section MissingTitleExamples.

#[local] Existing Instance member_list_json.

Lemma title_analysis_needs_every_title_witness :
  (analyze_title_patterns example_state "productivity" = Raised (KeyError "title")
   ↔ ∃ r, r ∈ [1%positive; 2%positive; 3%positive]
          ∧ v_title (deref (heap example_state) r) = None)
  ∧ ((∀ r, r ∈ [1%positive; 2%positive; 3%positive] →
           is_Some (v_title (deref (heap example_state) r))) →
     ∃ a, analyze_title_patterns example_state "productivity" = Returned (Analysed a)
          ∧ total_videos_analyzed a = length [1%positive; 2%positive; 3%positive]).
Proof.
  apply (title_analysis_needs_every_title example_state "productivity"
           [1%positive; 2%positive; 3%positive]).
  - reflexivity.
  - discriminate.
Defined.

Lemma untitled_video_is_stored_then_raises_witness :
  (manual_add_video "2024-05-01 10:00:00" 1%positive "productivity"
     untitled_state).1 = Raised (KeyError "title")
  ∧ competitor_data
      (manual_add_video "2024-05-01 10:00:00" 1%positive "productivity"
         untitled_state).2 !! "productivity"
    = Some (default [] (competitor_data untitled_state !! "productivity")
            ++ [1%positive])
  ∧ heap
      (manual_add_video "2024-05-01 10:00:00" 1%positive "productivity"
         untitled_state).2 !! 1%positive
    = Some (set_date_added "2024-05-01 10:00:00"
              (deref (heap untitled_state) 1%positive))
  ∧ database_file
      (manual_add_video "2024-05-01 10:00:00" 1%positive "productivity"
         untitled_state).2
    = FileText
        (json_dump
           (snapshot
              (heap (manual_add_video "2024-05-01 10:00:00" 1%positive
                       "productivity" untitled_state).2)
              (competitor_data
                 (manual_add_video "2024-05-01 10:00:00" 1%positive
                    "productivity" untitled_state).2)))
  ∧ analyze_title_patterns
      (manual_add_video "2024-05-01 10:00:00" 1%positive "productivity"
         untitled_state).2 "productivity"
    = Raised (KeyError "title").
Proof.
  apply (untitled_video_is_stored_then_raises "2024-05-01 10:00:00" 1%positive
           (deref (heap untitled_state) 1%positive) "productivity" untitled_state).
  - reflexivity.
  - reflexivity.
Defined.

End MissingTitleExamples.

(** ** The aggregation entry point *)

Section EntryPoint.

Context {J : Json}.


End EntryPoint.

(** ** Readers of the database file *)

Section Readers.

Context {J : Json}.


(** The identifier of a record does not depend on its time stamp. *)
Lemma video_ids_alter (now : string) (r : loc) (h : gmap loc VideoRecord)
    (ls : list loc) :
  omap v_video_id (map (deref (alter (set_date_added now) r h)) ls)
  = omap v_video_id (map (deref h) ls).
Proof.
  induction ls as [|l ls IH]; [reflexivity|].
  cbn. rewrite IH. f_equal.
  unfold deref. destruct (decide (l = r)) as [->|Hne].
  - rewrite lookup_alter_eq. destruct (h !! r); reflexivity.
  - rewrite lookup_alter_ne by congruence. reflexivity.
Qed.

(** X12.  A record that [manual_add_video] stores with a [video_id] is
    seen by the duplicate check of the selective analyzer: provided the JSON
    library reads the saved document back, [_get_existing_videos] returns
    the identifiers that the niche held before, in their order, followed by
    the new one.  Records without a [video_id] are passed over. *)
Theorem added_video_is_listed_as_existing (now : string) (r : loc)
    (v : VideoRecord) (i niche : string) (st : State) :
  heap st !! r = Some v →
  v_video_id v = Some i →
  json_load (json_dump (snapshot (heap (manual_add_video now r niche st).2)
                          (competitor_data (manual_add_video now r niche st).2)))
  = Returned (snapshot (heap (manual_add_video now r niche st).2)
                (competitor_data (manual_add_video now r niche st).2)) →
  SelectiveVideoAnalyzer._get_existing_videos
    (database_file (manual_add_video now r niche st).2) niche
  = Returned
      (omap v_video_id
         (map (deref (heap st)) (default [] (competitor_data st !! niche)))
       ++ [i]).
Proof.
  intros Hr Hid Hjson.
  unfold SelectiveVideoAnalyzer._get_existing_videos.
  rewrite manual_add_video_file. cbn [open_and_load]. rewrite Hjson.
  rewrite manual_add_video_data, manual_add_video_heap.
  unfold snapshot. rewrite lookup_fmap, lookup_insert_eq. cbn.
  f_equal. rewrite video_ids_alter, map_app, omap_app. f_equal.
  cbn. unfold deref. rewrite Hr. cbn. rewrite Hid. reflexivity.
Qed.

End Readers.

Section ReadersExamples.

#[local] Existing Instance member_list_json.

Lemma added_video_is_listed_as_existing_witness :
  SelectiveVideoAnalyzer._get_existing_videos
    (database_file
       (manual_add_video "2024-05-01 10:00:00" 2%positive "productivity"
          identified_state).2) "productivity"
  = Returned
      (omap v_video_id
         (map (deref (heap identified_state))
            (default [] (competitor_data identified_state !! "productivity")))
       ++ ["dQw4w9WgXcQ"]).
Proof.
  apply (added_video_is_listed_as_existing "2024-05-01 10:00:00" 2%positive
           (identified_video "dQw4w9WgXcQ" "Deep Work in 10 Minutes")
           "dQw4w9WgXcQ" "productivity" identified_state).
  - reflexivity.
  - reflexivity.
  - reflexivity.
Defined.

End ReadersExamples.

(** ** The thumbnail analysis *)

Lemma filter_length (A : Type) (f : A → bool) (l : list A) :
  (length (List.filter f l) ≤ length l)%nat.
Proof.
  induction l as [|x l IH]; cbn; [lia|]. destruct (f x); cbn; lia.
Qed.

Lemma ctr_comparison_returns (group : VideoRecord → bool) (vs : list VideoRecord) :
  ∃ a b,
    avg_ctr_guarded (List.filter group vs) = Returned a
    ∧ avg_ctr_guarded (List.filter (λ v, negb (group v)) vs) = Returned b
    ∧ ctr_comparison group vs
      = Returned {| with_avg_ctr := a; without_avg_ctr := b;
                    ctr_difference := (a - b)%Q |}.
Proof.
  unfold ctr_comparison.
  destruct (avg_ctr_guarded_returns (List.filter group vs)) as [a Ha].
  destruct (avg_ctr_guarded_returns (List.filter (λ v, negb (group v)) vs)) as [b Hb].
  exists a, b. rewrite Ha, Hb. auto.
Qed.

Lemma thumbnail_performance_returns (vs : list VideoRecord) :
  ∃ pc, thumbnail_performance vs = Returned pc
        ∧ (is_Some (face_vs_no_face_ctr pc) ↔ List.filter has_ctr vs ≠ [])
        ∧ (is_Some (text_vs_no_text_ctr pc) ↔ List.filter has_ctr vs ≠ []).
Proof.
  unfold thumbnail_performance.
  destruct (List.filter has_ctr vs) as [|v rated] eqn:E.
  - eexists. split; [reflexivity|]. cbn.
    split; (split; [intros [? [=]]|congruence]).
  - destruct (ctr_comparison_returns shows_face (v :: rated)) as (a & b & _ & _ & Hf).
    destruct (ctr_comparison_returns shows_text (v :: rated)) as (c & d & _ & _ & Ht).
    rewrite Hf, Ht. eexists. split; [reflexivity|]. cbn.
    split; (split; [discriminate|eauto]).
Qed.

Lemma thumbnail_recommendation_types (fp tp : Q) (pc : ThumbnailCorrelation) :
  sublist (map tr_type (_generate_thumbnail_recommendations fp tp pc))
    ["faces"; "text"].
Proof.
  unfold _generate_thumbnail_recommendations.
  assert (Hnone : sublist (@nil string) ["faces"; "text"]) by apply sublist_nil_l.
  assert (Hf : sublist ["faces"] ["faces"; "text"])
    by (apply sublist_skip, sublist_nil_l).
  assert (Ht : sublist ["text"] ["faces"; "text"])
    by (apply sublist_cons, sublist_skip, sublist_nil_l).
  destruct (face_vs_no_face_ctr pc) as [c|], (text_vs_no_text_ctr pc) as [c'|];
    repeat match goal with
           | |- context [if ?b then _ else _] => destruct b
           end; cbn; auto.
Qed.

Section Thumbnails.

Context {J : Json}.

(** X13.  [analyze_thumbnail_patterns] never raises.  It returns an error
    dictionary exactly when no record of the niche carries a thumbnail (the
    niche is missing or empty, or its records have none).  Otherwise it
    reports the number of records with a thumbnail; the face and text
    counts are the numbers of those records whose thumbnail shows a face or
    text, and each percentage is 100 times the count over that number,
    between 0 and 100; [common_colors] holds at most five colours, by count
    in descending order, each with the number of times it occurs; there is
    at most one recommendation about faces and then at most one about
    text. *)
Theorem thumbnail_analysis_outcomes (st : State) (niche : string) :
  let videos :=
    List.filter has_thumbnail
      (map (deref (heap st)) (default [] (competitor_data st !! niche))) in
  let all_colors := flat_map (λ v, colors (thumbnail_of v)) videos in
  match analyze_thumbnail_patterns st niche with
  | Raised _ => False
  | Returned (NoThumbnailData r) => videos = [] ∧ status r = "error"
  | Returned (ThumbnailsAnalysed a) =>
      videos ≠ []
      ∧ total_thumbnails_analyzed a = length videos
      ∧ presence_count (face_presence a) = length (List.filter shows_face videos)
      ∧ presence_count (text_presence a) = length (List.filter shows_text videos)
      ∧ (presence_percentage (face_presence a)
         == qnat (presence_count (face_presence a)) / qnat (length videos) * 100)%Q
      ∧ (presence_percentage (text_presence a)
         == qnat (presence_count (text_presence a)) / qnat (length videos) * 100)%Q
      ∧ (0 <= presence_percentage (face_presence a) <= 100)%Q
      ∧ (0 <= presence_percentage (text_presence a) <= 100)%Q
      ∧ (length (common_colors a) ≤ 5)%nat
      ∧ StronglySorted by_count_desc (common_colors a)
      ∧ (∀ c n, (c, n) ∈ common_colors a → n = occurrences c all_colors)
      ∧ sublist (map tr_type (thumbnail_recommendations a)) ["faces"; "text"]
  end.
Proof.
  intros videos all_colors. unfold analyze_thumbnail_patterns.
  destruct (competitor_data st !! niche) as [[|r refs]|] eqn:Eniche;
    [cbn; auto| |cbn; auto].
  subst videos all_colors.
  change (default [] (Some (r :: refs))) with (r :: refs).
  destruct (List.filter has_thumbnail (map (deref (heap st)) (r :: refs)))
    as [|v vs] eqn:Evideos; [cbn; auto|].
  change (length (v :: vs)) with (S (length vs)).
  rewrite !py_div_S. cbn [obind].
  destruct (thumbnail_performance_returns (v :: vs)) as (pc & -> & _).
  cbn [obind total_thumbnails_analyzed face_presence text_presence
       presence_count presence_percentage common_colors
       thumbnail_recommendations].
  pose proof (filter_length _ shows_face (v :: vs)) as Hface.
  pose proof (filter_length _ shows_text (v :: vs)) as Htext.
  change (length (v :: vs)) with (S (length vs)) in Hface, Htext.
  destruct (top_counts_spec 5
              (flat_map (λ v0, colors (thumbnail_of v0)) (v :: vs)))
    as (Hlen & Hsorted & _ & Hcount & _).
  split; [discriminate|]. split; [reflexivity|].
  split; [reflexivity|]. split; [reflexivity|].
  split; [reflexivity|]. split; [reflexivity|].
  split; [apply percentage_bounds; lia|].
  split; [apply percentage_bounds; lia|].
  split; [exact Hlen|]. split; [exact Hsorted|].
  split; [intros c n Hin; apply (Hcount c n Hin)|].
  apply thumbnail_recommendation_types.
Qed.

End Thumbnails.

Lemma filter_none {A : Type} (f : A → bool) (l : list A) :
  (∀ x, x ∈ l → f x = false) → List.filter f l = [].
Proof.
  induction l as [|x l IH]; intros Hall; [reflexivity|].
  cbn. rewrite (Hall x) by apply list_elem_of_here.
  apply IH. intros y Hy. apply Hall. apply list_elem_of_further. exact Hy.
Qed.

Lemma filter_every {A : Type} (f : A → bool) (l : list A) :
  (∀ x, x ∈ l → f x = true) → List.filter f l = l.
Proof.
  induction l as [|x l IH]; intros Hall; [reflexivity|].
  cbn. rewrite (Hall x) by apply list_elem_of_here. f_equal.
  apply IH. intros y Hy. apply Hall. apply list_elem_of_further. exact Hy.
Qed.

Section ThumbnailComparison.

Context {J : Json}.


End ThumbnailComparison.

Section ThumbnailComparisonExamples.

#[local] Existing Instance member_list_json.


End ThumbnailComparisonExamples.

(** ** Thumbnail compositions *)

Lemma sum_count_word (d : list (string * nat)) (w : string) :
  sum_list_with snd (count_word d w) = S (sum_list_with snd d).
Proof.
  induction d as [|kv d IH]; cbn; [reflexivity|].
  case_decide; cbn; [reflexivity|]. rewrite IH. lia.
Qed.

Lemma sum_foldl_count_word (ws : list string) (d : list (string * nat)) :
  sum_list_with snd (foldl count_word d ws)
  = (sum_list_with snd d + length ws)%nat.
Proof.
  revert d. induction ws as [|w ws IH]; intros d; cbn; [lia|].
  rewrite IH, sum_count_word. lia.
Qed.

Lemma sum_le_bound (c : nat) (l : list (string * nat)) :
  Forall (λ y, (y.2 ≤ c)%nat) l → (sum_list_with snd l ≤ length l * c)%nat.
Proof. induction 1; cbn; lia. Qed.

Lemma above_tenth_spec (total : nat) (kv : string * nat) :
  above_tenth total kv = true ↔ (total < 10 * kv.2)%nat.
Proof.
  unfold above_tenth. rewrite qgt_spec.
  unfold qnat, Qlt, Qmult, inject_Z. cbn [Qnum Qden]. lia.
Qed.

Lemma share_above_tenth (c total : nat) :
  (S total < 10 * c)%nat → (10 < qnat c / qnat (S total) * 100)%Q.
Proof.
  intros Hlt. pose proof (qnat_S_pos total) as Hpos.
  assert (Hq : (qnat (S total) < 10 * qnat c)%Q).
  { unfold qnat, Qlt, Qmult, inject_Z. cbn [Qnum Qden]. lia. }
  assert (Heq : (qnat c / qnat (S total) * 100
                 == (100 * qnat c) / qnat (S total))%Q) by (field; lra).
  rewrite Heq.
  apply Qlt_shift_div_l; [exact Hpos|lra].
Qed.

Lemma share_mono (a b total : nat) :
  (a ≤ b)%nat →
  (qnat a / qnat (S total) * 100 <= qnat b / qnat (S total) * 100)%Q.
Proof.
  intros Hle. apply Qmult_le_compat_r; [|lra].
  unfold Qdiv. apply Qmult_le_compat_r; [apply qnat_le, Hle|].
  apply Qinv_le_0_compat, Qlt_le_weak, qnat_S_pos.
Qed.

Lemma thumbnail_pattern_loop (n : nat) (l : list (string * nat))
    (acc : list ThumbnailPattern) :
  for_each (thumbnail_pattern (S n)) l acc
  = Returned (acc ++ map (listed_pattern (S n)) (List.filter (above_tenth (S n)) l)).
Proof.
  revert acc. induction l as [|kv l IH]; intros acc; cbn [for_each List.filter].
  - cbn. rewrite app_nil_r. reflexivity.
  - unfold thumbnail_pattern at 1, above_tenth at 1.
    destruct (qgt (qnat kv.2) (qnat (S n) * (1 # 10))).
    + rewrite py_div_S. cbn [obind]. rewrite IH. cbn [map].
      rewrite <- app_assoc. reflexivity.
    + cbn [obind]. apply IH.
Qed.

Lemma elem_of_List_filter {A : Type} (f : A → bool) (l : list A) (x : A) :
  x ∈ List.filter f l ↔ x ∈ l ∧ f x = true.
Proof. rewrite !list_elem_of_In. apply filter_In. Qed.

Lemma sublist_List_filter {A : Type} (f : A → bool) (l : list A) :
  sublist (List.filter f l) l.
Proof.
  induction l as [|x l IH]; cbn; [constructor|].
  destruct (f x); [apply sublist_skip|apply sublist_cons]; exact IH.
Qed.

Lemma sublist_map {A B : Type} (f : A → B) (l k : list A) :
  sublist l k → sublist (map f l) (map f k).
Proof. induction 1; cbn; constructor; assumption. Qed.

Lemma StronglySorted_sublist {A : Type} (R : relation A) (l k : list A) :
  sublist l k → StronglySorted R k → StronglySorted R l.
Proof.
  intros Hsub Hk. revert l Hsub.
  induction Hk as [|x k Hk IH Hall]; intros l Hsub.
  - apply sublist_nil_r in Hsub. subst l. constructor.
  - apply sublist_cons_r in Hsub as [Hsub|(l' & -> & Hsub)]; [apply IH, Hsub|].
    constructor; [apply IH, Hsub|].
    rewrite Forall_forall in Hall |- *. intros y Hy. apply Hall.
    eapply elem_of_sublist; eassumption.
Qed.

Lemma composition_named (t : Thumbnail) : composition t ∈ composition_names.
Proof.
  unfold composition, composition_names.
  destruct (has_face t), (has_text t); cbn; set_solver.
Qed.

Lemma occurrences_le (w : string) (ws : list string) :
  (occurrences w ws ≤ length ws)%nat.
Proof. unfold occurrences. apply length_filter. Qed.

Lemma composition_counts_spec (comps : list string) :
  (∀ c, c ∈ comps → c ∈ composition_names) →
  StronglySorted by_count_desc (sorted_desc count_ltb (foldl count_word [] comps))
  ∧ NoDup (map fst (sorted_desc count_ltb (foldl count_word [] comps)))
  ∧ (∀ kv, kv ∈ sorted_desc count_ltb (foldl count_word [] comps) →
       kv.1 ∈ composition_names ∧ kv.2 = occurrences kv.1 comps)
  ∧ (length (sorted_desc count_ltb (foldl count_word [] comps)) ≤ 4)%nat
  ∧ sum_list_with snd (sorted_desc count_ltb (foldl count_word [] comps))
    = length comps.
Proof.
  intros Hnamed.
  set (s := sorted_desc count_ltb (foldl count_word [] comps)).
  destruct (top_counts_spec (length s) comps)
    as (_ & Hsorted & Hnodup & Hcount & _).
  cbv zeta in Hsorted, Hnodup, Hcount.
  fold s in Hsorted, Hnodup, Hcount.
  rewrite take_ge in Hsorted, Hnodup, Hcount by lia.
  assert (Hkeys : ∀ kv, kv ∈ s → kv.1 ∈ composition_names
                                 ∧ kv.2 = occurrences kv.1 comps).
  { intros [w c] Hin. destruct (Hcount w c Hin) as [Hw Hc]. split; [|exact Hc].
    apply Hnamed, Hw. }
  split; [exact Hsorted|]. split; [exact Hnodup|]. split; [exact Hkeys|]. split.
  - rewrite <- (length_map fst s).
    apply (submseteq_length _ composition_names), NoDup_submseteq; [exact Hnodup|].
    intros w Hw. apply list_elem_of_fmap in Hw as (kv & -> & Hkv).
    apply Hkeys, Hkv.
  - unfold s. rewrite sorted_desc_perm, sum_foldl_count_word. reflexivity.
Qed.

(** Of at most four counters that add up to the total, the largest is above
    a tenth of it. *)
Lemma some_composition_above_tenth (comps : list string) (n : nat) :
  (∀ c, c ∈ comps → c ∈ composition_names) →
  length comps = S n →
  ∃ h t, sorted_desc count_ltb (foldl count_word [] comps) = h :: t
         ∧ above_tenth (S n) h = true.
Proof.
  intros Hnamed Hlength.
  destruct (composition_counts_spec comps Hnamed)
    as (Hsorted & _ & _ & Hlen & Hsum).
  destruct (sorted_desc count_ltb (foldl count_word [] comps)) as [|h t];
    [cbn in Hsum; congruence|].
  exists h, t. split; [reflexivity|]. apply above_tenth_spec.
  pose proof (StronglySorted_inv Hsorted) as [_ Hall].
  assert (Hbound : (sum_list_with snd (h :: t) ≤ length (h :: t) * h.2)%nat).
  { apply sum_le_bound. constructor; [lia|].
    eapply Forall_impl; [exact Hall|]. intros y Hy. exact Hy. }
  rewrite Hsum, Hlength in Hbound. cbn [length] in Hbound, Hlen. nia.
Qed.

Section Compositions.

Context {J : Json}.

Lemma compositions_named (st : State) (niche : string) :
  ∀ c, c ∈ compositions st niche → c ∈ composition_names.
Proof.
  intros c Hc. unfold compositions in Hc.
  apply list_elem_of_fmap in Hc as (video & -> & _). apply composition_named.
Qed.

Lemma extract_thumbnail_patterns_value (st : State) (niche : string)
    (v : VideoRecord) (vs : list VideoRecord) :
  thumbnail_videos st niche = v :: vs →
  _extract_thumbnail_patterns st niche
  = Returned
      (map (listed_pattern (S (length vs)))
         (List.filter (above_tenth (S (length vs)))
            (sorted_desc count_ltb (foldl count_word [] (compositions st niche))))).
Proof.
  unfold compositions, thumbnail_videos, _extract_thumbnail_patterns, niche_videos.
  intros Hvideos.
  destruct (competitor_data st !! niche) as [refs|] eqn:Eniche; [|discriminate].
  change (default [] (Some refs)) with refs in *. cbn [obind].
  rewrite Hvideos. change (length (v :: vs)) with (S (length vs)).
  rewrite thumbnail_pattern_loop. reflexivity.
Qed.

Lemma extract_thumbnail_patterns_none (st : State) (niche : string) :
  is_Some (competitor_data st !! niche) →
  thumbnail_videos st niche = [] →
  _extract_thumbnail_patterns st niche = Returned [].
Proof.
  unfold thumbnail_videos, _extract_thumbnail_patterns, niche_videos.
  intros [refs Hrefs] Hvideos. rewrite Hrefs in *.
  change (default [] (Some refs)) with refs in *. cbn [obind].
  rewrite Hvideos. reflexivity.
Qed.

(** X15.  Whenever a record of the niche carries a thumbnail,
    [_extract_thumbnail_patterns] lists at least one pattern: of the four
    compositions one is used by a quarter of the thumbnails or more, which
    is above the threshold of a tenth.  The patterns listed are exactly the
    compositions used by more than a tenth of the thumbnails, each once,
    the most frequent first; the frequency of each is 100 times the number
    of thumbnails of that composition over the number of thumbnails, above
    10 and at most 100. *)
Theorem thumbnail_patterns_never_empty (st : State) (niche : string) :
  thumbnail_videos st niche ≠ [] →
  ∃ ps,
    _extract_thumbnail_patterns st niche = Returned ps
    ∧ (1 ≤ length ps ≤ 4)%nat
    ∧ NoDup (map tp_type ps)
    ∧ StronglySorted by_frequency_desc ps
    ∧ (∀ p, p ∈ ps →
         tp_type p ∈ composition_names
         ∧ (tp_frequency p
            == qnat (occurrences (tp_type p) (compositions st niche))
               / qnat (length (thumbnail_videos st niche)) * 100)%Q
         ∧ (10 < tp_frequency p <= 100)%Q)
    ∧ (∀ name,
         (length (thumbnail_videos st niche)
          < 10 * occurrences name (compositions st niche))%nat →
         name ∈ map tp_type ps).
Proof.
  intros Hne.
  destruct (thumbnail_videos st niche) as [|v vs] eqn:Evideos; [congruence|].
  rewrite (extract_thumbnail_patterns_value st niche v vs Evideos).
  assert (Hlength : length (compositions st niche) = S (length vs)).
  { unfold compositions. rewrite length_map, Evideos. reflexivity. }
  pose proof (compositions_named st niche) as Hnamed.
  set (comps := compositions st niche) in *.
  destruct (composition_counts_spec comps Hnamed)
    as (Hsorted & Hnodup & Hkeys & Hlen & _).
  destruct (some_composition_above_tenth comps (length vs) Hnamed Hlength)
    as (h & t & Es & Hhead).
  change (length (v :: vs)) with (S (length vs)).
  set (s := sorted_desc count_ltb (foldl count_word [] comps)) in *.
  eexists. split; [reflexivity|]. split; [|split; [|split; [|split]]].
  - rewrite length_map. split.
    + rewrite Es. cbn [List.filter]. rewrite Hhead. cbn. lia.
    + pose proof (filter_length _ (above_tenth (S (length vs))) s). lia.
  - rewrite map_map. cbn [listed_pattern tp_type].
    apply (sublist_NoDup _ (map fst s)); [exact Hnodup|].
    apply sublist_map, sublist_List_filter.
  - apply (StronglySorted_sublist _ _ (map (listed_pattern (S (length vs))) s)).
    + apply sublist_map, sublist_List_filter.
    + change (StronglySorted by_frequency_desc
                (listed_pattern (S (length vs)) <$> s)).
      apply (StronglySorted_fmap _ by_count_desc); [|exact Hsorted].
      intros a b Hab. apply share_mono, Hab.
  - intros p Hp. apply list_elem_of_fmap in Hp as (kv & -> & Hkv).
    apply elem_of_List_filter in Hkv as [Hkv Hpass].
    destruct (Hkeys kv Hkv) as [Hname Hocc].
    cbn [listed_pattern tp_type tp_frequency].
    split; [exact Hname|]. split; [rewrite <- Hocc; reflexivity|]. split.
    + apply share_above_tenth, above_tenth_spec, Hpass.
    + apply percentage_bounds; [|lia]. rewrite Hocc, <- Hlength.
      apply occurrences_le.
  - intros name Hmany.
    assert (Hin : (name, occurrences name comps) ∈ s).
    { unfold s. rewrite sorted_desc_perm.
      apply assoc_elem_of.
      { apply NoDup_keys_foldl_count_word. constructor. }
      rewrite assoc_foldl_count_word.
      destruct (occurrences name comps) as [|k] eqn:Eocc; [lia|]. reflexivity. }
    rewrite map_map. cbn [listed_pattern tp_type].
    apply list_elem_of_fmap. exists (name, occurrences name comps).
    split; [reflexivity|]. apply elem_of_List_filter. split; [exact Hin|].
    apply above_tenth_spec. exact Hmany.
Qed.

End Compositions.

Section CompositionsExamples.

#[local] Existing Instance member_list_json.

Lemma thumbnail_patterns_never_empty_witness :
  ∃ ps,
    _extract_thumbnail_patterns thumbnail_state "productivity" = Returned ps
    ∧ (1 ≤ length ps ≤ 4)%nat
    ∧ NoDup (map tp_type ps)
    ∧ StronglySorted by_frequency_desc ps
    ∧ (∀ p, p ∈ ps →
         tp_type p ∈ composition_names
         ∧ (tp_frequency p
            == qnat (occurrences (tp_type p) (compositions thumbnail_state "productivity"))
               / qnat (length (thumbnail_videos thumbnail_state "productivity")) * 100)%Q
         ∧ (10 < tp_frequency p <= 100)%Q)
    ∧ (∀ name,
         (length (thumbnail_videos thumbnail_state "productivity")
          < 10 * occurrences name (compositions thumbnail_state "productivity"))%nat →
         name ∈ map tp_type ps).
Proof.
  apply (thumbnail_patterns_never_empty thumbnail_state "productivity").
  vm_compute. discriminate.
Defined.

End CompositionsExamples.

(** ** The pattern templates *)

Lemma titles_returned (videos : list VideoRecord) (titles : list string) :
  map v_title videos = map Some titles →
  map_outcome title_of videos = Returned titles.
Proof.
  revert titles. induction videos as [|v videos IH]; intros [|t titles] Heq;
    try discriminate Heq; [reflexivity|].
  cbn in Heq. injection Heq as Hv Hrest.
  cbn [map_outcome]. unfold title_of at 1. rewrite Hv. cbn [obind].
  rewrite (IH titles Hrest). reflexivity.
Qed.

Lemma share_pos (count total : nat) :
  (0 < qnat (S count) / qnat (S total) * 100)%Q.
Proof.
  pose proof (qnat_S_pos count) as Hc. pose proof (qnat_S_pos total) as Ht.
  apply Qmult_lt_0_compat; [|lra].
  apply Qlt_shift_div_l; [exact Ht|lra].
Qed.

Lemma title_pattern_step (template : string) (f : string → bool)
    (titles : list string) (ps : list TitlePattern) :
  Forall (exemplified titles) ps →
  ∃ ps', title_pattern template (List.filter f titles) titles ps = Returned ps'
         ∧ Forall (exemplified titles) ps'
         ∧ (length ps' ≤ S (length ps))%nat.
Proof.
  intros Hps. unfold title_pattern.
  destruct (List.filter f titles) as [|h hs] eqn:Ehits.
  - exists ps. split; [reflexivity|]. split; [exact Hps|lia].
  - destruct titles as [|t ts]; [discriminate Ehits|].
    change (qlen (t :: ts)) with (qnat (S (length ts))).
    change (qlen (h :: hs)) with (qnat (S (length hs))).
    rewrite py_div_S. cbn [obind]. eexists. split; [reflexivity|]. split.
    + apply Forall_app. split; [exact Hps|]. apply Forall_singleton.
      unfold exemplified. cbn [tpl_examples tpl_frequency].
      split; [discriminate|]. split; [rewrite length_take; lia|]. split.
      * rewrite <- Ehits. etransitivity; [apply sublist_take|].
        apply sublist_List_filter.
      * split; [apply share_pos|]. apply percentage_bounds; [|lia].
        pose proof (filter_length _ f (t :: ts)) as Hle.
        rewrite Ehits in Hle. exact Hle.
    + rewrite length_app. cbn. lia.
Qed.

Lemma intro_pattern_step (type description : string) (count n : nat)
    (ps : list IntroPattern) :
  ∃ ps', intro_pattern type description count (S n) ps = Returned ps'
         ∧ (length ps' ≤ S (length ps))%nat.
Proof.
  unfold intro_pattern.
  destruct (qgt (qnat count) (qnat (S n) * (2 # 10))).
  - rewrite py_div_S. cbn [obind]. eexists. split; [reflexivity|].
    rewrite length_app. cbn. lia.
  - eexists. split; [reflexivity|]. lia.
Qed.

Section Templates.

Context {J : Json}.

Lemma extract_script_patterns_returns (st : State) (niche : string) :
  is_Some (competitor_data st !! niche) →
  ∃ ps, _extract_script_patterns st niche = Returned ps ∧ (length ps ≤ 4)%nat.
Proof.
  intros [refs Hrefs]. unfold _extract_script_patterns, niche_videos.
  rewrite Hrefs. cbn [obind].
  destruct (List.filter has_transcript (map (deref (heap st)) refs))
    as [|v vs]; [exists []; split; [reflexivity|cbn; lia]|].
  rewrite length_map. change (length (v :: vs)) with (S (length vs)).
  destruct (intro_pattern_step "question_intro"
              "Start with a thought-provoking question"
              (length (List.filter is_question_intro (map intro_of (v :: vs))))
              (length vs) []) as (p1 & -> & H1).
  cbn [obind].
  destruct (intro_pattern_step "greeting_intro" "Start with a friendly greeting"
              (length (List.filter is_greeting_intro (map intro_of (v :: vs))))
              (length vs) p1) as (p2 & -> & H2).
  cbn [obind].
  destruct (intro_pattern_step "statement_intro"
              "Start with a clear statement of what you'll cover"
              (length (List.filter is_statement_intro (map intro_of (v :: vs))))
              (length vs) p2) as (p3 & -> & H3).
  cbn [obind].
  destruct (intro_pattern_step "story_intro"
              "Start with a personal story or anecdote"
              (length (List.filter is_story_intro (map intro_of (v :: vs))))
              (length vs) p3) as (p4 & -> & H4).
  cbn [obind]. exists p4. split; [reflexivity|]. cbn [length] in H1. lia.
Qed.

Lemma extract_title_patterns_returns (st : State) (niche : string)
    (refs : list loc) (titles : list string) :
  competitor_data st !! niche = Some refs →
  map (λ l, v_title (deref (heap st) l)) refs = map Some titles →
  ∃ ps, _extract_title_patterns st niche = Returned ps
        ∧ (length ps ≤ 4)%nat
        ∧ Forall (exemplified titles) ps.
Proof.
  intros Hrefs Htitles. unfold _extract_title_patterns, niche_videos.
  rewrite Hrefs. cbn [obind].
  rewrite (titles_returned _ titles) by (rewrite map_map; exact Htitles).
  cbn [obind].
  destruct (title_pattern_step "How to {action} to {achieve_result}"
              is_how_to_title titles [] (Forall_nil_2 _)) as (p1 & -> & F1 & H1).
  cbn [obind].
  destruct (title_pattern_step "{number} {things} to {goal}"
              is_listicle_title titles p1 F1) as (p2 & -> & F2 & H2).
  cbn [obind].
  destruct (title_pattern_step "{question}?"
              is_question_title titles p2 F2) as (p3 & -> & F3 & H3).
  cbn [obind].
  destruct (title_pattern_step
              "I {action} {subject} for {timeframe} | Here's What Happened"
              is_personal_title titles p3 F3) as (p4 & -> & F4 & H4).
  cbn [obind]. exists p4. split; [reflexivity|]. split; [|exact F4].
  cbn [length] in H1. lia.
Qed.

(** X16.  For a niche whose records all have a title,
    [get_pattern_templates] returns the templates and never divides by
    zero.  Each of the three lists has at most four entries.  Every title
    pattern comes with one to three examples, which are titles of the niche
    in their stored order, and with a frequency above 0 and at most 100.  The
    thumbnail list is empty exactly when no record of the niche carries a
    thumbnail. *)
Theorem pattern_templates_of_titled_niche (st : State) (niche : string)
    (refs : list loc) (titles : list string) :
  competitor_data st !! niche = Some refs →
  refs ≠ [] →
  map (λ l, v_title (deref (heap st) l)) refs = map Some titles →
  ∃ t,
    get_pattern_templates st niche = Returned (Templates t)
    ∧ (length (pt_title_patterns t) ≤ 4)%nat
    ∧ (∀ p, p ∈ pt_title_patterns t → exemplified titles p)
    ∧ (length (pt_script_patterns t) ≤ 4)%nat
    ∧ (length (pt_thumbnail_patterns t) ≤ 4)%nat
    ∧ (pt_thumbnail_patterns t = [] ↔ thumbnail_videos st niche = []).
Proof.
  intros Hrefs Hne Htitles. unfold get_pattern_templates. rewrite Hrefs.
  destruct refs as [|r refs]; [congruence|].
  destruct (extract_title_patterns_returns st niche (r :: refs) titles Hrefs Htitles)
    as (tps & -> & Htlen & Htall).
  cbn [obind].
  destruct (extract_script_patterns_returns st niche) as (sps & -> & Hslen);
    [rewrite Hrefs; eauto|].
  cbn [obind].
  destruct (thumbnail_videos st niche) as [|v vs] eqn:Evideos.
  - rewrite (extract_thumbnail_patterns_none st niche) by (rewrite ?Hrefs; eauto).
    cbn [obind]. eexists. split; [reflexivity|].
    cbn [pt_title_patterns pt_script_patterns pt_thumbnail_patterns].
    split; [exact Htlen|]. split; [apply Forall_forall, Htall|].
    split; [exact Hslen|]. split; [cbn; lia|]. split; reflexivity.
  - rewrite (extract_thumbnail_patterns_value st niche v vs Evideos).
    cbn [obind]. eexists. split; [reflexivity|].
    cbn [pt_title_patterns pt_script_patterns pt_thumbnail_patterns].
    split; [exact Htlen|]. split; [apply Forall_forall, Htall|].
    split; [exact Hslen|].
    pose proof (compositions_named st niche) as Hnamed.
    assert (Hlength : length (compositions st niche) = S (length vs)).
    { unfold compositions. rewrite length_map, Evideos. reflexivity. }
    destruct (composition_counts_spec _ Hnamed) as (_ & _ & _ & Hlen & _).
    destruct (some_composition_above_tenth _ (length vs) Hnamed Hlength)
      as (h & t & Es & Hhead).
    split.
    + rewrite length_map.
      pose proof (filter_length _ (above_tenth (S (length vs)))
                    (sorted_desc count_ltb
                       (foldl count_word [] (compositions st niche)))).
      lia.
    + rewrite Es. cbn [List.filter]. rewrite Hhead. cbn [map].
      split; discriminate.
Qed.

End Templates.

Section TemplatesExamples.

#[local] Existing Instance member_list_json.

Lemma pattern_templates_of_titled_niche_witness :
  ∃ t,
    get_pattern_templates thumbnail_state "productivity" = Returned (Templates t)
    ∧ (length (pt_title_patterns t) ≤ 4)%nat
    ∧ (∀ p, p ∈ pt_title_patterns t →
         exemplified
           ["How to Focus Better"; "I Tried Time Blocking"; "Desk Setup Tour"] p)
    ∧ (length (pt_script_patterns t) ≤ 4)%nat
    ∧ (length (pt_thumbnail_patterns t) ≤ 4)%nat
    ∧ (pt_thumbnail_patterns t = []
       ↔ thumbnail_videos thumbnail_state "productivity" = []).
Proof.
  apply (pattern_templates_of_titled_niche thumbnail_state "productivity"
           [1%positive; 2%positive; 3%positive]).
  - reflexivity.
  - discriminate.
  - reflexivity.
Defined.

End TemplatesExamples.

(** ** Recommendations for a script *)

Import DataIntegrationModule.












Section ScriptRecommendations.

Context {J : Json}.



End ScriptRecommendations.

Section ScriptRecommendationsExamples.

#[local] Existing Instance member_list_json.



End ScriptRecommendationsExamples.

(** ** From the API to the store *)

Import APIIntegrationModule.

Lemma transform_returns (analysis : Analysis) (niche : string) :
  ∃ video,
    _transform_to_competitor_format analysis niche = Returned video
    ∧ is_Some (v_title video)
    ∧ v_video_id video = Some (default "" (an_video_id analysis))
    ∧ is_Some (v_thumbnail video)
    ∧ v_date_added video = None.
Proof.
  unfold _transform_to_competitor_format.
  destruct (engagement_metrics_of_returns
              (default no_engagement
                 (engagement (default no_metadata (an_metadata analysis)))))
    as [m Hm].
  rewrite Hm. cbn [obind]. eexists. split; [reflexivity|]. cbn. eauto.
Qed.

Section Integration.

Context {J : Json}.

(** X19.  When the extraction succeeded, [extract_and_integrate] never
    raises, whatever the analysis lacks: the transformed dictionary always
    has a title.  The dictionary is a new object.  In a store whose
    references are all allocated, the saved document changes in one place
    only: the list of the niche, created if the niche is new, gains the
    transformed record with its time stamp at the end.  The analysis is
    written to its own file, named after the video identifier. *)
Theorem extract_and_integrate_stores_one_record (now : string)
    (analysis : Analysis) (niche : string) (s : ApiState) :
  allocated (competitor_analyzer s) →
  let st := competitor_analyzer s in
  let r := extract_and_integrate now (Extracted analysis) niche s in
  let st' := competitor_analyzer r.2 in
  ∃ video video_info message,
    _transform_to_competitor_format analysis niche = Returned video
    ∧ r.1 = Returned (Integrated (default "unknown" (an_video_id analysis)) message
                        (api_analysis_path analysis) video_info)
    ∧ heap st !! video_info = None
    ∧ heap st' !! video_info = Some (set_date_added now video)
    ∧ snapshot (heap st') (competitor_data st')
      = <[niche := default [] (snapshot (heap st) (competitor_data st) !! niche)
                   ++ [set_date_added now video]]>
          (snapshot (heap st) (competitor_data st))
    ∧ database_file st'
      = FileText (json_dump (snapshot (heap st') (competitor_data st')))
    ∧ api_analysis_files r.2
      = <[api_analysis_path analysis := analysis]> (api_analysis_files s).
Proof.
  intros Halloc st r st'. subst st r st'.
  destruct (transform_returns analysis niche)
    as (video & Hvideo & (title & Htitle) & _ & _ & _).
  unfold extract_and_integrate. rewrite Hvideo.
  set (st := competitor_analyzer s) in *.
  set (video_info := fresh (dom (heap st))).
  assert (Hfresh : heap st !! video_info = None).
  { apply not_elem_of_dom. apply is_fresh. }
  set (st1 := {| heap := <[video_info := video]> (heap st);
                 competitor_data := competitor_data st;
                 database_file := database_file st |}).
  assert (Hresult : (manual_add_video now video_info niche st1).1
                    = Returned {| status := "success";
                                  message := "Video '" +:+ title +:+ "' added to "
                                             +:+ niche +:+ " database" |}).
  { unfold manual_add_video. cbn [fst heap]. unfold deref.
    rewrite lookup_alter_eq. unfold st1. cbn [heap].
    rewrite lookup_insert_eq. cbn. rewrite Htitle. reflexivity. }
  rewrite Hresult. cbn [fst snd competitor_analyzer api_analysis_files message].
  assert (Hheap : heap (manual_add_video now video_info niche st1).2 !! video_info
                  = Some (set_date_added now video)).
  { rewrite manual_add_video_heap. unfold st1. cbn [heap].
    rewrite lookup_alter_eq, lookup_insert_eq. reflexivity. }
  assert (Hderef : ∀ k ls, competitor_data st !! k = Some ls →
            map (deref (heap (manual_add_video now video_info niche st1).2)) ls
            = map (deref (heap st)) ls).
  { intros k ls Hk. apply map_ext_in. intros l Hl.
    apply list_elem_of_In in Hl.
    assert (Hne : l ≠ video_info).
    { intros ->. destruct (Halloc k ls video_info Hk Hl) as [v Hv].
      fold st in Hv. rewrite Hfresh in Hv. discriminate Hv. }
    rewrite manual_add_video_heap. unfold st1, deref. cbn [heap].
    rewrite lookup_alter_ne, lookup_insert_ne by congruence. reflexivity. }
  exists video, video_info. eexists.
  split; [reflexivity|]. split; [reflexivity|]. split; [exact Hfresh|].
  split; [exact Hheap|]. split; [|split; [apply manual_add_video_file|reflexivity]].
  apply map_eq. intros k. unfold snapshot at 1.
  rewrite manual_add_video_data. unfold st1 at 2 3. cbn [competitor_data].
  rewrite lookup_fmap.
  destruct (decide (k = niche)) as [->|Hk].
  - rewrite !lookup_insert_eq. cbn [fmap option_fmap option_map].
    unfold snapshot. rewrite lookup_fmap. f_equal. rewrite map_app. f_equal.
    + destruct (competitor_data st !! niche) as [ls|] eqn:E; [|reflexivity].
      cbn. apply (Hderef niche ls E).
    + cbn [map]. f_equal. unfold deref. rewrite Hheap. reflexivity.
  - rewrite !lookup_insert_ne by congruence.
    unfold snapshot. rewrite lookup_fmap.
    destruct (competitor_data st !! k) as [ls|] eqn:E; [|reflexivity].
    cbn. f_equal. apply (Hderef k ls E).
Qed.

End Integration.

Section IntegrationExamples.

#[local] Existing Instance member_list_json.

Lemma extract_and_integrate_stores_one_record_witness :
  let s := {| competitor_analyzer := one_video_state; api_analysis_files := ∅ |} in
  let st := competitor_analyzer s in
  let r := extract_and_integrate "2024-05-01 10:00:00" (Extracted unviewed_analysis)
             "productivity" s in
  let st' := competitor_analyzer r.2 in
  ∃ video video_info message,
    _transform_to_competitor_format unviewed_analysis "productivity" = Returned video
    ∧ r.1 = Returned (Integrated (default "unknown" (an_video_id unviewed_analysis))
                        message (api_analysis_path unviewed_analysis) video_info)
    ∧ heap st !! video_info = None
    ∧ heap st' !! video_info = Some (set_date_added "2024-05-01 10:00:00" video)
    ∧ snapshot (heap st') (competitor_data st')
      = <["productivity" :=
            default [] (snapshot (heap st) (competitor_data st) !! "productivity")
            ++ [set_date_added "2024-05-01 10:00:00" video]]>
          (snapshot (heap st) (competitor_data st))
    ∧ database_file st'
      = FileText (json_dump (snapshot (heap st') (competitor_data st')))
    ∧ api_analysis_files r.2
      = <[api_analysis_path unviewed_analysis := unviewed_analysis]>
          (api_analysis_files s).
Proof.
  intros s.
  apply (extract_and_integrate_stores_one_record "2024-05-01 10:00:00"
           unviewed_analysis "productivity" s).
  intros k ls l Hk Hl. unfold s, one_video_state in Hk. cbn in Hk.
  destruct (decide (k = "ai_tech")) as [->|Ha].
  { rewrite lookup_insert_eq in Hk. injection Hk as <-.
    apply elem_of_nil in Hl. contradiction. }
  rewrite lookup_insert_ne in Hk by congruence.
  destruct (decide (k = "health_fitness")) as [->|Hh].
  { rewrite lookup_insert_eq in Hk. injection Hk as <-.
    apply elem_of_nil in Hl. contradiction. }
  rewrite lookup_insert_ne in Hk by congruence.
  destruct (decide (k = "productivity")) as [->|Hp].
  { rewrite lookup_insert_eq in Hk. injection Hk as <-.
    apply list_elem_of_singleton in Hl. subst l. eexists. reflexivity. }
  rewrite lookup_insert_ne in Hk by congruence.
  rewrite lookup_empty in Hk. discriminate Hk.
Defined.

End IntegrationExamples.

(** ** Durations *)

Import YouTubeDataExtractor.

Lemma search_number_digits (unit : ascii) (digits rest : string) (run : option nat) :
  all_char isdigit digits = true →
  search_number_before unit run (digits +:+ rest)
  = search_number_before unit
      (match digits with
       | EmptyString => run
       | String _ _ => Some (decimal_from (default 0%nat run) digits)
       end) rest.
Proof.
  revert run. induction digits as [|c digits IH]; intros run Hall; [reflexivity|].
  cbn [all_char] in Hall. apply andb_prop in Hall as [Hc Hrest].
  simpl. rewrite Hc.
  rewrite (IH _ Hrest). destruct digits; reflexivity.
Qed.

Lemma search_number_component (unit c : ascii) (amount : option string)
    (rest : string) :
  isdigit c = false →
  is_amount amount →
  search_number_before unit None (component amount c rest)
  = match amount with
    | Some digits =>
        if decide (c = unit) then Some (decimal digits)
        else search_number_before unit None rest
    | None => search_number_before unit None rest
    end.
Proof.
  intros Hc Hamount. destruct amount as [digits|]; [|reflexivity].
  destruct Hamount as [Hne Hall]. cbn [component].
  rewrite (search_number_digits _ _ _ _ Hall).
  destruct digits as [|d digits]; [congruence|].
  cbn [search_number_before default]. rewrite Hc. reflexivity.
Qed.

(** X20.  [_parse_duration] reads the time part of an ISO 8601 duration
    correctly: on [PT], followed by any of an hours, a minutes and a seconds
    component in this order, each a decimal number and its unit letter, it
    returns 3600 times the hours plus 60 times the minutes plus the seconds,
    a missing component counting as 0.  The digits of one component are
    never taken for another unit. *)
Theorem parse_duration_reads_iso_time (hours minutes seconds : option string) :
  is_amount hours → is_amount minutes → is_amount seconds →
  _parse_duration
    ("PT" +:+ component hours "H" (component minutes "M" (component seconds "S" "")))
  = (amount_of hours * 3600 + amount_of minutes * 60 + amount_of seconds)%nat.
Proof.
  intros Hh Hm Hs. unfold _parse_duration.
  change ("PT" +:+ ?x) with (String "P" (String "T" x)).
  cbn [search_number_before isdigit]. 
  assert (HP : isdigit "P" = false) by reflexivity.
  assert (HT : isdigit "T" = false) by reflexivity.
  rewrite !HP, !HT.
  rewrite !search_number_component by (reflexivity || assumption).
  destruct hours as [h|], minutes as [m|], seconds as [s|]; reflexivity.
Qed.

Lemma parse_duration_reads_iso_time_witness :
  _parse_duration
    ("PT" +:+ component (Some "1") "H" (component None "M" (component (Some "30") "S" "")))
  = (amount_of (Some "1") * 3600 + amount_of None * 60 + amount_of (Some "30"))%nat.
Proof.
  apply (parse_duration_reads_iso_time (Some "1") None (Some "30")).
  - split; [discriminate|reflexivity].
  - exact I.
  - split; [discriminate|reflexivity].
Defined.

(** ** The two computations of the engagement ratios *)

(** X21.  The pattern identification of the extractor and the
    transformation of the integration module compute the engagement ratios
    separately, and they agree.  For an analysis completed with its own
    patterns, neither raises, and the transformed record either has
    [engagement_metrics] and lists the patterns [like_ratio] and
    [comment_ratio], whose values are the two ratios of the metrics, or it
    has no [engagement_metrics] and an empty list of engagement patterns. *)
Theorem detected_patterns_agree_with_engagement_metrics (analysis : Analysis)
    (niche : string) :
  ∃ p v d,
    _identify_patterns analysis = Returned p
    ∧ _transform_to_competitor_format (with_patterns p analysis) niche = Returned v
    ∧ v_detected_patterns v = Some d
    ∧ match v_engagement_metrics v with
      | Some m =>
          pd_engagement_patterns d = Some ["like_ratio"; "comment_ratio"]
          ∧ engagement_patterns p
            = Some [{| pn_pattern := Some "like_ratio";
                       pn_value := Some (like_ratio m) |};
                    {| pn_pattern := Some "comment_ratio";
                       pn_value := Some (comment_ratio m) |}]
      | None =>
          pd_engagement_patterns d = Some []
          ∧ engagement_patterns p = Some []
      end.
Proof.
  unfold _identify_patterns, _transform_to_competitor_format,
    identify_engagement_patterns, engagement_metrics_of, with_patterns.
  cbn [an_metadata an_patterns an_video_id an_video_url].
  set (e := default no_engagement
              (engagement (default no_metadata (an_metadata analysis)))).
  destruct (qgt (default 0%Q (view_count e)) 0) eqn:Eviews.
  - pose proof (qgt_zero_nonzero _ Eviews) as Hnz.
    rewrite !(py_div_returns _ _ Hnz). cbn [obind].
    assert (Hne : engagement_nonempty e = true).
    { unfold engagement_nonempty. destruct (view_count e) as [q|] eqn:Ev;
        [reflexivity|]. cbn in Eviews. discriminate Eviews. }
    rewrite Hne. rewrite ?(py_div_returns _ _ Hnz). cbn [obind].
    eexists _, _, _. split; [reflexivity|]. split; [reflexivity|].
    split; [reflexivity|]. cbn. split; reflexivity.
  - cbn [obind]. destruct (engagement_nonempty e); cbn [obind];
      (eexists _, _, _; split; [reflexivity|]; split; [reflexivity|];
       split; [reflexivity|]; cbn; split; reflexivity).
Qed.

(** ** Thumbnails of records that came through the API *)

Lemma api_imported_thumbnail (v : VideoRecord) :
  api_imported v →
  v_ctr v = None
  ∧ ∃ t, v_thumbnail v = Some t
         ∧ has_text t = true
         ∧ colors t = ["blue"; "red"; "white"].
Proof.
  intros (analysis & niche & v' & Hv' & Hv).
  unfold _transform_to_competitor_format in Hv'.
  destruct (engagement_metrics_of _) as [m|e]; [|discriminate Hv'].
  cbn [obind] in Hv'. injection Hv' as <-.
  destruct Hv as [->|(now & ->)]; cbn; eauto.
Qed.

Lemma preset_colors_count (vs : list VideoRecord) (n : nat) :
  (∀ v, v ∈ vs → colors (thumbnail_of v) = ["blue"; "red"; "white"]) →
  foldl count_word [("blue", S n); ("red", S n); ("white", S n)]
    (flat_map (λ v, colors (thumbnail_of v)) vs)
  = [("blue", S n + length vs); ("red", S n + length vs);
     ("white", S n + length vs)]%nat.
Proof.
  revert n. induction vs as [|v vs IH]; intros n Hall.
  - cbn. rewrite Nat.add_0_r. reflexivity.
  - cbn [flat_map]. rewrite (Hall v) by apply list_elem_of_here.
    cbn [app foldl]. 
    change (count_word
              (count_word
                 (count_word [("blue", S n); ("red", S n); ("white", S n)] "blue")
                 "red") "white")
      with [("blue", S (S n)); ("red", S (S n)); ("white", S (S n))].
    rewrite IH by (intros w Hw; apply Hall, list_elem_of_further, Hw).
    cbn [length].
    replace (S (S n) + length vs)%nat with (S n + S (length vs))%nat by lia.
    reflexivity.
Qed.

Section ApiThumbnails.

Context {J : Json}.

(** X22.  The thumbnail analysis of a niche that was filled through the
    API reflects the defaults of the transformation, not the videos: every
    record counts as showing text, so the text percentage is 100;
    [common_colors] is blue, red and white, each counted once per record;
    there is no click-through data, so no correlation; and the analysis
    always recommends a text overlay. *)
Theorem api_niche_thumbnail_analysis_is_preset (st : State) (niche : string)
    (refs : list loc) :
  competitor_data st !! niche = Some refs →
  refs ≠ [] →
  (∀ r, r ∈ refs → api_imported (deref (heap st) r)) →
  ∃ a,
    analyze_thumbnail_patterns st niche = Returned (ThumbnailsAnalysed a)
    ∧ total_thumbnails_analyzed a = length refs
    ∧ presence_count (text_presence a) = length refs
    ∧ (presence_percentage (text_presence a) == 100)%Q
    ∧ common_colors a
      = [("blue", length refs); ("red", length refs); ("white", length refs)]
    ∧ thumbnail_correlation a
      = {| face_vs_no_face_ctr := None; text_vs_no_text_ctr := None |}
    ∧ {| tr_type := "text";
         tr_recommendation := "Include text overlay in your thumbnails";
         tr_explanation := UsedInThumbnails (presence_percentage (text_presence a)) |}
      ∈ thumbnail_recommendations a.
Proof.
  intros Hniche Hne Hapi. unfold analyze_thumbnail_patterns. rewrite Hniche.
  destruct refs as [|r refs]; [congruence|].
  set (videos := map (deref (heap st)) (r :: refs)).
  assert (Hall : ∀ v, v ∈ videos →
            v_ctr v = None
            ∧ ∃ t, v_thumbnail v = Some t ∧ has_text t = true
                   ∧ colors t = ["blue"; "red"; "white"]).
  { intros v Hv. apply list_elem_of_fmap in Hv as (l & -> & Hl).
    apply api_imported_thumbnail, Hapi, Hl. }
  rewrite (filter_every has_thumbnail videos).
  2:{ intros v Hv. destruct (Hall v Hv) as (_ & t & Ht & _).
      unfold has_thumbnail. rewrite Ht. reflexivity. }
  assert (Hlen : length videos = S (length refs)).
  { unfold videos. rewrite length_map. reflexivity. }
  destruct videos as [|v vs] eqn:Evideos; [discriminate Hlen|].
  rewrite <- Evideos in *. rewrite Hlen.
  rewrite !py_div_S. cbn [obind].
  rewrite (filter_every shows_text videos).
  2:{ intros w Hw. destruct (Hall w Hw) as (_ & t & Ht & Htext & _).
      unfold shows_text, thumbnail_of. rewrite Ht. exact Htext. }
  unfold thumbnail_performance.
  rewrite (filter_none has_ctr videos).
  2:{ intros w Hw. destruct (Hall w Hw) as (Hctr & _).
      unfold has_ctr. rewrite Hctr. reflexivity. }
  cbn [obind]. rewrite Hlen.
  assert (Hcolors : ∀ w, w ∈ videos →
            colors (thumbnail_of w) = ["blue"; "red"; "white"]).
  { intros w Hw. destruct (Hall w Hw) as (_ & t & Ht & _ & Hc).
    unfold thumbnail_of. rewrite Ht. exact Hc. }
  assert (Htable : foldl count_word []
                     (flat_map (λ w, colors (thumbnail_of w)) videos)
                   = [("blue", S (length refs)); ("red", S (length refs));
                      ("white", S (length refs))]).
  { rewrite Evideos in Hcolors |- *. cbn [flat_map].
    rewrite (Hcolors v) by apply list_elem_of_here. cbn [app foldl].
    change (count_word (count_word (count_word [] "blue") "red") "white")
      with [("blue", 1%nat); ("red", 1%nat); ("white", 1%nat)].
    rewrite (preset_colors_count vs 0)
      by (intros w Hw; apply Hcolors, list_elem_of_further, Hw).
    rewrite Evideos in Hlen. cbn [length] in Hlen.
    injection Hlen as ->. reflexivity. }
  rewrite Htable.
  assert (Hpct : (qnat (S (length refs)) / qnat (S (length refs)) * 100 == 100)%Q).
  { pose proof (qnat_S_pos (length refs)). field. lra. }
  assert (Htext : qgt (qnat (S (length refs)) / qnat (S (length refs)) * 100) 70
                  = true).
  { apply qgt_spec. rewrite Hpct. lra. }
  eexists. split; [reflexivity|].
  cbn [total_thumbnails_analyzed text_presence presence_count
       presence_percentage common_colors thumbnail_correlation
       thumbnail_recommendations length].
  split; [reflexivity|]. split; [reflexivity|]. split; [exact Hpct|]. split.
  - unfold sorted_desc, count_ltb.
    repeat (cbn [foldr insert_desc snd]; rewrite ?Nat.ltb_irrefl).
    reflexivity.
  - split; [reflexivity|].
    unfold _generate_thumbnail_recommendations.
    cbn [face_vs_no_face_ctr text_vs_no_text_ctr]. rewrite Htext.
    apply elem_of_app. right. apply list_elem_of_here.
Qed.

End ApiThumbnails.

Section ApiThumbnailsExamples.

#[local] Existing Instance member_list_json.

Lemma api_niche_thumbnail_analysis_is_preset_witness :
  ∃ a,
    analyze_thumbnail_patterns api_state "ai_tech" = Returned (ThumbnailsAnalysed a)
    ∧ total_thumbnails_analyzed a = length [1%positive; 2%positive]
    ∧ presence_count (text_presence a) = length [1%positive; 2%positive]
    ∧ (presence_percentage (text_presence a) == 100)%Q
    ∧ common_colors a
      = [("blue", length [1%positive; 2%positive]);
         ("red", length [1%positive; 2%positive]);
         ("white", length [1%positive; 2%positive])]
    ∧ thumbnail_correlation a
      = {| face_vs_no_face_ctr := None; text_vs_no_text_ctr := None |}
    ∧ {| tr_type := "text";
         tr_recommendation := "Include text overlay in your thumbnails";
         tr_explanation := UsedInThumbnails (presence_percentage (text_presence a)) |}
      ∈ thumbnail_recommendations a.
Proof.
  apply (api_niche_thumbnail_analysis_is_preset api_state "ai_tech"
           [1%positive; 2%positive]).
  - reflexivity.
  - discriminate.
  - intros r Hr. exists unviewed_analysis, "ai_tech".
    eexists. split; [reflexivity|]. right.
    apply elem_of_cons in Hr as [->|Hr];
      [|apply list_elem_of_singleton in Hr; subst r]; eexists; reflexivity.
Defined.

End ApiThumbnailsExamples.
